(** * Retainr: failed-payment lifecycle of the webhook and recovery routes

    A shallow embedding of [src/server/routes.ts], [src/server/email.ts] and
    of the table declarations of [shared/schema] that [routes.ts] carries.

    - JavaScript values keep their run-time shape: a nullable string is an
      [option string], and a test such as [!x] is the truthiness of [x];
      numbers are IEEE doubles ([PrimFloat]) where the code divides and
      formats them, and integers ([Z]) where it only stores or adds one.
    - The database is a record of tables, each a list of rows in insertion
      order, with one counter per [serial] column.  It refuses a number
      that its 32-bit [integer] column cannot hold and a [null] in a
      [notNull] column.
    - An [async] function is a state transformer on the [World] (the tables
      and the log of calls that left the process) that either returns or
      throws; what was written before a throw stays written.  Running a
      handler as such a function is running it alone, from its first
      line to its last.  The server may start a request while another
      waits for the database or for Stripe: the properties of runs of
      requests are about requests handled one after another, and two
      examples show what overlapping deliveries can do.
    - The Stripe SDK, the Resend SDK and [process.env] are the fields of
      [Env]: the handlers are parametric in what these answer. *)

From Stdlib Require Import ZArith List String Ascii Bool Lia.
From Stdlib Require Import PrimFloat FloatOps SpecFloat DecimalString.
Import ListNotations.

Local Open Scope string_scope.
Local Open Scope Z_scope.

(* ================================================================== *)
(** ** JavaScript run-time operations used by the routes *)

Module Js.

(** [!!s] for a value of type [string | null | undefined]. *)
Definition truthy (s : option string) : bool :=
  match s with
  | Some s => negb (String.eqb s "")
  | None => false
  end.

(** [s || null]. *)
Definition orNull (s : option string) : option string :=
  if truthy s then s else None.

(** [`${s}`] for a string that may be [undefined]. *)
Definition interpolate (s : option string) : string :=
  match s with
  | Some s => s
  | None => "undefined"
  end.

(** [String(n)] for an integral number. *)
Definition integerToString (n : Z) : string :=
  NilEmpty.string_of_int (Z.to_int n).

(** The double nearest to an integer (ties to even), as a number read from
    an integer column or from a JSON integer is. *)
Definition numberOfZ (n : Z) : float :=
  SF2Prim (binary_normalize prec emax n 0 false).

(** [x.toFixed(2)]: the integer [n] for which [n / 100 - x] is closest to
    zero, the larger one on a tie, printed with two decimals.  From
    [10^21] on, JavaScript prints [Number::toString x] instead, which is
    left to the parameter [big]. *)
Definition hundredths (m : positive) (e : Z) : Z :=
  if 0 <=? e then 100 * Z.pos m * 2 ^ e
  else (200 * Z.pos m + 2 ^ (- e)) / 2 ^ (1 - e).

Definition padCents (c : Z) : string :=
  (if c <? 10 then "0" else "") ++ integerToString c.

Definition toFixed2 (big : float -> string) (x : float) : string :=
  match Prim2SF x with
  | S754_nan => "NaN"
  | S754_infinity s => if s then "-Infinity" else "Infinity"
  | S754_zero _ => "0.00"
  | S754_finite s m e =>
      if PrimFloat.leb (numberOfZ (10 ^ 21)) (PrimFloat.abs x) then
        (if s then "-" else "") ++ big (PrimFloat.abs x)
      else
        let n := hundredths m e in
        (if s then "-" else "")
          ++ integerToString (n / 100) ++ "." ++ padCents (n mod 100)
  end.

(** [GetSubstitution] of ECMA-262 for a pattern without capture groups:
    [$$] is a dollar, [$&] the match, [$`] what precedes it, [$'] what
    follows it; a dollar before anything else stands for itself. *)
Fixpoint getSubstitution (matched before after template : string) : string :=
  match template with
  | EmptyString => EmptyString
  | String c rest =>
      if Ascii.eqb c "$" then
        match rest with
        | String d rest' =>
            if Ascii.eqb d "$" then
              String "$" (getSubstitution matched before after rest')
            else if Ascii.eqb d "&" then
              matched ++ getSubstitution matched before after rest'
            else if Ascii.eqb d "`" then
              before ++ getSubstitution matched before after rest'
            else if Ascii.eqb d "'" then
              after ++ getSubstitution matched before after rest'
            else
              String c (String d (getSubstitution matched before after rest'))
        | EmptyString => String c EmptyString
        end
      else String c (getSubstitution matched before after rest)
  end.

Fixpoint drop (n : nat) (s : string) : string :=
  match n, s with
  | S n', String _ s' => drop n' s'
  | _, _ => s
  end.

(** [s.replace(/token/g, replacement)] for a literal, non-empty [token]:
    matches are taken left to right and do not overlap; [before] is the
    part of the subject already passed and [skip] counts the characters of
    a match still to be passed. *)
Fixpoint replaceFrom (token replacement before s : string) (skip : nat) : string :=
  match s with
  | EmptyString => EmptyString
  | String c s' =>
      match skip with
      | S k => replaceFrom token replacement (before ++ String c EmptyString) s' k
      | O =>
          if String.prefix token s then
            getSubstitution token before (drop (String.length token) s) replacement
              ++ replaceFrom token replacement (before ++ String c EmptyString) s'
                   (Nat.pred (String.length token))
          else
            String c (replaceFrom token replacement (before ++ String c EmptyString) s' O)
      end
  end.

Definition replaceAll (token replacement s : string) : string :=
  replaceFrom token replacement EmptyString s O.

(** [parseInt(s)], without a radix, for a string of characters below 256:
    white space is skipped, then a sign is read, then [0x] or [0X] selects
    radix 16 (radix 10 otherwise), and the longest run of digits of that
    radix is the number; without a digit the result is [NaN], here
    [None].  The result is the integer the digits denote: the number
    JavaScript makes of it is the nearest double, the same integer up to
    [2^53]. *)
Definition isWhiteSpace (c : ascii) : bool :=
  let n := Z.of_nat (nat_of_ascii c) in
  ((9 <=? n) && (n <=? 13)) || (n =? 32) || (n =? 160).

Fixpoint trimStart (s : string) : string :=
  match s with
  | String c rest => if isWhiteSpace c then trimStart rest else s
  | EmptyString => EmptyString
  end.

Definition digitValue (c : ascii) : option Z :=
  let n := Z.of_nat (nat_of_ascii c) in
  if (48 <=? n) && (n <=? 57) then Some (n - 48)
  else if (97 <=? n) && (n <=? 122) then Some (n - 87)
  else if (65 <=? n) && (n <=? 90) then Some (n - 55)
  else None.

(** The digits at the start of [s]; [read] is the number read so far,
    [None] before the first digit. *)
Fixpoint readDigits (radix : Z) (s : string) (read : option Z) : option Z :=
  match s with
  | String c rest =>
      match digitValue c with
      | Some d =>
          if d <? radix then
            readDigits radix rest
              (Some (radix * match read with Some n => n | None => 0 end + d))
          else read
      | None => read
      end
  | EmptyString => read
  end.

Definition parseInt (s : string) : option Z :=
  let s := trimStart s in
  let sign :=
    match s with
    | String c _ => if Ascii.eqb c "-" then -1 else 1
    | EmptyString => 1
    end in
  let s :=
    match s with
    | String c rest => if Ascii.eqb c "-" || Ascii.eqb c "+" then rest else s
    | EmptyString => s
    end in
  let hex :=
    match s with
    | String c (String x _) => Ascii.eqb c "0" && (Ascii.eqb x "x" || Ascii.eqb x "X")
    | _ => false
    end in
  option_map (Z.mul sign)
    (if hex then readDigits 16 (drop 2 s) None else readDigits 10 s None).

End Js.

(* ================================================================== *)
(** ** The tables of [shared/schema]

    A column declared [.notNull()] holds a value, any other column an
    optional one; [serial] and [timestamp] columns hold integers (a row
    number, milliseconds since the epoch). *)

Module Schema.

Record User := {
  user_id : Z;
  user_email : string;
  username : string;
  password : string;
  stripeAccountId : option string;
  isConnected : option bool;
  subscriptionStatus : option string;
  user_createdAt : option Z
}.

Record FailedPayment := {
  id : Z;
  userId : Z;
  stripePaymentIntentId : string;
  stripeCustomerId : string;
  customerEmail : string;
  amount : Z;
  currency : string;
  status : option string;
  failureReason : option string;
  attemptCount : option Z;
  nextRetryAt : option Z;
  createdAt : option Z;
  recoveredAt : option Z
}.

Record DunningLog := {
  log_id : Z;
  failedPaymentId : Z;
  sentAt : option Z;
  emailTemplate : string;
  log_status : option string
}.

Record EmailTemplate := {
  template_id : Z;
  template_userId : Z;
  type : string;
  subject : string;
  body : string;
  isEnabled : option bool
}.

Record Db := {
  users : list User;
  failedPayments : list FailedPayment;
  emailTemplates : list EmailTemplate;
  dunningLogs : list DunningLog;
  failedPayments_id_seq : Z;
  dunningLogs_id_seq : Z
}.

(** [eq(column, value)] on a nullable text column: NULL equals nothing. *)
Definition eqText (column : option string) (value : string) : bool :=
  match column with
  | Some c => String.eqb c value
  | None => false
  end.

Definition eqBool (column : option bool) (value : bool) : bool :=
  match column with
  | Some c => Bool.eqb c value
  | None => false
  end.

End Schema.
Export Schema.

(* ================================================================== *)
(** ** What the process exchanges with Stripe and Resend *)

Inductive Outcome (A : Type) : Type :=
| Returned (value : A)
| Thrown (message : string).
Arguments Returned {A} value.
Arguments Thrown {A} message.

Module Stripe.

(** The fields of [Stripe.PaymentIntent] that the handlers read. *)
Record PaymentIntent := {
  pi_id : string;
  on_behalf_of : option string;
  receipt_email : option string;
  customer : option string;
  pi_amount : Z;
  pi_currency : string;
  last_payment_error_message : option string
}.

Record Event := {
  event_type : string;
  data_object : PaymentIntent
}.

(** [Stripe.Customer | Stripe.DeletedCustomer]. *)
Record Customer := {
  deleted : bool;
  email : option string
}.

End Stripe.
Export Stripe.

(** A call that leaves the process. *)
Inductive Call : Type :=
| CustomersRetrieve (customerId : string)
| CustomersUpdate (customerId : string) (default_payment_method : option string)
| PaymentIntentsConfirm (paymentIntentId : string)
| EmailsSend (to subject html : string).

(** The collaborators: environment variables, the Stripe SDK
    ([constructEvent] checks the signature locally), the Resend SDK, and
    the run time's [Number::toString] for numbers from [10^21] on. *)
Record Env := {
  STRIPE_WEBHOOK_SECRET : option string;
  BASE_URL : option string;
  constructEvent : string -> string -> string -> Outcome Event;
  customers_retrieve : string -> Outcome Customer;
  customers_update : string -> option string -> Outcome unit;
  paymentIntents_confirm : string -> Outcome unit;
  emails_send : string -> string -> string -> Outcome unit;
  Number_toString : float -> string
}.

Record World := {
  db : Db;
  calls : list Call
}.

(* ================================================================== *)
(** ** Async functions: state, and a result that may be an exception *)

Definition Async (A : Type) : Type := World -> Outcome A * World.

Definition ret {A} (a : A) : Async A := fun w => (Returned a, w).

Definition throw {A} (message : string) : Async A := fun w => (Thrown message, w).

Definition bind {A B} (m : Async A) (k : A -> Async B) : Async B :=
  fun w =>
    match m w with
    | (Returned a, w') => k a w'
    | (Thrown e, w') => (Thrown e, w')
    end.

(** [try { body } catch (error) { handler(error.message) }]. *)
Definition tryCatch {A} (body : Async A) (handler : string -> Async A) : Async A :=
  fun w =>
    match body w with
    | (Returned a, w') => (Returned a, w')
    | (Thrown e, w') => handler e w'
    end.

Notation "'await' x <- m ; k" := (bind m (fun x => k))
  (at level 61, x name, m at next level, right associativity).
Notation "m ;; k" := (bind m (fun _ => k))
  (at level 61, right associativity).

(** A call to a collaborator: logged, then answered by the environment. *)
Definition external {A} (c : Call) (answer : Outcome A) : Async A :=
  fun w => (answer, {| db := db w; calls := calls w ++ [c] |}).

Definition readDb {A} (f : Db -> A) : Async A :=
  fun w => (Returned (f (db w)), w).

Definition writeDb (f : Db -> Db) : Async unit :=
  fun w => (Returned tt, {| db := f (db w); calls := calls w |}).

(* ================================================================== *)
(** ** The query builder, for the calls the routes make

    When the database refuses a statement the call throws; the message
    stands for the one of the database, which the routes only pass on. *)

Module Drizzle.

(** [db.query.<table>.findFirst({ where })]: the first row that matches,
    which is the matching row where there is only one (the query names
    no order). *)
Definition findFirst {R} (table : Db -> list R) (where_ : R -> bool) : Async (option R) :=
  readDb (fun d => find where_ (table d)).

(** What an [integer] or [serial] column holds: a 32-bit signed integer.
    The database refuses any other number handed to it for such a
    column. *)
Definition int4 (n : Z) : bool :=
  (-2147483648 <=? n) && (n <=? 2147483647).

(** [db.update(failedPayments).set(...).where(...)], for values the
    columns hold. *)
Definition update_failedPayments
    (set : FailedPayment -> FailedPayment) (where_ : FailedPayment -> bool) : Async unit :=
  writeDb (fun d =>
    {| users := users d;
       failedPayments := map (fun r => if where_ r then set r else r) (failedPayments d);
       emailTemplates := emailTemplates d;
       dunningLogs := dunningLogs d;
       failedPayments_id_seq := failedPayments_id_seq d;
       dunningLogs_id_seq := dunningLogs_id_seq d |}).

Definition set_attemptCount (n : Z) (r : FailedPayment) : FailedPayment :=
  {| id := id r; userId := userId r;
     stripePaymentIntentId := stripePaymentIntentId r;
     stripeCustomerId := stripeCustomerId r;
     customerEmail := customerEmail r;
     amount := amount r; currency := currency r;
     status := status r; failureReason := failureReason r;
     attemptCount := Some n;
     nextRetryAt := nextRetryAt r; createdAt := createdAt r;
     recoveredAt := recoveredAt r |}.

Definition set_status_recoveredAt (s : string) (t : Z) (r : FailedPayment) : FailedPayment :=
  {| id := id r; userId := userId r;
     stripePaymentIntentId := stripePaymentIntentId r;
     stripeCustomerId := stripeCustomerId r;
     customerEmail := customerEmail r;
     amount := amount r; currency := currency r;
     status := Some s; failureReason := failureReason r;
     attemptCount := attemptCount r;
     nextRetryAt := nextRetryAt r; createdAt := createdAt r;
     recoveredAt := Some t |}.

(** [db.update(failedPayments).set({ attemptCount: n }).where(...)]: a
    number the column cannot hold is refused when the statement is
    prepared, and nothing is written. *)
Definition update_attemptCount (n : Z) (where_ : FailedPayment -> bool) : Async unit :=
  if int4 n then update_failedPayments (set_attemptCount n) where_
  else throw "value out of range for type integer".

(** The object handed to [db.insert(failedPayments).values(...)] at run
    time: [paymentIntent.customer as string] may be [null]. *)
Record FailedPaymentValues := {
  v_userId : Z;
  v_stripePaymentIntentId : string;
  v_stripeCustomerId : option string;
  v_customerEmail : string;
  v_amount : Z;
  v_currency : string;
  v_status : string;
  v_failureReason : option string;
  v_attemptCount : Z;
  v_nextRetryAt : Z
}.

(** The numbers of [v] fit their [integer] columns. *)
Definition integersFit (v : FailedPaymentValues) : bool :=
  int4 (v_userId v) && int4 (v_amount v) && int4 (v_attemptCount v).

(** [db.insert(failedPayments).values(v).returning()].  The database
    refuses the statement
    - when it is prepared, if a number does not fit its [integer]
      column: nothing has happened yet;
    - when the [id] is drawn, if the sequence of the [serial] column is
      exhausted;
    - when the row is checked, if the [notNull] column
      [stripe_customer_id] is [null]: the [id] drawn for the row is
      lost, the sequence does not go back.
    Otherwise the row is stored with the [id] drawn and
    [createdAt = now]. *)
Definition insert_failedPayments (now : Z) (v : FailedPaymentValues) : Async FailedPayment :=
  if negb (integersFit v) then
    throw "value out of range for type integer"
  else
    await n <- readDb failedPayments_id_seq;
    if negb (int4 n) then
      throw "nextval: reached maximum value of sequence failed_payments_id_seq"
    else
      writeDb (fun d =>
        {| users := users d;
           failedPayments := failedPayments d;
           emailTemplates := emailTemplates d;
           dunningLogs := dunningLogs d;
           failedPayments_id_seq := n + 1;
           dunningLogs_id_seq := dunningLogs_id_seq d |}) ;;
      match v_stripeCustomerId v with
      | None =>
          throw "null value in column stripe_customer_id violates not-null constraint"
      | Some customerId =>
          let row :=
            {| id := n; userId := v_userId v;
               stripePaymentIntentId := v_stripePaymentIntentId v;
               stripeCustomerId := customerId;
               customerEmail := v_customerEmail v;
               amount := v_amount v; currency := v_currency v;
               status := Some (v_status v);
               failureReason := v_failureReason v;
               attemptCount := Some (v_attemptCount v);
               nextRetryAt := Some (v_nextRetryAt v);
               createdAt := Some now;
               recoveredAt := None |} in
          writeDb (fun d =>
            {| users := users d;
               failedPayments := failedPayments d ++ [row];
               emailTemplates := emailTemplates d;
               dunningLogs := dunningLogs d;
               failedPayments_id_seq := failedPayments_id_seq d;
               dunningLogs_id_seq := dunningLogs_id_seq d |}) ;;
          ret row
      end.

(** [db.insert(dunningLogs).values({ failedPaymentId, emailTemplate, status })],
    for the id of a stored payment and a sequence of ids that is not
    exhausted. *)
Definition insert_dunningLogs (now : Z)
    (failedPaymentId_ : Z) (emailTemplate_ status_ : string) : Async unit :=
  writeDb (fun d =>
    {| users := users d;
       failedPayments := failedPayments d;
       emailTemplates := emailTemplates d;
       dunningLogs := dunningLogs d ++
         [ {| log_id := dunningLogs_id_seq d;
              failedPaymentId := failedPaymentId_;
              sentAt := Some now;
              emailTemplate := emailTemplate_;
              log_status := Some status_ |} ];
       failedPayments_id_seq := failedPayments_id_seq d;
       dunningLogs_id_seq := dunningLogs_id_seq d + 1 |}).

End Drizzle.

(* ================================================================== *)
(** ** [src/server/email.ts] *)

Module Email.

(** Returns [true] when Resend accepted the message and [false] when the
    call threw; nothing is thrown to the caller. *)
Definition sendDunningEmail (env : Env) (to subject_ body_ : string) : Async bool :=
  tryCatch
    (external (EmailsSend to subject_ body_) (emails_send env to subject_ body_) ;;
     ret true)
    (fun _ => ret false).

End Email.

(* ================================================================== *)
(** ** [src/server/routes.ts] *)

Module Routes.

Import Drizzle.

Definition sendEmail := Email.sendDunningEmail.

(** What a handler sends back. *)
Inductive Payload : Type :=
| Text (text : string)
| Json_received
| Json_success
| Json_error (error : string).

Record Response := {
  statusCode : Z;
  payload : Payload
}.

(** [`$${(amount / 100).toFixed(2)}`] *)
Definition amountText (env : Env) (amount_ : Z) : string :=
  "$" ++ Js.toFixed2 (Number_toString env)
           (PrimFloat.div (Js.numberOfZ amount_) (Js.numberOfZ 100)).

(** The three [replace] calls on the template body. *)
Definition renderBody (env : Env) (updateLink : string) (payment : FailedPayment)
    (templateBody : string) : string :=
  Js.replaceAll "{{customerEmail}}" (customerEmail payment)
    (Js.replaceAll "{{amount}}" (amountText env (amount payment))
      (Js.replaceAll "{{updateLink}}" updateLink templateBody)).

Definition sendDunningEmail (env : Env) (now : Z) (failedPaymentId_ userId_ : Z) : Async unit :=
  await payment <- findFirst failedPayments (fun p => id p =? failedPaymentId_);
  match payment with
  | None => ret tt
  | Some payment =>
      await template <- findFirst emailTemplates
        (fun t => (template_userId t =? userId_)
                  && String.eqb (type t) "first_failure"
                  && eqBool (isEnabled t) true);
      match template with
      | None => ret tt
      | Some template =>
          let updateLink :=
            Js.interpolate (BASE_URL env) ++ "/payment/"
              ++ Js.integerToString failedPaymentId_ in
          let emailBody := renderBody env updateLink payment (body template) in
          sendEmail env (customerEmail payment) (subject template) emailBody ;;
          insert_dunningLogs now (id payment) (type template) "sent"
      end
  end.

(** Lines 114-120 of [handlePaymentFailed]: the receipt email, or the
    email of the Stripe customer when the event carries none. *)
Definition customerEmailOf (env : Env) (paymentIntent : PaymentIntent) : Async (option string) :=
  match customer paymentIntent with
  | Some customerId =>
      if negb (Js.truthy (receipt_email paymentIntent)) && negb (String.eqb customerId "")
      then
        await c <- external (CustomersRetrieve customerId) (customers_retrieve env customerId);
        if negb (deleted c) then ret (Js.orNull (email c))
        else ret (receipt_email paymentIntent)
      else ret (receipt_email paymentIntent)
  | None => ret (receipt_email paymentIntent)
  end.

(** [existing.attemptCount + 1], where [null + 1] is [1]. *)
Definition nextAttempt (attemptCount_ : option Z) : Z :=
  match attemptCount_ with
  | Some n => n + 1
  | None => 1
  end.

(** Lines 131-153 of [handlePaymentFailed]: what it does once the
    lookup of the row tracking the payment intent has answered
    [existing]. *)
Definition recordFailure (env : Env) (now : Z) (paymentIntent : PaymentIntent)
    (user : User) (customerEmail_ : string) (existing : option FailedPayment) : Async unit :=
  match existing with
  | Some existing =>
      update_attemptCount (nextAttempt (attemptCount existing))
        (fun p => id p =? id existing)
  | None =>
      await failedPayment <- insert_failedPayments now
        {| v_userId := user_id user;
           v_stripePaymentIntentId := pi_id paymentIntent;
           v_stripeCustomerId := customer paymentIntent;
           v_customerEmail := customerEmail_;
           v_amount := pi_amount paymentIntent;
           v_currency := pi_currency paymentIntent;
           v_status := "failed";
           v_failureReason := Js.orNull (last_payment_error_message paymentIntent);
           v_attemptCount := 1;
           v_nextRetryAt := now + 24 * 60 * 60 * 1000 |};
      sendDunningEmail env now (id failedPayment) (user_id user)
  end.

Definition handlePaymentFailed (env : Env) (now : Z) (paymentIntent : PaymentIntent) : Async unit :=
  match on_behalf_of paymentIntent with
  | None => ret tt
  | Some connectedAccountId =>
  if String.eqb connectedAccountId "" then ret tt else
  await user <- findFirst users (fun u => eqText (stripeAccountId u) connectedAccountId);
  match user with
  | None => ret tt
  | Some user =>
  await customerEmail_ <- customerEmailOf env paymentIntent;
  match customerEmail_ with
  | None => ret tt
  | Some customerEmail_ =>
  if String.eqb customerEmail_ "" then ret tt else
  await existing <- findFirst failedPayments
    (fun p => String.eqb (stripePaymentIntentId p) (pi_id paymentIntent));
  recordFailure env now paymentIntent user customerEmail_ existing
  end
  end
  end.

Definition handlePaymentSucceeded (now : Z) (paymentIntent : PaymentIntent) : Async unit :=
  await failedPayment <- findFirst failedPayments
    (fun p => String.eqb (stripePaymentIntentId p) (pi_id paymentIntent));
  match failedPayment with
  | Some failedPayment =>
      if eqText (status failedPayment) "failed" then
        update_failedPayments (set_status_recoveredAt "recovered" now)
          (fun p => id p =? id failedPayment)
      else ret tt
  | None => ret tt
  end.

(** The [switch (event.type)] of the webhook route. *)
Definition dispatch (env : Env) (now : Z) (event : Event) : Async unit :=
  if String.eqb (event_type event) "payment_intent.payment_failed" then
    handlePaymentFailed env now (data_object event)
  else if String.eqb (event_type event) "payment_intent.succeeded" then
    handlePaymentSucceeded now (data_object event)
  else ret tt.

Record WebhookRequest := {
  stripe_signature : option string;
  rawBody : string
}.

(** [POST /api/stripe/webhook] *)
Definition stripeWebhook (env : Env) (now : Z) (req : WebhookRequest) : Async Response :=
  match stripe_signature req, STRIPE_WEBHOOK_SECRET env with
  | Some sig, Some webhookSecret =>
      if String.eqb sig "" || String.eqb webhookSecret "" then
        ret {| statusCode := 400; payload := Text "Missing signature" |}
      else
        match constructEvent env (rawBody req) sig webhookSecret with
        | Thrown message =>
            ret {| statusCode := 400; payload := Text ("Webhook Error: " ++ message) |}
        | Returned event =>
            tryCatch
              (dispatch env now event ;;
               ret {| statusCode := 200; payload := Json_received |})
              (fun message =>
                 ret {| statusCode := 500; payload := Text ("Error: " ++ message) |})
        end
  | _, _ => ret {| statusCode := 400; payload := Text "Missing signature" |}
  end.

(** The handler of [POST /api/public/payment/:id/update] from line 31
    on, for a path parameter that [parseInt] read as the 32-bit integer
    [paymentId]; [paymentMethodId] is the field of the JSON body. *)
Definition updatePaymentMethod (env : Env) (now : Z)
    (paymentId : Z) (paymentMethodId : option string) : Async Response :=
  await payment <- findFirst failedPayments (fun p => id p =? paymentId);
  match payment with
  | None => ret {| statusCode := 404; payload := Json_error "Payment not found" |}
  | Some payment =>
      tryCatch
        (external (CustomersUpdate (stripeCustomerId payment) paymentMethodId)
           (customers_update env (stripeCustomerId payment) paymentMethodId) ;;
         external (PaymentIntentsConfirm (stripePaymentIntentId payment))
           (paymentIntents_confirm env (stripePaymentIntentId payment)) ;;
         update_failedPayments (set_status_recoveredAt "recovered" now)
           (fun p => id p =? paymentId) ;;
         ret {| statusCode := 200; payload := Json_success |})
        (fun message => ret {| statusCode := 500; payload := Json_error message |})
  end.

(** [POST /api/public/payment/:id/update], from the path parameter as it
    was sent.  [parseInt] and the lookup of the payment come before the
    [try]: when the parameter is no number, or a number the [integer]
    column [id] cannot hold, the database refuses the lookup, the promise
    of the handler rejects and no response is sent: the result is
    [Thrown]. *)
Definition postPaymentUpdate (env : Env) (now : Z)
    (idParam : string) (paymentMethodId : option string) : Async Response :=
  match Js.parseInt idParam with
  | Some paymentId =>
      if int4 paymentId then updatePaymentMethod env now paymentId paymentMethodId
      else throw "value out of range for type integer"
  | None => throw "invalid input syntax for type integer: NaN"
  end.

End Routes.

(* ================================================================== *)
(** ** Observations on a world, used to state the properties *)

Import Routes.

(** Rows of [failed_payments] tracking a payment intent. *)
Definition tracks (paymentIntentId : string) (p : FailedPayment) : bool :=
  String.eqb (stripePaymentIntentId p) paymentIntentId.

Definition rowsFor (paymentIntentId : string) (d : Db) : list FailedPayment :=
  filter (tracks paymentIntentId) (failedPayments d).

(** A row whose status is not ['recovered']. *)
Definition unrecovered (p : FailedPayment) : bool :=
  negb (eqText (status p) "recovered").

Definition openRowsFor (paymentIntentId : string) (d : Db) : list FailedPayment :=
  filter (fun p => tracks paymentIntentId p && unrecovered p) (failedPayments d).

(** The invariant of the data model. *)
Definition atMostOneOpen (d : Db) : Prop :=
  forall paymentIntentId, (List.length (openRowsFor paymentIntentId d) <= 1)%nat.

(** Calls of the Notification Sender among the calls made so far. *)
Definition isEmailsSend (c : Call) : bool :=
  match c with
  | EmailsSend _ _ _ => true
  | _ => false
  end.

Definition emailsSent (w : World) : list Call := filter isEmailsSend (calls w).

(** The enabled ['first_failure'] template that [sendDunningEmail] looks up. *)
Definition firstFailureTemplate (userId_ : Z) (d : Db) : option EmailTemplate :=
  find (fun t => (template_userId t =? userId_)
                 && String.eqb (type t) "first_failure"
                 && eqBool (isEnabled t) true)
       (emailTemplates d).

(** The event that passed verification, if the request did. *)
Definition verifiedEvent (env : Env) (req : WebhookRequest) : option Event :=
  match stripe_signature req, STRIPE_WEBHOOK_SECRET env with
  | Some sig, Some webhookSecret =>
      if String.eqb sig "" || String.eqb webhookSecret "" then None
      else match constructEvent env (rawBody req) sig webhookSecret with
           | Returned event => Some event
           | Thrown _ => None
           end
  | _, _ => None
  end.

(** A request that fails verification: no signature header, no secret
    configured, or a signature that [constructEvent] refuses. *)
Inductive Rejected (env : Env) (req : WebhookRequest) : Prop :=
| MissingSignature :
    Js.truthy (stripe_signature req) = false -> Rejected env req
| MissingSecret :
    Js.truthy (STRIPE_WEBHOOK_SECRET env) = false -> Rejected env req
| BadSignature sig webhookSecret message :
    stripe_signature req = Some sig ->
    STRIPE_WEBHOOK_SECRET env = Some webhookSecret ->
    constructEvent env (rawBody req) sig webhookSecret = Thrown message ->
    Rejected env req.

(** The event names a connected account of a known user [user], and an
    email [customerEmail_] is found for the customer: the checks of
    [handlePaymentFailed] before it looks for an existing row. *)
Record Resolves (env : Env) (paymentIntent : PaymentIntent) (w : World)
    (user : User) (customerEmail_ : string) : Prop := {
  resolves_account :
    exists connectedAccountId,
      on_behalf_of paymentIntent = Some connectedAccountId /\
      connectedAccountId <> "" /\
      find (fun u => eqText (stripeAccountId u) connectedAccountId) (users (db w))
        = Some user;
  resolves_email :
    fst (customerEmailOf env paymentIntent w) = Returned (Some customerEmail_);
  resolves_nonempty : customerEmail_ <> ""
}.

(** One delivery to the webhook route, and a run of deliveries handled
    one after another: each is handled in the world the one before it
    left. *)
Record Delivery := {
  delivery_env : Env;
  delivery_now : Z;
  delivery_request : WebhookRequest
}.

Definition deliver (w : World) (d : Delivery) : World :=
  snd (stripeWebhook (delivery_env d) (delivery_now d) (delivery_request d) w).

Definition deliverAll (ds : list Delivery) (w : World) : World :=
  fold_left deliver ds w.

(* ================================================================== *)
(** ** The worlds a handler can leave *)

(** The values [handlePaymentFailed] inserts for a new failure. *)
Definition newFailure (now : Z) (paymentIntent : PaymentIntent)
    (user : User) (customerEmail_ : string) : Drizzle.FailedPaymentValues :=
  {| Drizzle.v_userId := user_id user;
     Drizzle.v_stripePaymentIntentId := pi_id paymentIntent;
     Drizzle.v_stripeCustomerId := customer paymentIntent;
     Drizzle.v_customerEmail := customerEmail_;
     Drizzle.v_amount := pi_amount paymentIntent;
     Drizzle.v_currency := pi_currency paymentIntent;
     Drizzle.v_status := "failed";
     Drizzle.v_failureReason := Js.orNull (last_payment_error_message paymentIntent);
     Drizzle.v_attemptCount := 1;
     Drizzle.v_nextRetryAt := now + 24 * 60 * 60 * 1000 |}.

(** The row a new failure is stored as, and the world once it is stored. *)
Definition newRow (now : Z) (paymentIntent : PaymentIntent) (user : User)
    (customerEmail_ customerId : string) (n : Z) : FailedPayment :=
  {| id := n; userId := user_id user;
     stripePaymentIntentId := pi_id paymentIntent;
     stripeCustomerId := customerId;
     customerEmail := customerEmail_;
     amount := pi_amount paymentIntent; currency := pi_currency paymentIntent;
     status := Some "failed";
     failureReason := Js.orNull (last_payment_error_message paymentIntent);
     attemptCount := Some 1;
     nextRetryAt := Some (now + 24 * 60 * 60 * 1000);
     createdAt := Some now;
     recoveredAt := None |}.

Definition inserted (row : FailedPayment) (w : World) : World :=
  {| db :=
       {| users := users (db w);
          failedPayments := failedPayments (db w) ++ [row];
          emailTemplates := emailTemplates (db w);
          dunningLogs := dunningLogs (db w);
          failedPayments_id_seq := failedPayments_id_seq (db w) + 1;
          dunningLogs_id_seq := dunningLogs_id_seq (db w) |};
     calls := calls w |}.

(** The world after an [id] was drawn for a row that the database then
    refused. *)
Definition idDrawn (w : World) : World :=
  {| db :=
       {| users := users (db w);
          failedPayments := failedPayments (db w);
          emailTemplates := emailTemplates (db w);
          dunningLogs := dunningLogs (db w);
          failedPayments_id_seq := failedPayments_id_seq (db w) + 1;
          dunningLogs_id_seq := dunningLogs_id_seq (db w) |};
     calls := calls w |}.

(** A new failure of [paymentIntent] for [user] can be stored in [w]: its
    amount and the id of the user fit their [integer] columns, and the
    sequence of ids is not exhausted. *)
Record Fits (paymentIntent : PaymentIntent) (user : User) (w : World) : Prop := {
  fits_amount : Drizzle.int4 (pi_amount paymentIntent) = true;
  fits_user : Drizzle.int4 (user_id user) = true;
  fits_id : Drizzle.int4 (failedPayments_id_seq (db w)) = true
}.

(** The world after [attemptCount] was raised on the rows with the id of
    [existing]. *)
Definition bumped (existing : FailedPayment) (w : World) : World :=
  {| db :=
       {| users := users (db w);
          failedPayments :=
            map (fun p => if id p =? id existing
                          then Drizzle.set_attemptCount (nextAttempt (attemptCount existing)) p
                          else p)
                (failedPayments (db w));
          emailTemplates := emailTemplates (db w);
          dunningLogs := dunningLogs (db w);
          failedPayments_id_seq := failedPayments_id_seq (db w);
          dunningLogs_id_seq := dunningLogs_id_seq (db w) |};
     calls := calls w |}.

(** The world after the rows with the id of [failedPayment] were marked
    recovered at [now]. *)
Definition recovered (now : Z) (failedPayment : FailedPayment) (w : World) : World :=
  {| db :=
       {| users := users (db w);
          failedPayments :=
            map (fun p => if id p =? id failedPayment
                          then Drizzle.set_status_recoveredAt "recovered" now p
                          else p)
                (failedPayments (db w));
          emailTemplates := emailTemplates (db w);
          dunningLogs := dunningLogs (db w);
          failedPayments_id_seq := failedPayments_id_seq (db w);
          dunningLogs_id_seq := dunningLogs_id_seq (db w) |};
     calls := calls w |}.

(** The world after the Dunning Notifier ran for a payment and a template. *)
Definition notified (env : Env) (now : Z) (failedPaymentId_ : Z)
    (payment : FailedPayment) (template : EmailTemplate) (w : World) : World :=
  {| db :=
       {| users := users (db w);
          failedPayments := failedPayments (db w);
          emailTemplates := emailTemplates (db w);
          dunningLogs := dunningLogs (db w) ++
            [ {| log_id := dunningLogs_id_seq (db w);
                 failedPaymentId := id payment;
                 sentAt := Some now;
                 emailTemplate := type template;
                 log_status := Some "sent" |} ];
          failedPayments_id_seq := failedPayments_id_seq (db w);
          dunningLogs_id_seq := dunningLogs_id_seq (db w) + 1 |};
     calls := calls w ++
       [ EmailsSend (customerEmail payment) (subject template)
           (renderBody env
              (Js.interpolate (BASE_URL env) ++ "/payment/"
                 ++ Js.integerToString failedPaymentId_)
              payment (body template)) ] |}.

(* ================================================================== *)
(** ** Sample data *)

Module Sample.

Definition merchant : User :=
  {| user_id := 7; user_email := "owner@shop.test"; username := "shop";
     password := "hash"; stripeAccountId := Some "acct_1";
     isConnected := Some true; subscriptionStatus := Some "trial";
     user_createdAt := Some 0 |}.

Definition template : EmailTemplate :=
  {| template_id := 1; template_userId := 7; type := "first_failure";
     subject := "Payment failed";
     body := "Hi {{customerEmail}}, pay {{amount}} at {{updateLink}}";
     isEnabled := Some true |}.

(** A store with one merchant and its template, and no failed payment. *)
Definition shopDb : Db :=
  {| users := [merchant]; failedPayments := []; emailTemplates := [template];
     dunningLogs := []; failedPayments_id_seq := 1; dunningLogs_id_seq := 1 |}.

(** The same store without any template. *)
Definition bareDb : Db :=
  {| users := [merchant]; failedPayments := []; emailTemplates := [];
     dunningLogs := []; failedPayments_id_seq := 1; dunningLogs_id_seq := 1 |}.

Definition tracked (status_ : string) (recoveredAt_ : option Z) : FailedPayment :=
  {| id := 1; userId := 7; stripePaymentIntentId := "pi_1";
     stripeCustomerId := "cus_1"; customerEmail := "jo@mail.test";
     amount := 4999; currency := "usd"; status := Some status_;
     failureReason := None; attemptCount := Some 1;
     nextRetryAt := Some 86400000; createdAt := Some 0;
     recoveredAt := recoveredAt_ |}.

(** A store that tracks [pi_1], still failed or already recovered. *)
Definition trackingDb (status_ : string) (recoveredAt_ : option Z) : Db :=
  {| users := [merchant]; failedPayments := [tracked status_ recoveredAt_];
     emailTemplates := [template]; dunningLogs := [];
     failedPayments_id_seq := 2; dunningLogs_id_seq := 1 |}.

Definition world (d : Db) : World := {| db := d; calls := [] |}.

(** [pi_1] of a known customer, on behalf of the merchant. *)
Definition intent : PaymentIntent :=
  {| pi_id := "pi_1"; on_behalf_of := Some "acct_1";
     receipt_email := Some "jo@mail.test"; customer := Some "cus_1";
     pi_amount := 4999; pi_currency := "usd";
     last_payment_error_message := Some "Your card was declined." |}.

(** [pi_1] as a direct charge: no connected account. *)
Definition directIntent : PaymentIntent :=
  {| pi_id := "pi_1"; on_behalf_of := None;
     receipt_email := Some "jo@mail.test"; customer := Some "cus_1";
     pi_amount := 4999; pi_currency := "usd";
     last_payment_error_message := None |}.

(** A guest payment: a receipt email but no customer. *)
Definition guestIntent : PaymentIntent :=
  {| pi_id := "pi_2"; on_behalf_of := Some "acct_1";
     receipt_email := Some "guest@mail.test"; customer := None;
     pi_amount := 1200; pi_currency := "usd";
     last_payment_error_message := None |}.

(** A payment without receipt email, of a customer Stripe cannot find. *)
Definition orphanIntent : PaymentIntent :=
  {| pi_id := "pi_3"; on_behalf_of := Some "acct_1";
     receipt_email := None; customer := Some "cus_gone";
     pi_amount := 1200; pi_currency := "usd";
     last_payment_error_message := None |}.

(** A toy environment: the signature ["good"] verifies, and the body
    then reads as the name of one of the events below; Stripe knows
    every customer but [cus_gone]; every call otherwise succeeds. *)
Definition eventOf (rawBody_ : string) : Event :=
  if String.eqb rawBody_ "failed" then
    {| event_type := "payment_intent.payment_failed"; data_object := intent |}
  else if String.eqb rawBody_ "failed-direct" then
    {| event_type := "payment_intent.payment_failed"; data_object := directIntent |}
  else if String.eqb rawBody_ "failed-guest" then
    {| event_type := "payment_intent.payment_failed"; data_object := guestIntent |}
  else if String.eqb rawBody_ "failed-orphan" then
    {| event_type := "payment_intent.payment_failed"; data_object := orphanIntent |}
  else if String.eqb rawBody_ "succeeded" then
    {| event_type := "payment_intent.succeeded"; data_object := intent |}
  else
    {| event_type := "customer.created"; data_object := intent |}.

Definition env : Env :=
  {| STRIPE_WEBHOOK_SECRET := Some "whsec_test";
     BASE_URL := Some "https://retainr.test";
     constructEvent := fun rawBody_ sig _ =>
       if String.eqb sig "good" then Returned (eventOf rawBody_)
       else Thrown "No signatures found matching the expected signature for payload";
     customers_retrieve := fun customerId =>
       if String.eqb customerId "cus_gone" then Thrown "No such customer: cus_gone"
       else Returned {| deleted := false; email := Some "jo@mail.test" |};
     customers_update := fun _ _ => Returned tt;
     paymentIntents_confirm := fun _ => Returned tt;
     emails_send := fun _ _ _ => Returned tt;
     Number_toString := fun _ => "1e+21" |}.

Definition request (sig rawBody_ : string) : WebhookRequest :=
  {| stripe_signature := Some sig; rawBody := rawBody_ |}.

Definition delivery (now : Z) (rawBody_ : string) : Delivery :=
  {| delivery_env := env; delivery_now := now;
     delivery_request := request "good" rawBody_ |}.

End Sample.

(* ================================================================== *)
(** ** The page helper of the second route file ([serveHTML])

    The file system and [path.join] are collaborators: [existsSync] and
    [readFileSync] are what the disk answers, [cwd] is [process.cwd()] and
    [dirname] is [__dirname]. *)

Module Pages.

Record FileSystem := {
  cwd : string;
  dirname : string;
  join : list string -> string;
  existsSync : string -> bool;
  readFileSync : string -> Outcome string
}.

(** The three places a page is looked for, in the order of the source. *)
Definition candidates (fs : FileSystem) (filename : string) : list string :=
  [ join fs [cwd fs; "client/src/pages"; filename];
    join fs ["/opt/render/project/src/client/src/pages"; filename];
    join fs [dirname fs; "../client/src/pages"; filename] ].

(** The [for (const path of paths)] loop and what follows it. *)
Fixpoint serveFrom (fs : FileSystem) (paths : list string) (fallback : string)
    : Outcome Response :=
  match paths with
  | path :: rest =>
      if existsSync fs path then
        match readFileSync fs path with
        | Returned html => Returned {| statusCode := 200; payload := Text html |}
        | Thrown message => Thrown message
        end
      else serveFrom fs rest fallback
  | [] =>
      if negb (String.eqb fallback "") then
        Returned {| statusCode := 200; payload := Text fallback |}
      else
        Returned {| statusCode := 404; payload := Text "Page not found" |}
  end.

Definition serveHTML (fs : FileSystem) (filename fallback : string) : Outcome Response :=
  serveFrom fs (candidates fs filename) fallback.

End Pages.

(* ================================================================== *)
(** ** Further observations *)

(** Calls of Stripe's customer lookup. *)
Definition isCustomersRetrieve (c : Call) : bool :=
  match c with
  | CustomersRetrieve _ => true
  | _ => false
  end.

(** The number an [attemptCount] column reads as in an addition. *)
Definition attempts (p : FailedPayment) : Z :=
  match attemptCount p with
  | Some n => n
  | None => 0
  end.

(** [q] is a later state of the row [p]: the same payment, counted at
    least as often, and recovered at the same time if [p] was. *)
Record Evolves (p q : FailedPayment) : Prop := {
  evolves_id : id q = id p;
  evolves_userId : userId q = userId p;
  evolves_intent : stripePaymentIntentId q = stripePaymentIntentId p;
  evolves_customer : stripeCustomerId q = stripeCustomerId p;
  evolves_email : customerEmail q = customerEmail p;
  evolves_amount : amount q = amount p;
  evolves_currency : currency q = currency p;
  evolves_reason : failureReason q = failureReason p;
  evolves_nextRetryAt : nextRetryAt q = nextRetryAt p;
  evolves_createdAt : createdAt q = createdAt p;
  evolves_attempts : attempts p <= attempts q;
  evolves_recovered :
    status p = Some "recovered" ->
    status q = Some "recovered" /\ recoveredAt q = recoveredAt p
}.

(** The primary key of [failed_payments]: ids are distinct and were all
    handed out by the sequence. *)
Definition wellKeyed (d : Db) : Prop :=
  NoDup (map id (failedPayments d)) /\
  Forall (fun p => id p < failedPayments_id_seq d) (failedPayments d).

(** No payment intent is tracked by two rows. *)
Definition trackedOnce (d : Db) : Prop :=
  forall paymentIntentId, (List.length (rowsFor paymentIntentId d) <= 1)%nat.

(** The event gives no usable customer email: no receipt email, and no
    customer, a deleted customer or a customer without email. *)
Inductive NoEmail (env : Env) (paymentIntent : PaymentIntent) : Prop :=
| NoCustomer :
    Js.truthy (receipt_email paymentIntent) = false ->
    Js.truthy (customer paymentIntent) = false ->
    NoEmail env paymentIntent
| NoCustomerEmail customerId c :
    Js.truthy (receipt_email paymentIntent) = false ->
    customer paymentIntent = Some customerId ->
    customerId <> "" ->
    customers_retrieve env customerId = Returned c ->
    deleted c = true \/ Js.truthy (email c) = false ->
    NoEmail env paymentIntent.

(** [handlePaymentFailed] run once per time of [nows], in order. *)
Definition redeliver (env : Env) (paymentIntent : PaymentIntent)
    (nows : list Z) (w : World) : World :=
  fold_left (fun v now => snd (handlePaymentFailed env now paymentIntent v)) nows w.

(** A string without the character [c]. *)
Fixpoint lacks (c : ascii) (s : string) : bool :=
  match s with
  | EmptyString => true
  | String a rest => negb (Ascii.eqb a c) && lacks c rest
  end.

(** The amount in minor units written with two decimals, as arithmetic
    on integers gives it. *)
Definition exactAmount (minorUnits : Z) : string :=
  "$" ++ Js.integerToString (minorUnits / 100) ++ "."
      ++ Js.padCents (minorUnits mod 100).

(** What one webhook delivery can do to the world [w]: nothing to the
    tables; draw an id for a row that is then refused; raise the counter
    of the row [existing] tracking an intent; store [row] for an intent
    no row tracks, with the next id, and then perhaps notify; or mark the
    failed row [failedPayment] tracking an intent as recovered.  Only
    customer lookups, and then at most the one email, are added to the
    calls. *)
Inductive Step (w w' : World) : Prop :=
| step_none lookups :
    db w' = db w ->
    calls w' = (calls w ++ lookups)%list ->
    forallb isCustomersRetrieve lookups = true ->
    Step w w'
| step_refused lookups :
    db w' = db (idDrawn w) ->
    calls w' = (calls w ++ lookups)%list ->
    forallb isCustomersRetrieve lookups = true ->
    Step w w'
| step_bump paymentIntentId existing lookups :
    find (tracks paymentIntentId) (failedPayments (db w)) = Some existing ->
    db w' = db (bumped existing w) ->
    calls w' = (calls w ++ lookups)%list ->
    forallb isCustomersRetrieve lookups = true ->
    Step w w'
| step_insert row lookups :
    find (tracks (stripePaymentIntentId row)) (failedPayments (db w)) = None ->
    id row = failedPayments_id_seq (db w) ->
    db w' = db (inserted row w) ->
    calls w' = (calls w ++ lookups)%list ->
    forallb isCustomersRetrieve lookups = true ->
    Step w w'
| step_notify env now row payment template lookups :
    find (tracks (stripePaymentIntentId row)) (failedPayments (db w)) = None ->
    id row = failedPayments_id_seq (db w) ->
    type template = "first_failure" ->
    db w' = db (notified env now (id row) payment template (inserted row w)) ->
    calls w' =
      (calls w ++ lookups ++
         [EmailsSend (customerEmail payment) (subject template)
            (renderBody env
               (Js.interpolate (BASE_URL env) ++ "/payment/"
                  ++ Js.integerToString (id row))
               payment (body template))])%list ->
    forallb isCustomersRetrieve lookups = true ->
    Step w w'
| step_recover paymentIntentId now failedPayment :
    find (tracks paymentIntentId) (failedPayments (db w)) = Some failedPayment ->
    status failedPayment = Some "failed" ->
    w' = recovered now failedPayment w ->
    Step w w'.


(** A request to one of the two routes that write, and a run of them,
    handled one after another. *)
Inductive Request : Type :=
| WebhookDelivery (d : Delivery)
| RecoveryCall (env : Env) (now : Z) (paymentId : Z) (paymentMethodId : option string).

Definition serve (w : World) (r : Request) : World :=
  match r with
  | WebhookDelivery d => deliver w d
  | RecoveryCall env now paymentId paymentMethodId =>
      snd (updatePaymentMethod env now paymentId paymentMethodId w)
  end.

Definition serveAll (rs : list Request) (w : World) : World :=
  fold_left serve rs w.

(** The doubles [100] and [10^21], and a test that the amount [a] is
    rendered exactly: the quotient [a / 100] is below [10^21] and its
    nearest hundredth is [a]. *)
Definition hundredF : float := Eval vm_compute in Js.numberOfZ 100.

Definition limitF : float := Eval vm_compute in Js.numberOfZ (10 ^ 21).

Definition centsExact (a : Z) : bool :=
  let x := PrimFloat.div (Js.numberOfZ a) hundredF in
  match Prim2SF x with
  | S754_finite false m e =>
      negb (PrimFloat.leb limitF (PrimFloat.abs x)) && (Js.hundredths m e =? a)
  | S754_zero _ => a =? 0
  | _ => false
  end.

Fixpoint exactFrom (n : nat) (a : Z) : bool :=
  match n with
  | O => true
  | S k => centsExact a && exactFrom k (a + 1)
  end.

(** More sample data: an environment in which Resend and Stripe's
    customer update fail, a customer without email, and a disk with one
    page. *)
Module Fixture.

Definition failingEnv : Env :=
  {| STRIPE_WEBHOOK_SECRET := STRIPE_WEBHOOK_SECRET Sample.env;
     BASE_URL := BASE_URL Sample.env;
     constructEvent := constructEvent Sample.env;
     customers_retrieve := fun _ => Returned {| deleted := true; email := None |};
     customers_update := fun _ _ => Thrown "No such payment method";
     paymentIntents_confirm := paymentIntents_confirm Sample.env;
     emails_send := fun _ _ _ => Thrown "Resend is down";
     Number_toString := Number_toString Sample.env |}.

(** [pi_4] without receipt email, of customer [cus_4]. *)
Definition silentIntent : PaymentIntent :=
  {| pi_id := "pi_4"; on_behalf_of := Some "acct_1";
     receipt_email := None; customer := Some "cus_4";
     pi_amount := 700; pi_currency := "usd";
     last_payment_error_message := None |}.

(** [pi_6] of another known customer, on behalf of the merchant. *)
Definition otherIntent : PaymentIntent :=
  {| pi_id := "pi_6"; on_behalf_of := Some "acct_1";
     receipt_email := Some "al@mail.test"; customer := Some "cus_6";
     pi_amount := 700; pi_currency := "usd";
     last_payment_error_message := None |}.

(** [pi_7], a payment of 2^31 minor units. *)
Definition oversizedIntent : PaymentIntent :=
  {| pi_id := "pi_7"; on_behalf_of := Some "acct_1";
     receipt_email := Some "jo@mail.test"; customer := Some "cus_1";
     pi_amount := 2147483648; pi_currency := "usd";
     last_payment_error_message := None |}.

(** An environment in which every signed request reads as the failure of
    [pi_7]. *)
Definition oversizedEnv : Env :=
  {| STRIPE_WEBHOOK_SECRET := STRIPE_WEBHOOK_SECRET Sample.env;
     BASE_URL := BASE_URL Sample.env;
     constructEvent := fun _ sig _ =>
       if String.eqb sig "good" then
         Returned {| event_type := "payment_intent.payment_failed";
                     data_object := oversizedIntent |}
       else Thrown "No signatures found matching the expected signature for payload";
     customers_retrieve := customers_retrieve Sample.env;
     customers_update := customers_update Sample.env;
     paymentIntents_confirm := paymentIntents_confirm Sample.env;
     emails_send := emails_send Sample.env;
     Number_toString := Number_toString Sample.env |}.

(** A store whose row for [pi_1] has counted as many attempts as the
    column holds. *)
Definition wornDb : Db :=
  {| users := [Sample.merchant];
     failedPayments :=
       [ {| id := 1; userId := 7; stripePaymentIntentId := "pi_1";
            stripeCustomerId := "cus_1"; customerEmail := "jo@mail.test";
            amount := 4999; currency := "usd"; status := Some "failed";
            failureReason := None; attemptCount := Some 2147483647;
            nextRetryAt := Some 86400000; createdAt := Some 0;
            recoveredAt := None |} ];
     emailTemplates := [Sample.template]; dunningLogs := [];
     failedPayments_id_seq := 2; dunningLogs_id_seq := 1 |}.

Definition disk : Pages.FileSystem :=
  {| Pages.cwd := "/app";
     Pages.dirname := "/app/dist";
     Pages.join := fun parts => String.concat "/" parts;
     Pages.existsSync := fun path =>
       String.eqb path "/opt/render/project/src/client/src/pages/landing.html";
     Pages.readFileSync := fun _ => Returned "<h1>Retainr</h1>" |}.

End Fixture.

(* ================================================================== *)
(** ** Lists and rows *)

Section ListFacts.

Context {A : Type}.
Variables (f : A -> bool) (g : A -> A).

Lemma find_map_same :
  (forall x, f (g x) = f x) ->
  forall l, find f (map g l) = option_map g (find f l).
Proof.
  intros Hfg l. induction l as [|x l IH]; simpl.
  - reflexivity.
  - rewrite Hfg. destruct (f x); [reflexivity | exact IH].
Qed.

Lemma filter_map_same :
  (forall x, f (g x) = f x) ->
  forall l, filter f (map g l) = map g (filter f l).
Proof.
  intros Hfg l. induction l as [|x l IH]; simpl.
  - reflexivity.
  - rewrite Hfg. destruct (f x); simpl; now rewrite IH.
Qed.

Lemma filter_map_shrinks :
  (forall x, f (g x) = true -> f x = true) ->
  forall l, (List.length (filter f (map g l)) <= List.length (filter f l))%nat.
Proof.
  intros Hfg l. induction l as [|x l IH]; simpl.
  - lia.
  - destruct (f (g x)) eqn:E.
    + rewrite (Hfg x E). simpl. lia.
    + destruct (f x); simpl; lia.
Qed.

End ListFacts.

Section FindFacts.

Context {A : Type}.
Variable f : A -> bool.

Lemma filter_nil_find_none (l : list A) :
  filter f l = [] -> find f l = None.
Proof.
  induction l as [|a l IH]; simpl; [reflexivity|].
  destruct (f a); [discriminate | exact IH].
Qed.

Lemma find_app_only_last (l : list A) (x : A) :
  find f l = None -> f x = true -> find f (l ++ [x])%list = Some x.
Proof.
  intros Hl Hx. induction l as [|a l IH]; simpl in *.
  - now rewrite Hx.
  - destruct (f a); [discriminate | auto].
Qed.

Lemma find_some_holds :
  forall l x, find f l = Some x -> f x = true.
Proof.
  intros l x H. apply find_some in H. tauto.
Qed.

End FindFacts.

Lemma find_app_last {A} (f : A -> bool) (l : list A) (x : A) :
  f x = true -> exists y, find f (l ++ [x])%list = Some y /\ f y = true.
Proof.
  intros Hx. induction l as [|a l IH]; simpl.
  - rewrite Hx. eauto.
  - destruct (f a) eqn:Ha; eauto.
Qed.

Lemma find_none_filter_and {A} (f h : A -> bool) (l : list A) :
  find f l = None -> filter (fun x => f x && h x) l = [].
Proof.
  induction l as [|a l IH]; simpl; intros H; [reflexivity|].
  destruct (f a); [discriminate | simpl; auto].
Qed.

(* ================================================================== *)
(** ** What each function does to the world *)

(** The Notification Sender never throws and logs exactly one call. *)
Lemma sendEmail_run env to subject_ body_ w :
  exists accepted,
    sendEmail env to subject_ body_ w =
      (Returned accepted,
       {| db := db w; calls := calls w ++ [EmailsSend to subject_ body_] |}).
Proof.
  unfold sendEmail, Email.sendDunningEmail, tryCatch, bind, external, ret.
  destruct (emails_send env to subject_ body_); simpl; eauto.
Qed.

Lemma sendDunningEmail_run env now failedPaymentId_ userId_ w :
  sendDunningEmail env now failedPaymentId_ userId_ w =
    match find (fun p => id p =? failedPaymentId_) (failedPayments (db w)) with
    | None => (Returned tt, w)
    | Some payment =>
        match firstFailureTemplate userId_ (db w) with
        | None => (Returned tt, w)
        | Some template =>
            (Returned tt, notified env now failedPaymentId_ payment template w)
        end
    end.
Proof.
  unfold sendDunningEmail, firstFailureTemplate, Drizzle.findFirst, readDb, bind.
  destruct (find _ (failedPayments (db w))) as [payment|]; [|reflexivity].
  destruct (find _ (emailTemplates (db w))) as [template|]; [|reflexivity].
  destruct (sendEmail_run env (customerEmail payment) (subject template)
              (renderBody env
                 (Js.interpolate (BASE_URL env) ++ "/payment/"
                    ++ Js.integerToString failedPaymentId_)
                 payment (body template)) w) as [accepted E].
  rewrite E. reflexivity.
Qed.

(** The email the sample merchant's customer gets for a first failure. *)
Example sample_dunning_email :
  calls (deliverAll [Sample.delivery 1000 "failed"] (Sample.world Sample.shopDb))
  = [EmailsSend "jo@mail.test" "Payment failed"
       "Hi jo@mail.test, pay $49.99 at https://retainr.test/payment/1"].
Proof. reflexivity. Qed.

(** Resolving the customer email writes nothing and sends no email. *)
Lemma customerEmailOf_world env paymentIntent w :
  db (snd (customerEmailOf env paymentIntent w)) = db w /\
  emailsSent (snd (customerEmailOf env paymentIntent w)) = emailsSent w.
Proof.
  unfold customerEmailOf, emailsSent, bind, external, ret.
  destruct (customer paymentIntent) as [customerId|]; simpl; [|auto].
  destruct (negb (Js.truthy (receipt_email paymentIntent)) && negb (String.eqb customerId ""));
    simpl; [|auto].
  destruct (customers_retrieve env customerId) as [c|e]; simpl.
  - destruct (negb (deleted c)); simpl; rewrite filter_app; simpl;
      now rewrite app_nil_r.
  - rewrite filter_app; simpl; now rewrite app_nil_r.
Qed.

(** Whether an email is found does not depend on the world. *)
Lemma customerEmailOf_outcome env paymentIntent w w' :
  fst (customerEmailOf env paymentIntent w) = fst (customerEmailOf env paymentIntent w').
Proof.
  unfold customerEmailOf, bind, external, ret.
  destruct (customer paymentIntent) as [customerId|]; simpl; [|auto].
  destruct (negb (Js.truthy (receipt_email paymentIntent)) && negb (String.eqb customerId ""));
    simpl; [|auto].
  destruct (customers_retrieve env customerId) as [c|e]; simpl; [|auto].
  destruct (negb (deleted c)); reflexivity.
Qed.

(** Past its checks, [handlePaymentFailed] is the lookup of line 127
    followed by [recordFailure]. *)
Lemma handlePaymentFailed_resolved env now paymentIntent w user customerEmail_ :
  Resolves env paymentIntent w user customerEmail_ ->
  handlePaymentFailed env now paymentIntent w =
    recordFailure env now paymentIntent user customerEmail_
      (find (tracks (pi_id paymentIntent)) (failedPayments (db w)))
      (snd (customerEmailOf env paymentIntent w)).
Proof.
  intros [[acct [Ha [Hacct Hu]]] He Hne].
  unfold handlePaymentFailed. rewrite Ha.
  apply String.eqb_neq in Hacct. rewrite Hacct.
  apply String.eqb_neq in Hne.
  unfold bind at 1. unfold Drizzle.findFirst at 1, readDb at 1. rewrite Hu.
  unfold bind at 1.
  pose proof (customerEmailOf_world env paymentIntent w) as [Hdb _].
  destruct (customerEmailOf env paymentIntent w) as [o w1]. simpl in *.
  subst o. rewrite Hne.
  unfold bind at 1. unfold Drizzle.findFirst at 1, readDb at 1. rewrite Hdb.
  reflexivity.
Qed.

(** Short of them, it writes nothing and sends no email. *)
Lemma handlePaymentFailed_unresolved env now paymentIntent w :
  (db (snd (handlePaymentFailed env now paymentIntent w)) = db w /\
   emailsSent (snd (handlePaymentFailed env now paymentIntent w)) = emailsSent w) \/
  (exists user customerEmail_, Resolves env paymentIntent w user customerEmail_).
Proof.
  remember (handlePaymentFailed env now paymentIntent w) as r eqn:Hr.
  unfold handlePaymentFailed in Hr.
  destruct (on_behalf_of paymentIntent) as [acct|] eqn:Ha; [|left; subst r; auto].
  destruct (String.eqb acct "") eqn:Hacct; [left; subst r; auto|].
  unfold bind at 1 in Hr. unfold Drizzle.findFirst at 1, readDb at 1 in Hr.
  destruct (find _ (users (db w))) as [user|] eqn:Hu; [|left; subst r; auto].
  unfold bind at 1 in Hr.
  pose proof (customerEmailOf_world env paymentIntent w) as Hw.
  destruct (customerEmailOf env paymentIntent w) as [[[em|]|e] w1] eqn:He;
    simpl in Hw; [|left; subst r; exact Hw..].
  destruct (String.eqb em "") eqn:Hem; [left; subst r; exact Hw|].
  right. exists user, em. split.
  - exists acct. apply String.eqb_neq in Hacct. auto.
  - rewrite He. reflexivity.
  - now apply String.eqb_neq.
Qed.

(** [existing.attemptCount + 1] is one more than the count read as a
    number. *)
Lemma nextAttempt_attempts p : nextAttempt (attemptCount p) = attempts p + 1.
Proof. unfold nextAttempt, attempts. now destruct (attemptCount p). Qed.

(** [recordFailure] on a tracked payment intent: the count is raised, or
    the database refuses the new count and nothing is written. *)
Lemma recordFailure_counts env now paymentIntent user customerEmail_ existing w :
  Drizzle.int4 (attempts existing + 1) = true ->
  recordFailure env now paymentIntent user customerEmail_ (Some existing) w
    = (Returned tt, bumped existing w).
Proof.
  intros H. rewrite <- nextAttempt_attempts in H.
  unfold recordFailure, Drizzle.update_attemptCount. now rewrite H.
Qed.

Lemma recordFailure_count_refused env now paymentIntent user customerEmail_ existing w :
  Drizzle.int4 (attempts existing + 1) = false ->
  recordFailure env now paymentIntent user customerEmail_ (Some existing) w
    = (Thrown "value out of range for type integer", w).
Proof.
  intros H. rewrite <- nextAttempt_attempts in H.
  unfold recordFailure, Drizzle.update_attemptCount. now rewrite H.
Qed.

(** The insert, by what the database makes of it. *)
Lemma insert_failedPayments_run now v w :
  Drizzle.insert_failedPayments now v w =
    if negb (Drizzle.integersFit v) then
      (Thrown "value out of range for type integer", w)
    else if negb (Drizzle.int4 (failedPayments_id_seq (db w))) then
      (Thrown "nextval: reached maximum value of sequence failed_payments_id_seq", w)
    else
      match Drizzle.v_stripeCustomerId v with
      | None =>
          (Thrown "null value in column stripe_customer_id violates not-null constraint",
           idDrawn w)
      | Some customerId =>
          let row :=
            {| id := failedPayments_id_seq (db w); userId := Drizzle.v_userId v;
               stripePaymentIntentId := Drizzle.v_stripePaymentIntentId v;
               stripeCustomerId := customerId;
               customerEmail := Drizzle.v_customerEmail v;
               amount := Drizzle.v_amount v; currency := Drizzle.v_currency v;
               status := Some (Drizzle.v_status v);
               failureReason := Drizzle.v_failureReason v;
               attemptCount := Some (Drizzle.v_attemptCount v);
               nextRetryAt := Some (Drizzle.v_nextRetryAt v);
               createdAt := Some now;
               recoveredAt := None |} in
          (Returned row, inserted row w)
      end.
Proof.
  unfold Drizzle.insert_failedPayments.
  destruct (negb (Drizzle.integersFit v)); [reflexivity|].
  unfold bind at 1. unfold readDb at 1.
  destruct (negb (Drizzle.int4 (failedPayments_id_seq (db w)))); [reflexivity|].
  destruct (Drizzle.v_stripeCustomerId v); reflexivity.
Qed.

Lemma newFailure_fits now paymentIntent user customerEmail_ w :
  Fits paymentIntent user w ->
  Drizzle.integersFit (newFailure now paymentIntent user customerEmail_) = true.
Proof.
  intros [Ha Hu _]. unfold Drizzle.integersFit, newFailure.
  cbn [Drizzle.v_userId Drizzle.v_amount Drizzle.v_attemptCount].
  now rewrite Ha, Hu.
Qed.

(** [recordFailure] on an untracked payment intent that can be stored. *)
Lemma recordFailure_stores env now paymentIntent user customerEmail_ customerId w :
  Fits paymentIntent user w ->
  customer paymentIntent = Some customerId ->
  recordFailure env now paymentIntent user customerEmail_ None w =
    sendDunningEmail env now (failedPayments_id_seq (db w)) (user_id user)
      (inserted
         (newRow now paymentIntent user customerEmail_ customerId
            (failedPayments_id_seq (db w)))
         w).
Proof.
  intros Hfits Hc.
  change (recordFailure env now paymentIntent user customerEmail_ None) with
    (await failedPayment <-
       Drizzle.insert_failedPayments now
         (newFailure now paymentIntent user customerEmail_);
     sendDunningEmail env now (id failedPayment) (user_id user)).
  unfold bind. rewrite insert_failedPayments_run.
  rewrite (newFailure_fits now paymentIntent user customerEmail_ w Hfits).
  destruct Hfits as [_ _ Hn]. rewrite Hn. cbn [negb].
  unfold newFailure at 1. cbn [Drizzle.v_stripeCustomerId]. rewrite Hc.
  reflexivity.
Qed.

(** Otherwise the insert is refused, before or after an id was drawn. *)
Lemma recordFailure_new_cases env now paymentIntent user customerEmail_ w :
  (exists customerId,
     Fits paymentIntent user w /\ customer paymentIntent = Some customerId) \/
  (exists message,
     recordFailure env now paymentIntent user customerEmail_ None w
       = (Thrown message, w)) \/
  (exists message,
     recordFailure env now paymentIntent user customerEmail_ None w
       = (Thrown message, idDrawn w)).
Proof.
  change (recordFailure env now paymentIntent user customerEmail_ None) with
    (await failedPayment <-
       Drizzle.insert_failedPayments now
         (newFailure now paymentIntent user customerEmail_);
     sendDunningEmail env now (id failedPayment) (user_id user)).
  unfold bind. rewrite insert_failedPayments_run.
  unfold Drizzle.integersFit, newFailure.
  cbn [Drizzle.v_userId Drizzle.v_amount Drizzle.v_attemptCount
       Drizzle.v_stripeCustomerId].
  destruct (Drizzle.int4 (user_id user)) eqn:Hu;
    [|right; left; eexists; reflexivity].
  destruct (Drizzle.int4 (pi_amount paymentIntent)) eqn:Ha;
    [|right; left; eexists; reflexivity].
  change (Drizzle.int4 1) with true. cbn [andb negb].
  destruct (Drizzle.int4 (failedPayments_id_seq (db w))) eqn:Hn; cbn [negb];
    [|right; left; eexists; reflexivity].
  destruct (customer paymentIntent) as [customerId|] eqn:Hc.
  - left. exists customerId. now repeat split.
  - right; right. eexists. reflexivity.
Qed.

Lemma Fits_snd env paymentIntent user w :
  Fits paymentIntent user w ->
  Fits paymentIntent user (snd (customerEmailOf env paymentIntent w)).
Proof.
  pose proof (customerEmailOf_world env paymentIntent w) as [Hdb _].
  intros [Ha Hu Hn]. split; auto. now rewrite Hdb.
Qed.

Lemma handlePaymentFailed_existing env now paymentIntent w user customerEmail_ existing :
  Resolves env paymentIntent w user customerEmail_ ->
  find (tracks (pi_id paymentIntent)) (failedPayments (db w)) = Some existing ->
  Drizzle.int4 (attempts existing + 1) = true ->
  handlePaymentFailed env now paymentIntent w =
    (Returned tt, bumped existing (snd (customerEmailOf env paymentIntent w))).
Proof.
  intros Hr Hf Hn.
  rewrite (handlePaymentFailed_resolved env now paymentIntent w user customerEmail_ Hr), Hf.
  now apply recordFailure_counts.
Qed.

Lemma handlePaymentFailed_new env now paymentIntent w user customerEmail_ customerId :
  Resolves env paymentIntent w user customerEmail_ ->
  find (tracks (pi_id paymentIntent)) (failedPayments (db w)) = None ->
  customer paymentIntent = Some customerId ->
  Fits paymentIntent user w ->
  handlePaymentFailed env now paymentIntent w =
    sendDunningEmail env now (failedPayments_id_seq (db w)) (user_id user)
      (inserted
         (newRow now paymentIntent user customerEmail_ customerId
            (failedPayments_id_seq (db w)))
         (snd (customerEmailOf env paymentIntent w))).
Proof.
  intros Hr Hf Hc Hfits.
  rewrite (handlePaymentFailed_resolved env now paymentIntent w user customerEmail_ Hr), Hf.
  pose proof (customerEmailOf_world env paymentIntent w) as [Hdb _].
  rewrite (recordFailure_stores env now paymentIntent user customerEmail_ customerId
             _ (Fits_snd env paymentIntent user w Hfits) Hc).
  now rewrite Hdb.
Qed.

Lemma bumped_db_snd env paymentIntent w existing :
  db (bumped existing (snd (customerEmailOf env paymentIntent w))) = db (bumped existing w).
Proof.
  pose proof (customerEmailOf_world env paymentIntent w) as [Hdb _].
  unfold bumped; simpl. now rewrite Hdb.
Qed.

Lemma idDrawn_db_snd env paymentIntent w :
  db (idDrawn (snd (customerEmailOf env paymentIntent w))) = db (idDrawn w).
Proof.
  pose proof (customerEmailOf_world env paymentIntent w) as [Hdb _].
  unfold idDrawn; simpl. now rewrite Hdb.
Qed.

(** [handlePaymentSucceeded], case by case. *)
Lemma handlePaymentSucceeded_run now paymentIntent w :
  handlePaymentSucceeded now paymentIntent w =
    match find (tracks (pi_id paymentIntent)) (failedPayments (db w)) with
    | Some failedPayment =>
        if eqText (status failedPayment) "failed"
        then (Returned tt, recovered now failedPayment w)
        else (Returned tt, w)
    | None => (Returned tt, w)
    end.
Proof.
  unfold handlePaymentSucceeded, bind, Drizzle.findFirst, readDb, tracks.
  destruct (find _ (failedPayments (db w))) as [fp|]; [|reflexivity].
  destruct (eqText (status fp) "failed"); reflexivity.
Qed.

(** The webhook route, by whether the request passes verification. *)
Lemma stripeWebhook_unverified env now req w :
  verifiedEvent env req = None ->
  exists r, stripeWebhook env now req w = (Returned r, w) /\ statusCode r = 400.
Proof.
  unfold verifiedEvent, stripeWebhook, ret.
  destruct (stripe_signature req) as [sig|]; [|eauto].
  destruct (STRIPE_WEBHOOK_SECRET env) as [secret|]; [|eauto].
  destruct (String.eqb sig "" || String.eqb secret ""); [eauto|].
  destruct (constructEvent env (rawBody req) sig secret); [discriminate | eauto].
Qed.

Lemma stripeWebhook_verified env now req w event :
  verifiedEvent env req = Some event ->
  stripeWebhook env now req w =
    match dispatch env now event w with
    | (Returned _, w') =>
        (Returned {| statusCode := 200; payload := Json_received |}, w')
    | (Thrown message, w') =>
        (Returned {| statusCode := 500; payload := Text ("Error: " ++ message) |}, w')
    end.
Proof.
  unfold verifiedEvent, stripeWebhook, tryCatch, bind, ret.
  destruct (stripe_signature req) as [sig|]; [|discriminate].
  destruct (STRIPE_WEBHOOK_SECRET env) as [secret|]; [|discriminate].
  destruct (String.eqb sig "" || String.eqb secret ""); [discriminate|].
  destruct (constructEvent env (rawBody req) sig secret); [|discriminate].
  intros [= ->].
  destruct (dispatch env now event w) as [[u|message] w']; reflexivity.
Qed.

Lemma rejected_unverified env req :
  Rejected env req -> verifiedEvent env req = None.
Proof.
  unfold verifiedEvent. intros [H | H | sig secret message Hs Hk Hc].
  - destruct (stripe_signature req) as [sig|]; [|reflexivity].
    destruct (STRIPE_WEBHOOK_SECRET env); [|reflexivity].
    simpl in H. apply negb_false_iff in H. now rewrite H.
  - destruct (stripe_signature req) as [sig|]; [|reflexivity].
    destruct (STRIPE_WEBHOOK_SECRET env) as [secret|]; [|reflexivity].
    simpl in H. apply negb_false_iff in H. rewrite H.
    now rewrite orb_true_r.
  - rewrite Hs, Hk, Hc. now destruct (String.eqb sig "" || String.eqb secret "").
Qed.

(** Only a failed payment can make the processing throw. *)
Lemma dispatch_other_returns env now event w :
  event_type event <> "payment_intent.payment_failed" ->
  fst (dispatch env now event w) = Returned tt.
Proof.
  intros H. unfold dispatch. apply String.eqb_neq in H. rewrite H.
  destruct (String.eqb (event_type event) "payment_intent.succeeded"); [|reflexivity].
  rewrite handlePaymentSucceeded_run.
  destruct (find _ _) as [fp|]; [|reflexivity].
  destruct (eqText (status fp) "failed"); reflexivity.
Qed.

(* ================================================================== *)
(** ** Signature verification (C5) *)

(** C5. A webhook request that fails verification (no signature header, no
    configured secret, or a signature the SDK refuses) is answered with
    status 400, and the world is left as it was: no table is written and
    no call leaves the process. *)
Theorem webhook_rejects_unverified env now req w :
  Rejected env req ->
  exists r,
    stripeWebhook env now req w = (Returned r, w) /\ statusCode r = 400.
Proof.
  intros H. apply stripeWebhook_unverified. now apply rejected_unverified.
Qed.

Lemma webhook_rejects_unverified_witness :
  Rejected Sample.env (Sample.request "forged" "failed") /\
  exists r,
    stripeWebhook Sample.env 1000 (Sample.request "forged" "failed")
      (Sample.world Sample.shopDb) = (Returned r, Sample.world Sample.shopDb) /\
    statusCode r = 400.
Proof.
  assert (H : Rejected Sample.env (Sample.request "forged" "failed")).
  { apply (BadSignature _ _ "forged" "whsec_test"
             "No signatures found matching the expected signature for payload");
      reflexivity. }
  split; [exact H|].
  exact (webhook_rejects_unverified Sample.env 1000 (Sample.request "forged" "failed")
           (Sample.world Sample.shopDb) H).
Defined.

(* ================================================================== *)
(** ** Acknowledgment of verified events (C6) *)

(** C6, as stated, fails: a verified event whose processing throws (here
    Stripe does not know the customer) is answered with status 500. *)
Lemma webhook_surfaces_processing_error :
  verifiedEvent Sample.env (Sample.request "good" "failed-orphan")
    = Some {| event_type := "payment_intent.payment_failed";
              data_object := Sample.orphanIntent |} /\
  fst (stripeWebhook Sample.env 1000 (Sample.request "good" "failed-orphan")
         (Sample.world Sample.shopDb))
    = Returned {| statusCode := 500;
                  payload := Text "Error: No such customer: cus_gone" |}.
Proof. split; reflexivity. Qed.

(** C6 (amended). A verified request always gets a response: status 200
    with [{received: true}] when the processing of the event returns, and
    status 500 with the error message when it throws; the world is the one
    the processing left.  Processing returns for every event that is not
    a [payment_intent.payment_failed]. *)
Theorem webhook_acknowledges_unless_processing_throws env now req w event :
  verifiedEvent env req = Some event ->
  (forall w', dispatch env now event w = (Returned tt, w') ->
     stripeWebhook env now req w =
       (Returned {| statusCode := 200; payload := Json_received |}, w')) /\
  (forall message w', dispatch env now event w = (Thrown message, w') ->
     stripeWebhook env now req w =
       (Returned {| statusCode := 500; payload := Text ("Error: " ++ message) |}, w')) /\
  (exists r, fst (stripeWebhook env now req w) = Returned r /\
     (statusCode r = 200 \/ statusCode r = 500)) /\
  (event_type event <> "payment_intent.payment_failed" ->
     exists w', stripeWebhook env now req w =
       (Returned {| statusCode := 200; payload := Json_received |}, w')).
Proof.
  intros Hv. rewrite (stripeWebhook_verified env now req w event Hv).
  repeat split.
  - intros w' E. now rewrite E.
  - intros message w' E. now rewrite E.
  - destruct (dispatch env now event w) as [[u|message] w']; simpl; eauto.
  - intros Ht. pose proof (dispatch_other_returns env now event w Ht) as E.
    destruct (dispatch env now event w) as [[u|message] w']; simpl in E;
      [eauto | discriminate].
Qed.

Lemma webhook_acknowledges_witness :
  let w := Sample.world (Sample.trackingDb "failed" None) in
  verifiedEvent Sample.env (Sample.request "good" "succeeded")
    = Some (Sample.eventOf "succeeded") /\
  stripeWebhook Sample.env 3000 (Sample.request "good" "succeeded") w
    = (Returned {| statusCode := 200; payload := Json_received |},
       recovered 3000 (Sample.tracked "failed" None) w).
Proof.
  split; [reflexivity|].
  exact (proj1 (webhook_acknowledges_unless_processing_throws Sample.env 3000
                  (Sample.request "good" "succeeded")
                  (Sample.world (Sample.trackingDb "failed" None))
                  (Sample.eventOf "succeeded") eq_refl)
           _ eq_refl).
Defined.

(* ================================================================== *)
(** ** Recovery through the success webhook (C4) *)

Lemma find_tracks_recovered pid now failedPayment l :
  find (tracks pid)
       (map (fun p => if id p =? id failedPayment
                      then Drizzle.set_status_recoveredAt "recovered" now p
                      else p) l)
  = option_map (fun p => if id p =? id failedPayment
                         then Drizzle.set_status_recoveredAt "recovered" now p
                         else p)
               (find (tracks pid) l).
Proof.
  apply find_map_same. intros p.
  destruct (id p =? id failedPayment); reflexivity.
Qed.

(** C4. A [payment_intent.succeeded] event whose payment intent is tracked
    by a row with status ['failed'] sets that row's status to ['recovered']
    and its [recoveredAt] to the time of the event; a second such event
    for the same payment intent, whenever it comes, changes nothing: the
    row keeps status ['recovered'] and the first [recoveredAt]. *)
Theorem succeeded_recovers_once env now now' event event' w row :
  event_type event = "payment_intent.succeeded" ->
  event_type event' = "payment_intent.succeeded" ->
  pi_id (data_object event') = pi_id (data_object event) ->
  find (tracks (pi_id (data_object event))) (failedPayments (db w)) = Some row ->
  status row = Some "failed" ->
  let w1 := snd (dispatch env now event w) in
  dispatch env now event w = (Returned tt, recovered now row w) /\
  find (tracks (pi_id (data_object event))) (failedPayments (db w1))
    = Some (Drizzle.set_status_recoveredAt "recovered" now row) /\
  dispatch env now' event' w1 = (Returned tt, w1).
Proof.
  intros Ht Ht' Hsame Hf Hs.
  assert (Hd : forall e t v,
            event_type e = "payment_intent.succeeded" ->
            dispatch env t e v = handlePaymentSucceeded t (data_object e) v).
  { intros e t v He. unfold dispatch. now rewrite He. }
  assert (H1 : dispatch env now event w = (Returned tt, recovered now row w)).
  { rewrite (Hd event now w Ht), handlePaymentSucceeded_run, Hf, Hs. reflexivity. }
  assert (H2 : find (tracks (pi_id (data_object event)))
                 (failedPayments (db (recovered now row w)))
               = Some (Drizzle.set_status_recoveredAt "recovered" now row)).
  { unfold recovered. cbn [db failedPayments].
    rewrite find_tracks_recovered, Hf. cbn [option_map]. now rewrite Z.eqb_refl. }
  cbv zeta. rewrite H1. cbn [snd]. repeat split.
  - exact H2.
  - rewrite (Hd event' now' _ Ht'), handlePaymentSucceeded_run, Hsame, H2. reflexivity.
Qed.

Lemma succeeded_recovers_once_witness :
  let w := Sample.world (Sample.trackingDb "failed" None) in
  let w1 := snd (dispatch Sample.env 3000 (Sample.eventOf "succeeded") w) in
  dispatch Sample.env 3000 (Sample.eventOf "succeeded") w
    = (Returned tt, recovered 3000 (Sample.tracked "failed" None) w) /\
  find (tracks "pi_1") (failedPayments (db w1))
    = Some (Sample.tracked "recovered" (Some 3000)) /\
  dispatch Sample.env 4000 (Sample.eventOf "succeeded") w1 = (Returned tt, w1).
Proof.
  exact (succeeded_recovers_once Sample.env 3000 4000
           (Sample.eventOf "succeeded") (Sample.eventOf "succeeded")
           (Sample.world (Sample.trackingDb "failed" None))
           (Sample.tracked "failed" None) eq_refl eq_refl eq_refl eq_refl eq_refl).
Defined.

(* ================================================================== *)
(** ** The recovery endpoint (C7) *)

(** What a call of the endpoint does to a payment it finds: either a
    Stripe call throws, the answer is 500 and no table changes, or the
    row is written again with the time of this call. *)
Lemma updatePaymentMethod_found env now paymentId paymentMethodId w payment :
  find (fun p => id p =? paymentId) (failedPayments (db w)) = Some payment ->
  (exists message w',
     updatePaymentMethod env now paymentId paymentMethodId w
       = (Returned {| statusCode := 500; payload := Json_error message |}, w')
     /\ db w' = db w) \/
  (exists w',
     updatePaymentMethod env now paymentId paymentMethodId w
       = (Returned {| statusCode := 200; payload := Json_success |}, w')
     /\ find (fun p => id p =? paymentId) (failedPayments (db w'))
          = Some (Drizzle.set_status_recoveredAt "recovered" now payment)).
Proof.
  intros Hf.
  unfold updatePaymentMethod, tryCatch, bind, Drizzle.findFirst, readDb, external, ret.
  rewrite Hf.
  destruct (customers_update env (stripeCustomerId payment) paymentMethodId) as [[]|e1];
    [|left; eauto].
  destruct (paymentIntents_confirm env (stripePaymentIntentId payment)) as [[]|e2];
    [|left; eauto].
  right. eexists. split; [reflexivity|]. simpl.
  rewrite (find_map_same (fun p => id p =? paymentId)
             (fun p => if id p =? paymentId
                       then Drizzle.set_status_recoveredAt "recovered" now p
                       else p)).
  - rewrite Hf. simpl. apply find_some_holds in Hf. simpl in Hf. now rewrite Hf.
  - intros p. simpl. destruct (id p =? paymentId) eqn:E; simpl; now rewrite E.
Qed.

(** C7 (the code at the failing input). The store tracks payment 1 as
    failed.  A first call of the endpoint at time 1000 marks it recovered
    at 1000; a second call at time 2000 is answered with success and moves
    [recoveredAt] to 2000. *)
Theorem recovery_endpoint_restamps :
  let w := Sample.world (Sample.trackingDb "failed" None) in
  let first := updatePaymentMethod Sample.env 1000 1 (Some "pm_1") w in
  let second := updatePaymentMethod Sample.env 2000 1 (Some "pm_1") (snd first) in
  fst first = Returned {| statusCode := 200; payload := Json_success |} /\
  failedPayments (db (snd first)) = [Sample.tracked "recovered" (Some 1000)] /\
  fst second = Returned {| statusCode := 200; payload := Json_success |} /\
  failedPayments (db (snd second)) = [Sample.tracked "recovered" (Some 2000)].
Proof. repeat split. Qed.

(* ================================================================== *)
(** ** The amount placeholder (C9) *)

(** C9. For a payment of 4999 minor units in ["usd"], the replacement the
    Dunning Notifier computes for the amount token is ["$49.99"]; used as
    a replacement string it stands for itself whatever the match, so a
    body that is the token alone is rendered as ["$49.99"]. *)
Theorem amount_4999_usd_renders env payment :
  amount payment = 4999 ->
  currency payment = "usd" ->
  amountText env (amount payment) = "$49.99" /\
  (forall matched before after,
     Js.getSubstitution matched before after (amountText env (amount payment))
       = "$49.99") /\
  (forall updateLink, renderBody env updateLink payment "{{amount}}" = "$49.99").
Proof.
  intros Ha _.
  assert (E : amountText env (amount payment) = "$49.99").
  { rewrite Ha. vm_compute. reflexivity. }
  repeat split.
  - exact E.
  - intros. rewrite E. reflexivity.
  - intros. unfold renderBody. rewrite E. reflexivity.
Qed.

Lemma amount_4999_usd_renders_witness :
  amountText Sample.env (amount (Sample.tracked "failed" None)) = "$49.99" /\
  (forall matched before after,
     Js.getSubstitution matched before after
       (amountText Sample.env (amount (Sample.tracked "failed" None))) = "$49.99") /\
  (forall updateLink,
     renderBody Sample.env updateLink (Sample.tracked "failed" None) "{{amount}}"
       = "$49.99").
Proof.
  exact (amount_4999_usd_renders Sample.env (Sample.tracked "failed" None)
           eq_refl eq_refl).
Defined.

(* ================================================================== *)
(** ** A new failure (C2, C8) *)

(** The world a new failure leaves: the row is stored, and the Dunning
    Notifier ran on it if the user has an enabled template. *)
Lemma handlePaymentFailed_new_world env now paymentIntent w user customerEmail_ customerId :
  Resolves env paymentIntent w user customerEmail_ ->
  find (tracks (pi_id paymentIntent)) (failedPayments (db w)) = None ->
  customer paymentIntent = Some customerId ->
  Fits paymentIntent user w ->
  let n := failedPayments_id_seq (db w) in
  let stored :=
    inserted (newRow now paymentIntent user customerEmail_ customerId n)
      (snd (customerEmailOf env paymentIntent w)) in
  exists payment,
    id payment = n /\
    handlePaymentFailed env now paymentIntent w =
      (Returned tt,
       match firstFailureTemplate (user_id user) (db w) with
       | None => stored
       | Some template => notified env now n payment template stored
       end).
Proof.
  intros Hr Hf Hc Hfits n stored.
  rewrite (handlePaymentFailed_new env now paymentIntent w user customerEmail_ customerId
             Hr Hf Hc Hfits).
  fold n. fold stored. rewrite sendDunningEmail_run.
  pose proof (customerEmailOf_world env paymentIntent w) as [Hdb _].
  assert (Ht : firstFailureTemplate (user_id user) (db stored)
               = firstFailureTemplate (user_id user) (db w)).
  { unfold firstFailureTemplate, stored, inserted; simpl. now rewrite Hdb. }
  rewrite Ht.
  destruct (find_app_last (fun p => id p =? n)
              (failedPayments (db (snd (customerEmailOf env paymentIntent w))))
              (newRow now paymentIntent user customerEmail_ customerId n))
    as [payment [Hp Hid]].
  { simpl. apply Z.eqb_refl. }
  exists payment. split; [now apply Z.eqb_eq|].
  change (failedPayments (db stored)) with
    (failedPayments (db (snd (customerEmailOf env paymentIntent w)))
       ++ [newRow now paymentIntent user customerEmail_ customerId n])%list.
  rewrite Hp.
  destruct (firstFailureTemplate (user_id user) (db w)); reflexivity.
Qed.

(** Every way a resolved event ends: the count of the tracked row is
    raised; the database refuses the write before anything happened, or
    after an id was drawn; or the new row is stored and the Dunning
    Notifier ran. *)
Lemma handlePaymentFailed_outcomes env now paymentIntent w user customerEmail_ :
  Resolves env paymentIntent w user customerEmail_ ->
  let w1 := snd (customerEmailOf env paymentIntent w) in
  let n := failedPayments_id_seq (db w) in
  (exists existing,
     find (tracks (pi_id paymentIntent)) (failedPayments (db w)) = Some existing /\
     handlePaymentFailed env now paymentIntent w = (Returned tt, bumped existing w1)) \/
  (exists message,
     handlePaymentFailed env now paymentIntent w = (Thrown message, w1)) \/
  (exists message,
     handlePaymentFailed env now paymentIntent w = (Thrown message, idDrawn w1)) \/
  (exists customerId payment,
     find (tracks (pi_id paymentIntent)) (failedPayments (db w)) = None /\
     customer paymentIntent = Some customerId /\
     Fits paymentIntent user w /\
     id payment = n /\
     handlePaymentFailed env now paymentIntent w =
       (Returned tt,
        match firstFailureTemplate (user_id user) (db w) with
        | None =>
            inserted (newRow now paymentIntent user customerEmail_ customerId n) w1
        | Some template =>
            notified env now n payment template
              (inserted (newRow now paymentIntent user customerEmail_ customerId n) w1)
        end)).
Proof.
  intros Hr w1 n.
  pose proof (customerEmailOf_world env paymentIntent w) as [Hdb _].
  destruct (find (tracks (pi_id paymentIntent)) (failedPayments (db w)))
    as [existing|] eqn:Hf.
  - destruct (Drizzle.int4 (attempts existing + 1)) eqn:Hn.
    + left. exists existing. split; [reflexivity|].
      now apply (handlePaymentFailed_existing env now paymentIntent w user customerEmail_).
    + right; left. eexists.
      rewrite (handlePaymentFailed_resolved env now paymentIntent w user customerEmail_ Hr), Hf.
      now apply recordFailure_count_refused.
  - destruct (recordFailure_new_cases env now paymentIntent user customerEmail_ w1)
      as [[customerId [Hfits Hc]] | [[message E] | [message E]]].
    + right; right; right.
      assert (Hfits' : Fits paymentIntent user w).
      { destruct Hfits as [Ha Hu Hs]. split; auto. fold w1 in Hdb. now rewrite <- Hdb. }
      destruct (handlePaymentFailed_new_world env now paymentIntent w user customerEmail_
                  customerId Hr Hf Hc Hfits') as [payment [Hid E]].
      exists customerId, payment. auto.
    + right; left. exists message.
      now rewrite (handlePaymentFailed_resolved env now paymentIntent w user customerEmail_ Hr), Hf.
    + right; right; left. exists message.
      now rewrite (handlePaymentFailed_resolved env now paymentIntent w user customerEmail_ Hr), Hf.
Qed.

(** A row is created for an untracked payment intent only on that last
    path: the event resolves, carries a customer id, and its numbers fit
    their columns. *)
Lemma created_only_when_storable env now paymentIntent w :
  find (tracks (pi_id paymentIntent)) (failedPayments (db w)) = None ->
  failedPayments (db (snd (handlePaymentFailed env now paymentIntent w)))
    <> failedPayments (db w) ->
  exists user customerEmail_ customerId,
    Resolves env paymentIntent w user customerEmail_ /\
    customer paymentIntent = Some customerId /\
    Fits paymentIntent user w.
Proof.
  intros Hf Hnew.
  destruct (handlePaymentFailed_unresolved env now paymentIntent w)
    as [[Hdb _] | [user [em Hr]]].
  { exfalso. apply Hnew. now rewrite Hdb. }
  pose proof (customerEmailOf_world env paymentIntent w) as [Hdb _].
  destruct (handlePaymentFailed_outcomes env now paymentIntent w user em Hr)
    as [[existing [Hf' E]] | [[message E] | [[message E]
        | [customerId [payment [_ [Hc [Hfits _]]]]]]]].
  - congruence.
  - exfalso. apply Hnew. rewrite E. cbn [snd]. now rewrite Hdb.
  - exfalso. apply Hnew. rewrite E. cbn [snd idDrawn db failedPayments]. now rewrite Hdb.
  - exists user, em, customerId. auto.
Qed.

Lemma emailsSent_snoc w c :
  isEmailsSend c = true ->
  filter isEmailsSend (calls w ++ [c])%list = (emailsSent w ++ [c])%list.
Proof.
  intros H. unfold emailsSent. rewrite filter_app. simpl. now rewrite H.
Qed.



Lemma sample_intent_resolves w :
  users (db w) = [Sample.merchant] ->
  Resolves Sample.env Sample.intent w Sample.merchant "jo@mail.test".
Proof.
  intros Hu. split.
  - exists "acct_1". simpl. rewrite Hu. repeat split. discriminate.
  - reflexivity.
  - discriminate.
Qed.

Lemma sample_intent_fits w :
  Drizzle.int4 (failedPayments_id_seq (db w)) = true ->
  Fits Sample.intent Sample.merchant w.
Proof. intros Hn. split; [reflexivity | reflexivity | exact Hn]. Qed.


(** Without an enabled template the Dunning Notifier does nothing. *)
Lemma sendDunningEmail_no_template env now failedPaymentId_ userId_ w :
  firstFailureTemplate userId_ (db w) = None ->
  sendDunningEmail env now failedPaymentId_ userId_ w = (Returned tt, w).
Proof.
  intros Ht. rewrite sendDunningEmail_run, Ht.
  destruct (find _ (failedPayments (db w))); reflexivity.
Qed.

(** C8. When the user of a newly tracked failure (an event that resolves,
    for an untracked payment intent, with a customer id and numbers the
    columns hold: what it takes for the row to be created) has no
    enabled ['first_failure'] template, the handler returns with the new
    row appended, no dunning log added and no email sent; the Dunning
    Notifier, run for that user on any payment, leaves the world as it
    is. *)
Theorem no_template_no_notification env now paymentIntent w user customerEmail_ customerId :
  Resolves env paymentIntent w user customerEmail_ ->
  find (tracks (pi_id paymentIntent)) (failedPayments (db w)) = None ->
  customer paymentIntent = Some customerId ->
  Fits paymentIntent user w ->
  firstFailureTemplate (user_id user) (db w) = None ->
  let row := newRow now paymentIntent user customerEmail_ customerId
               (failedPayments_id_seq (db w)) in
  let w' := snd (handlePaymentFailed env now paymentIntent w) in
  fst (handlePaymentFailed env now paymentIntent w) = Returned tt /\
  failedPayments (db w') = (failedPayments (db w) ++ [row])%list /\
  dunningLogs (db w') = dunningLogs (db w) /\
  emailsSent w' = emailsSent w /\
  (forall failedPaymentId_,
     sendDunningEmail env now failedPaymentId_ (user_id user) w' = (Returned tt, w')).
Proof.
  intros Hr Hf Hc Hfits Ht row w'.
  destruct (handlePaymentFailed_new_world env now paymentIntent w user customerEmail_
              customerId Hr Hf Hc Hfits) as [payment [Hid E]].
  pose proof (customerEmailOf_world env paymentIntent w) as [Hdb Hmail].
  rewrite Ht in E.
  assert (Ht' : firstFailureTemplate (user_id user) (db w') = None).
  { subst w'. rewrite E. unfold firstFailureTemplate in *. simpl. now rewrite Hdb. }
  split; [now rewrite E|]. split; [subst w'; rewrite E; simpl; now rewrite Hdb|].
  split; [subst w'; rewrite E; simpl; now rewrite Hdb|].
  split; [subst w'; rewrite E; exact Hmail|].
  intros failedPaymentId_. now apply sendDunningEmail_no_template.
Qed.

Lemma no_template_no_notification_witness :
  let w := Sample.world Sample.bareDb in
  let row :=
    {| id := 1; userId := 7; stripePaymentIntentId := "pi_1";
       stripeCustomerId := "cus_1"; customerEmail := "jo@mail.test";
       amount := 4999; currency := "usd"; status := Some "failed";
       failureReason := Some "Your card was declined.";
       attemptCount := Some 1; nextRetryAt := Some 86401000;
       createdAt := Some 1000; recoveredAt := None |} in
  let w' := snd (handlePaymentFailed Sample.env 1000 Sample.intent w) in
  fst (handlePaymentFailed Sample.env 1000 Sample.intent w) = Returned tt /\
  failedPayments (db w') = [row] /\
  dunningLogs (db w') = [] /\
  emailsSent w' = [] /\
  (forall failedPaymentId_,
     sendDunningEmail Sample.env 1000 failedPaymentId_ 7 w' = (Returned tt, w')).
Proof.
  exact (no_template_no_notification Sample.env 1000 Sample.intent
           (Sample.world Sample.bareDb) Sample.merchant "jo@mail.test" "cus_1"
           (sample_intent_resolves (Sample.world Sample.bareDb) eq_refl) eq_refl eq_refl
           (sample_intent_fits (Sample.world Sample.bareDb) eq_refl) eq_refl).
Defined.

(* ================================================================== *)
(** ** A failure of a payment intent that is already tracked *)

(** A world in which the same users are stored resolves the same events. *)
Lemma Resolves_same_users env paymentIntent w w' user customerEmail_ :
  users (db w') = users (db w) ->
  Resolves env paymentIntent w user customerEmail_ ->
  Resolves env paymentIntent w' user customerEmail_.
Proof.
  intros Hu [[acct [Ha [Hne Hfind]]] He Hn]. split.
  - exists acct. rewrite Hu. auto.
  - now rewrite (customerEmailOf_outcome env paymentIntent w' w).
  - exact Hn.
Qed.

Lemma filter_one_find {A} (f : A -> bool) (l : list A) (x : A) :
  filter f l = [x] -> find f l = Some x.
Proof.
  induction l as [|a l IH]; cbn; [discriminate|].
  destruct (f a); [now intros [= ->] | exact IH].
Qed.

Lemma map_bumped {B} (column : FailedPayment -> B) existing l :
  (forall n p, column (Drizzle.set_attemptCount n p) = column p) ->
  map column
      (map (fun p => if id p =? id existing
                     then Drizzle.set_attemptCount (nextAttempt (attemptCount existing)) p
                     else p) l)
  = map column l.
Proof.
  intros H. rewrite map_map. apply map_ext. intros p.
  destruct (id p =? id existing); [apply H | reflexivity].
Qed.

(** Whatever the event resolves to and whatever the database makes of the
    write, a failure of a tracked payment intent adds no row, changes no
    status, and neither logs nor sends anything. *)
Lemma handlePaymentFailed_tracked env now paymentIntent w existing :
  find (tracks (pi_id paymentIntent)) (failedPayments (db w)) = Some existing ->
  let w' := snd (handlePaymentFailed env now paymentIntent w) in
  map stripePaymentIntentId (failedPayments (db w'))
    = map stripePaymentIntentId (failedPayments (db w)) /\
  map status (failedPayments (db w')) = map status (failedPayments (db w)) /\
  dunningLogs (db w') = dunningLogs (db w) /\
  emailsSent w' = emailsSent w.
Proof.
  intros Hf w'.
  destruct (handlePaymentFailed_unresolved env now paymentIntent w)
    as [[Hdb Hmail] | [user [em Hr]]].
  { subst w'. rewrite Hdb. auto. }
  pose proof (customerEmailOf_world env paymentIntent w) as [Hdb Hmail].
  subst w'.
  destruct (handlePaymentFailed_outcomes env now paymentIntent w user em Hr)
    as [[existing' [_ E]] | [[message E] | [[message E] | [c [p [Hnone _]]]]]];
    [| | |congruence]; rewrite E; cbn [snd].
  - unfold bumped, emailsSent. cbn [db failedPayments dunningLogs calls].
    rewrite Hdb. repeat split.
    + apply map_bumped. reflexivity.
    + apply map_bumped. reflexivity.
    + exact Hmail.
  - rewrite Hdb. auto.
  - unfold idDrawn, emailsSent. cbn [db failedPayments dunningLogs calls].
    rewrite Hdb. auto.
Qed.

(** The one row that tracks a payment intent, once its count was raised:
    the same row but for a count that is one higher. *)
Lemma rowsFor_bumped pid existing w :
  rowsFor pid (db w) = [existing] ->
  rowsFor pid (db (bumped existing w)) =
    [ {| id := id existing; userId := userId existing;
           stripePaymentIntentId := stripePaymentIntentId existing;
           stripeCustomerId := stripeCustomerId existing;
           customerEmail := customerEmail existing;
           amount := amount existing; currency := currency existing;
           status := status existing; failureReason := failureReason existing;
           attemptCount := Some (attempts existing + 1);
           nextRetryAt := nextRetryAt existing; createdAt := createdAt existing;
           recoveredAt := recoveredAt existing |} ].
Proof.
  intros Hrows. unfold rowsFor, bumped. cbn [db failedPayments].
  rewrite (filter_map_same (tracks pid)
             (fun p => if id p =? id existing
                       then Drizzle.set_attemptCount (nextAttempt (attemptCount existing)) p
                       else p)).
  - fold (rowsFor pid (db w)). rewrite Hrows. cbn [map].
    rewrite Z.eqb_refl, nextAttempt_attempts. reflexivity.
  - intros p. destruct (id p =? id existing); reflexivity.
Qed.

(** When the event resolves and the new count fits the column, the
    handler returns and the one tracking row is counted once more. *)
Lemma handlePaymentFailed_counts env now paymentIntent w existing user customerEmail_ :
  rowsFor (pi_id paymentIntent) (db w) = [existing] ->
  Resolves env paymentIntent w user customerEmail_ ->
  Drizzle.int4 (attempts existing + 1) = true ->
  let w' := snd (handlePaymentFailed env now paymentIntent w) in
  handlePaymentFailed env now paymentIntent w
    = (Returned tt, bumped existing (snd (customerEmailOf env paymentIntent w))) /\
  rowsFor (pi_id paymentIntent) (db w') =
    [ {| id := id existing; userId := userId existing;
           stripePaymentIntentId := stripePaymentIntentId existing;
           stripeCustomerId := stripeCustomerId existing;
           customerEmail := customerEmail existing;
           amount := amount existing; currency := currency existing;
           status := status existing; failureReason := failureReason existing;
           attemptCount := Some (attempts existing + 1);
           nextRetryAt := nextRetryAt existing; createdAt := createdAt existing;
           recoveredAt := recoveredAt existing |} ].
Proof.
  intros Hrows Hr Hn w'. subst w'.
  pose proof (filter_one_find _ _ _ Hrows) as Hf.
  rewrite (handlePaymentFailed_existing env now paymentIntent w user customerEmail_
             existing Hr Hf Hn).
  split; [reflexivity|]. cbn [snd].
  unfold rowsFor. rewrite bumped_db_snd. now apply rowsFor_bumped.
Qed.

(** The first delivery of an untracked failure, when it leaves a row. *)
Lemma first_delivery_stores env now paymentIntent w :
  rowsFor (pi_id paymentIntent) (db w) = [] ->
  rowsFor (pi_id paymentIntent) (db (snd (handlePaymentFailed env now paymentIntent w))) <> [] ->
  exists user customerEmail_ customerId,
    Resolves env paymentIntent (snd (handlePaymentFailed env now paymentIntent w))
      user customerEmail_ /\
    rowsFor (pi_id paymentIntent) (db (snd (handlePaymentFailed env now paymentIntent w)))
      = [newRow now paymentIntent user customerEmail_ customerId
           (failedPayments_id_seq (db w))].
Proof.
  intros Hnone Hsome.
  destruct (handlePaymentFailed_unresolved env now paymentIntent w)
    as [[Hdb _] | [user [em Hr]]].
  { exfalso. apply Hsome. unfold rowsFor. now rewrite Hdb. }
  pose proof (customerEmailOf_world env paymentIntent w) as [Hdb0 _].
  destruct (handlePaymentFailed_outcomes env now paymentIntent w user em Hr)
    as [[existing [Hf E]] | [[message E] | [[message E]
        | [customerId [payment [_ [Hc [_ [_ E]]]]]]]]].
  - exfalso. rewrite (filter_nil_find_none _ _ Hnone) in Hf. discriminate.
  - exfalso. apply Hsome. rewrite E. cbn [snd]. unfold rowsFor. now rewrite Hdb0.
  - exfalso. apply Hsome. rewrite E. cbn [snd]. unfold rowsFor, idDrawn.
    cbn [db failedPayments]. now rewrite Hdb0.
  - exists user, em, customerId. rewrite E. cbn [snd]. split.
    + apply (Resolves_same_users env paymentIntent w); [|exact Hr].
      destruct (firstFailureTemplate (user_id user) (db w));
        cbn [notified inserted db users]; now rewrite Hdb0.
    + unfold rowsFor.
      replace (failedPayments (db _)) with
        (failedPayments (db w) ++
           [newRow now paymentIntent user em customerId (failedPayments_id_seq (db w))])%list.
      * rewrite filter_app. fold (rowsFor (pi_id paymentIntent) (db w)). rewrite Hnone.
        cbn. unfold tracks. cbn. now rewrite String.eqb_refl.
      * destruct (firstFailureTemplate (user_id user) (db w));
          cbn [notified inserted db failedPayments]; now rewrite Hdb0.
Qed.

(* ================================================================== *)
(** ** Redelivery of a failure (C3) *)

(** C3, as stated, fails: [pi_4] comes without receipt email.  Its first
    delivery finds the customer's email at Stripe and stores the row; by
    the second delivery of the same event the customer was deleted, no
    email is found, and the row keeps its [attemptCount] of 1. *)
Lemma redelivery_after_customer_deleted_not_counted :
  let w1 := snd (handlePaymentFailed Sample.env 1000 Fixture.silentIntent
                   (Sample.world Sample.shopDb)) in
  let second := handlePaymentFailed Fixture.failingEnv 2000 Fixture.silentIntent w1 in
  map stripePaymentIntentId (failedPayments (db w1)) = [pi_id Fixture.silentIntent] /\
  map attemptCount (failedPayments (db w1)) = [Some 1] /\
  fst second = Returned tt /\
  map attemptCount (failedPayments (db (snd second))) = [Some 1].
Proof. repeat split. Qed.

(** C3 (amended).  When a first delivery of a failed-payment event has
    created the row that tracks its payment intent, a second delivery for
    that payment intent, handled after the first, adds no row, no dunning
    log and no email; and when it names a connected account of a known
    user and a customer email is found, as is the case when the same
    event comes again and the collaborators answer as before, the
    handler returns and the row goes from [attemptCount] 1 to 2, nothing
    else in it changing. *)
Theorem redelivery_counts_attempt env now paymentIntent w env' now' paymentIntent' :
  rowsFor (pi_id paymentIntent) (db w) = [] ->
  let w1 := snd (handlePaymentFailed env now paymentIntent w) in
  rowsFor (pi_id paymentIntent) (db w1) <> [] ->
  pi_id paymentIntent' = pi_id paymentIntent ->
  let w2 := snd (handlePaymentFailed env' now' paymentIntent' w1) in
  exists row,
    rowsFor (pi_id paymentIntent) (db w1) = [row] /\
    attemptCount row = Some 1 /\
    map stripePaymentIntentId (failedPayments (db w2))
      = map stripePaymentIntentId (failedPayments (db w1)) /\
    dunningLogs (db w2) = dunningLogs (db w1) /\
    emailsSent w2 = emailsSent w1 /\
    (forall user customerEmail_,
       Resolves env' paymentIntent' w1 user customerEmail_ ->
       fst (handlePaymentFailed env' now' paymentIntent' w1) = Returned tt /\
       rowsFor (pi_id paymentIntent) (db w2) =
         [ {| id := id row; userId := userId row;
           stripePaymentIntentId := stripePaymentIntentId row;
           stripeCustomerId := stripeCustomerId row;
           customerEmail := customerEmail row;
           amount := amount row; currency := currency row;
           status := status row; failureReason := failureReason row;
           attemptCount := Some (2);
           nextRetryAt := nextRetryAt row; createdAt := createdAt row;
           recoveredAt := recoveredAt row |} ]) /\
    (exists user customerEmail_, Resolves env paymentIntent w1 user customerEmail_).
Proof.
  intros Hnone w1 Hsome Hpid w2.
  destruct (first_delivery_stores env now paymentIntent w Hnone Hsome)
    as [user [em [customerId [Hr1 Hrows]]]].
  fold w1 in Hr1, Hrows.
  set (row := newRow now paymentIntent user em customerId (failedPayments_id_seq (db w))) in *.
  exists row. split; [exact Hrows|]. split; [reflexivity|].
  rewrite <- Hpid in Hrows.
  destruct (handlePaymentFailed_tracked env' now' paymentIntent' w1 row
              (filter_one_find _ _ _ Hrows)) as [H1 [_ [H3 H4]]].
  split; [exact H1|]. split; [exact H3|]. split; [exact H4|]. split.
  - intros user' em' Hr'.
    destruct (handlePaymentFailed_counts env' now' paymentIntent' w1 row user' em'
                Hrows Hr' eq_refl) as [E Hcount].
    split; [now rewrite E|]. rewrite <- Hpid. exact Hcount.
  - exists user, em. exact Hr1.
Qed.

Lemma redelivery_counts_attempt_witness :
  let w := Sample.world Sample.shopDb in
  let w1 := snd (handlePaymentFailed Sample.env 1000 Sample.intent w) in
  let w2 := snd (handlePaymentFailed Sample.env 2000 Sample.intent w1) in
  map attemptCount (rowsFor "pi_1" (db w1)) = [Some 1] /\
  fst (handlePaymentFailed Sample.env 2000 Sample.intent w1) = Returned tt /\
  rowsFor "pi_1" (db w2) =
    [ {| id := 1; userId := 7; stripePaymentIntentId := "pi_1";
         stripeCustomerId := "cus_1"; customerEmail := "jo@mail.test";
         amount := 4999; currency := "usd"; status := Some "failed";
         failureReason := Some "Your card was declined.";
         attemptCount := Some 2; nextRetryAt := Some 86401000;
         createdAt := Some 1000; recoveredAt := None |} ] /\
  map stripePaymentIntentId (failedPayments (db w2)) = ["pi_1"] /\
  dunningLogs (db w2) = dunningLogs (db w1) /\
  emailsSent w2 = emailsSent w1.
Proof.
  cbv zeta.
  assert (Hsome : rowsFor (pi_id Sample.intent)
                    (db (snd (handlePaymentFailed Sample.env 1000 Sample.intent
                                (Sample.world Sample.shopDb)))) <> [])
    by (vm_compute; discriminate).
  destruct (redelivery_counts_attempt Sample.env 1000 Sample.intent
              (Sample.world Sample.shopDb) Sample.env 2000 Sample.intent
              eq_refl Hsome eq_refl)
    as [row [Hrow [Hone [Hids [Hlogs [Hmails [Hcount _]]]]]]].
  injection Hrow as <-.
  destruct (Hcount Sample.merchant "jo@mail.test"
              (sample_intent_resolves
                 (snd (handlePaymentFailed Sample.env 1000 Sample.intent
                         (Sample.world Sample.shopDb)))
                 eq_refl)) as [Hret Hrows].
  split; [reflexivity|]. split; [exact Hret|]. split; [exact Hrows|].
  split; [exact Hids|]. split; [exact Hlogs | exact Hmails].
Defined.

(* ================================================================== *)
(** ** One unrecovered row per payment intent (C1) *)

Lemma handlePaymentFailed_keeps_invariant env now paymentIntent w :
  atMostOneOpen (db w) ->
  atMostOneOpen (db (snd (handlePaymentFailed env now paymentIntent w))).
Proof.
  intros Hinv.
  destruct (handlePaymentFailed_unresolved env now paymentIntent w)
    as [[Hdb _] | [user [em Hr]]]; [now rewrite Hdb|].
  pose proof (customerEmailOf_world env paymentIntent w) as [Hdb _].
  destruct (handlePaymentFailed_outcomes env now paymentIntent w user em Hr)
    as [[existing [Hf E]] | [[message E] | [[message E]
        | [customerId [payment [Hf [Hc [_ [_ E]]]]]]]]]; rewrite E; cbn [snd].
  - rewrite bumped_db_snd. intros pid.
    unfold openRowsFor, bumped. cbn [db failedPayments].
    rewrite (filter_map_same (fun p => tracks pid p && unrecovered p)
               (fun p => if id p =? id existing
                         then Drizzle.set_attemptCount (nextAttempt (attemptCount existing)) p
                         else p)).
    + rewrite length_map. apply Hinv.
    + intros p. destruct (id p =? id existing); reflexivity.
  - now rewrite Hdb.
  - intros pid. unfold openRowsFor, idDrawn. cbn [db failedPayments].
    rewrite Hdb. apply Hinv.
  - intros pid. unfold openRowsFor.
    assert (Hrows : forall v,
              v = match firstFailureTemplate (user_id user) (db w) with
                  | None =>
                      inserted (newRow now paymentIntent user em customerId
                                  (failedPayments_id_seq (db w)))
                        (snd (customerEmailOf env paymentIntent w))
                  | Some template =>
                      notified env now (failedPayments_id_seq (db w)) payment template
                        (inserted (newRow now paymentIntent user em customerId
                                     (failedPayments_id_seq (db w)))
                           (snd (customerEmailOf env paymentIntent w)))
                  end ->
              failedPayments (db v) =
                (failedPayments (db w) ++
                   [newRow now paymentIntent user em customerId
                      (failedPayments_id_seq (db w))])%list).
    { intros v ->. destruct (firstFailureTemplate (user_id user) (db w));
        cbn [notified inserted db failedPayments]; now rewrite Hdb. }
    rewrite (Hrows _ eq_refl), filter_app, length_app.
    cbn [filter]. unfold tracks at 2. cbn [newRow stripePaymentIntentId].
    destruct (String.eqb (pi_id paymentIntent) pid) eqn:Hpid.
    + apply String.eqb_eq in Hpid. subst pid.
      rewrite (find_none_filter_and _ unrecovered _ Hf).
      cbn [andb]. destruct (unrecovered _); simpl; lia.
    + cbn [andb List.length]. specialize (Hinv pid). unfold openRowsFor in Hinv. lia.
Qed.

Lemma handlePaymentSucceeded_keeps_invariant now paymentIntent w :
  atMostOneOpen (db w) ->
  atMostOneOpen (db (snd (handlePaymentSucceeded now paymentIntent w))).
Proof.
  intros Hinv. rewrite handlePaymentSucceeded_run.
  destruct (find _ _) as [fp|]; [|exact Hinv].
  destruct (eqText (status fp) "failed"); [|exact Hinv].
  cbn [snd]. intros pid. unfold openRowsFor, recovered. cbn [db failedPayments].
  etransitivity; [|apply (Hinv pid)].
  apply filter_map_shrinks. intros p.
  destruct (id p =? id fp); [|auto].
  unfold unrecovered. cbn. rewrite andb_false_r. discriminate.
Qed.

Lemma stripeWebhook_keeps_invariant env now req w :
  atMostOneOpen (db w) ->
  atMostOneOpen (db (snd (stripeWebhook env now req w))).
Proof.
  intros Hinv.
  destruct (verifiedEvent env req) as [event|] eqn:Hv.
  - rewrite (stripeWebhook_verified env now req w event Hv).
    assert (H : atMostOneOpen (db (snd (dispatch env now event w)))).
    { unfold dispatch.
      destruct (String.eqb (event_type event) "payment_intent.payment_failed");
        [now apply handlePaymentFailed_keeps_invariant|].
      destruct (String.eqb (event_type event) "payment_intent.succeeded");
        [now apply handlePaymentSucceeded_keeps_invariant | exact Hinv]. }
    destruct (dispatch env now event w) as [[u|message] w']; exact H.
  - destruct (stripeWebhook_unverified env now req w Hv) as [r [E _]].
    now rewrite E.
Qed.

Lemma deliverAll_keeps_invariant ds :
  forall w, atMostOneOpen (db w) -> atMostOneOpen (db (deliverAll ds w)).
Proof.
  induction ds as [|d ds IH]; intros w Hinv; [exact Hinv|].
  apply IH. now apply stripeWebhook_keeps_invariant.
Qed.

(** C1, as stated, fails: after a failure of [pi_1] was stored, a
    [payment_intent.payment_failed] event for [pi_1] that names no
    connected account is acknowledged and the row keeps its
    [attemptCount] of 1. *)
Lemma direct_refailure_not_counted :
  let w1 := deliverAll [Sample.delivery 1000 "failed"] (Sample.world Sample.shopDb) in
  let w2 := deliver w1 (Sample.delivery 2000 "failed-direct") in
  verifiedEvent Sample.env (Sample.request "good" "failed-direct")
    = Some {| event_type := "payment_intent.payment_failed";
              data_object := Sample.directIntent |} /\
  map stripePaymentIntentId (failedPayments (db w1)) = [pi_id Sample.directIntent] /\
  map attemptCount (failedPayments (db w1)) = [Some 1] /\
  map attemptCount (failedPayments (db w2)) = [Some 1].
Proof. repeat split. Qed.

(** C1 (amended). From a store with at most one unrecovered row per
    payment intent (the empty one, say), every run of webhook deliveries
    handled one after another leads to such a store (deliveries that
    overlap can leave two such rows: the handler has no transaction and
    the table no unique key).  In the store
    reached, a failure of a payment intent that a row tracks adds no row;
    when the event names a connected account of a known user and a
    customer email is found, the handler returns and the [attemptCount]
    of the row tracking the payment intent is raised by one, nothing else
    in the row changing (the row being the only one for the payment
    intent, and the new count one the 32-bit column holds). *)
Theorem one_open_row_per_intent ds w :
  atMostOneOpen (db w) ->
  atMostOneOpen (db (deliverAll ds w)) /\
  forall env now paymentIntent existing,
    let v := deliverAll ds w in
    let v' := snd (handlePaymentFailed env now paymentIntent v) in
    find (tracks (pi_id paymentIntent)) (failedPayments (db v)) = Some existing ->
    map stripePaymentIntentId (failedPayments (db v'))
      = map stripePaymentIntentId (failedPayments (db v)) /\
    forall user customerEmail_,
      Resolves env paymentIntent v user customerEmail_ ->
      rowsFor (pi_id paymentIntent) (db v) = [existing] ->
      Drizzle.int4 (attempts existing + 1) = true ->
      fst (handlePaymentFailed env now paymentIntent v) = Returned tt /\
      rowsFor (pi_id paymentIntent) (db v') =
        [ {| id := id existing; userId := userId existing;
           stripePaymentIntentId := stripePaymentIntentId existing;
           stripeCustomerId := stripeCustomerId existing;
           customerEmail := customerEmail existing;
           amount := amount existing; currency := currency existing;
           status := status existing; failureReason := failureReason existing;
           attemptCount := Some (attempts existing + 1);
           nextRetryAt := nextRetryAt existing; createdAt := createdAt existing;
           recoveredAt := recoveredAt existing |} ].
Proof.
  intros Hinv. split; [now apply deliverAll_keeps_invariant|].
  intros env now paymentIntent existing v v' Hf. split.
  - apply (handlePaymentFailed_tracked env now paymentIntent v existing Hf).
  - intros user em Hr Hrows Hn.
    destruct (handlePaymentFailed_counts env now paymentIntent v existing user em
                Hrows Hr Hn) as [E Hcount].
    split; [now rewrite E | exact Hcount].
Qed.

Lemma shopDb_atMostOneOpen : atMostOneOpen Sample.shopDb.
Proof. intros pid. simpl. lia. Qed.

Lemma one_open_row_per_intent_witness :
  let ds := [Sample.delivery 1000 "failed"; Sample.delivery 3000 "succeeded"] in
  let v := deliverAll ds (Sample.world Sample.shopDb) in
  let v' := snd (handlePaymentFailed Sample.env 4000 Sample.intent v) in
  atMostOneOpen Sample.shopDb /\
  atMostOneOpen (db v) /\
  map attemptCount (failedPayments (db v)) = [Some 1] /\
  map stripePaymentIntentId (failedPayments (db v')) = ["pi_1"] /\
  fst (handlePaymentFailed Sample.env 4000 Sample.intent v) = Returned tt /\
  rowsFor "pi_1" (db v') =
    [ {| id := 1; userId := 7; stripePaymentIntentId := "pi_1";
         stripeCustomerId := "cus_1"; customerEmail := "jo@mail.test";
         amount := 4999; currency := "usd"; status := Some "recovered";
         failureReason := Some "Your card was declined.";
         attemptCount := Some 2; nextRetryAt := Some 86401000;
         createdAt := Some 1000; recoveredAt := Some 3000 |} ].
Proof.
  cbv zeta.
  destruct (one_open_row_per_intent
              [Sample.delivery 1000 "failed"; Sample.delivery 3000 "succeeded"]
              (Sample.world Sample.shopDb) shopDb_atMostOneOpen) as [Hinv Hnext].
  destruct (Hnext Sample.env 4000 Sample.intent
              (Drizzle.set_status_recoveredAt "recovered" 3000
                 (newRow 1000 Sample.intent Sample.merchant "jo@mail.test" "cus_1" 1))
              eq_refl) as [Hsame Hcount].
  destruct (Hcount Sample.merchant "jo@mail.test"
              (sample_intent_resolves
                 (deliverAll
                    [Sample.delivery 1000 "failed"; Sample.delivery 3000 "succeeded"]
                    (Sample.world Sample.shopDb))
                 eq_refl)
              eq_refl eq_refl) as [Hret Hrows].
  split; [exact shopDb_atMostOneOpen|].
  split; [exact Hinv|].
  split; [reflexivity|].
  split; [exact Hsame|].
  split; [exact Hret | exact Hrows].
Defined.

(* ================================================================== *)
(** ** A failure after a recovery (C10) *)

(** C10, as stated, fails: once [pi_1] is tracked and recovered, a
    [payment_intent.payment_failed] event for [pi_1] that names no
    connected account leaves the recovered row's [attemptCount] at 1. *)
Lemma direct_refailure_after_recovery_not_counted :
  let w2 := deliverAll [Sample.delivery 1000 "failed"; Sample.delivery 3000 "succeeded"]
              (Sample.world Sample.shopDb) in
  let w3 := deliver w2 (Sample.delivery 4000 "failed-direct") in
  verifiedEvent Sample.env (Sample.request "good" "failed-direct")
    = Some {| event_type := "payment_intent.payment_failed";
              data_object := Sample.directIntent |} /\
  map stripePaymentIntentId (failedPayments (db w2)) = [pi_id Sample.directIntent] /\
  map status (failedPayments (db w2)) = [Some "recovered"] /\
  map attemptCount (failedPayments (db w2)) = [Some 1] /\
  map attemptCount (failedPayments (db w3)) = [Some 1].
Proof. repeat split. Qed.

(** C10 (amended). A failure of a payment intent whose tracking row has
    status ['recovered'] adds no row, leaves every status as it is (the
    row stays ['recovered']), appends no dunning log and sends no email;
    when the event names a connected account of a known user and a
    customer email is found, the handler returns and the recovered row's
    [attemptCount] is raised by one, nothing else in the row changing
    (the row being the only one for the payment intent, and the new
    count one the 32-bit column holds). *)
Theorem refailure_after_recovery env now paymentIntent w existing :
  find (tracks (pi_id paymentIntent)) (failedPayments (db w)) = Some existing ->
  status existing = Some "recovered" ->
  let w' := snd (handlePaymentFailed env now paymentIntent w) in
  map stripePaymentIntentId (failedPayments (db w'))
    = map stripePaymentIntentId (failedPayments (db w)) /\
  map status (failedPayments (db w')) = map status (failedPayments (db w)) /\
  dunningLogs (db w') = dunningLogs (db w) /\
  emailsSent w' = emailsSent w /\
  forall user customerEmail_,
    Resolves env paymentIntent w user customerEmail_ ->
    rowsFor (pi_id paymentIntent) (db w) = [existing] ->
    Drizzle.int4 (attempts existing + 1) = true ->
    fst (handlePaymentFailed env now paymentIntent w) = Returned tt /\
    rowsFor (pi_id paymentIntent) (db w') =
      [ {| id := id existing; userId := userId existing;
           stripePaymentIntentId := stripePaymentIntentId existing;
           stripeCustomerId := stripeCustomerId existing;
           customerEmail := customerEmail existing;
           amount := amount existing; currency := currency existing;
           status := Some "recovered"; failureReason := failureReason existing;
           attemptCount := Some (attempts existing + 1);
           nextRetryAt := nextRetryAt existing; createdAt := createdAt existing;
           recoveredAt := recoveredAt existing |} ].
Proof.
  intros Hf Hs w'.
  destruct (handlePaymentFailed_tracked env now paymentIntent w existing Hf)
    as [H1 [H2 [H3 H4]]].
  repeat (split; [assumption|]).
  intros user em Hr Hrows Hn.
  destruct (handlePaymentFailed_counts env now paymentIntent w existing user em
              Hrows Hr Hn) as [E Hcount].
  split; [now rewrite E|]. fold w' in Hcount. rewrite Hcount, Hs. reflexivity.
Qed.

Lemma refailure_after_recovery_witness :
  let w := Sample.world (Sample.trackingDb "recovered" (Some 3000)) in
  let w' := snd (handlePaymentFailed Sample.env 4000 Sample.intent w) in
  map attemptCount (failedPayments (db w)) = [Some 1] /\
  map stripePaymentIntentId (failedPayments (db w')) = ["pi_1"] /\
  map status (failedPayments (db w')) = [Some "recovered"] /\
  dunningLogs (db w') = [] /\
  emailsSent w' = [] /\
  fst (handlePaymentFailed Sample.env 4000 Sample.intent w) = Returned tt /\
  rowsFor "pi_1" (db w') =
    [ {| id := 1; userId := 7; stripePaymentIntentId := "pi_1";
         stripeCustomerId := "cus_1"; customerEmail := "jo@mail.test";
         amount := 4999; currency := "usd"; status := Some "recovered";
         failureReason := None; attemptCount := Some 2;
         nextRetryAt := Some 86400000; createdAt := Some 0;
         recoveredAt := Some 3000 |} ].
Proof.
  cbv zeta.
  destruct (refailure_after_recovery Sample.env 4000 Sample.intent
              (Sample.world (Sample.trackingDb "recovered" (Some 3000)))
              (Sample.tracked "recovered" (Some 3000)) eq_refl eq_refl)
    as [H1 [H2 [H3 [H4 H5]]]].
  destruct (H5 Sample.merchant "jo@mail.test"
              (sample_intent_resolves
                 (Sample.world (Sample.trackingDb "recovered" (Some 3000))) eq_refl)
              eq_refl eq_refl)
    as [H6 H7].
  split; [reflexivity|].
  split; [exact H1|]. split; [exact H2|]. split; [exact H3|]. split; [exact H4|].
  split; [exact H6 | exact H7].
Defined.

(* ================================================================== *)
(** * Further properties of the routes *)

(** ** The Notification Sender ([email.ts]) *)

(** X1. The Notification Sender never throws: it makes exactly one call
    to Resend, touches no table, and returns [true] when the call
    returned and [false] when it threw. *)
Theorem sender_reports_delivery env to subject_ body_ w :
  Email.sendDunningEmail env to subject_ body_ w =
    (Returned (match emails_send env to subject_ body_ with
               | Returned _ => true
               | Thrown _ => false
               end),
     {| db := db w; calls := (calls w ++ [EmailsSend to subject_ body_])%list |}).
Proof.
  unfold Email.sendDunningEmail, tryCatch, bind, external, ret.
  destruct (emails_send env to subject_ body_); reflexivity.
Qed.

(** ** The Dunning Notifier *)



(** ** The recovery endpoint *)

(** The three ways a call for an existing payment ends. *)
Lemma updatePaymentMethod_update_throws env now paymentId paymentMethodId w payment message :
  find (fun p => id p =? paymentId) (failedPayments (db w)) = Some payment ->
  customers_update env (stripeCustomerId payment) paymentMethodId = Thrown message ->
  updatePaymentMethod env now paymentId paymentMethodId w =
    (Returned {| statusCode := 500; payload := Json_error message |},
     {| db := db w;
        calls := (calls w ++
                    [CustomersUpdate (stripeCustomerId payment) paymentMethodId])%list |}).
Proof.
  intros Hf Hu.
  unfold updatePaymentMethod, tryCatch, bind, Drizzle.findFirst, readDb, external, ret.
  rewrite Hf, Hu. reflexivity.
Qed.

Lemma updatePaymentMethod_confirm_throws env now paymentId paymentMethodId w payment message :
  find (fun p => id p =? paymentId) (failedPayments (db w)) = Some payment ->
  customers_update env (stripeCustomerId payment) paymentMethodId = Returned tt ->
  paymentIntents_confirm env (stripePaymentIntentId payment) = Thrown message ->
  updatePaymentMethod env now paymentId paymentMethodId w =
    (Returned {| statusCode := 500; payload := Json_error message |},
     {| db := db w;
        calls := (calls w ++
                    [CustomersUpdate (stripeCustomerId payment) paymentMethodId;
                     PaymentIntentsConfirm (stripePaymentIntentId payment)])%list |}).
Proof.
  intros Hf Hu Hc.
  unfold updatePaymentMethod, tryCatch, bind, Drizzle.findFirst, readDb, external, ret.
  rewrite Hf, Hu. cbn [db calls]. rewrite Hc. cbn [db calls].
  rewrite <- app_assoc. reflexivity.
Qed.

Lemma updatePaymentMethod_succeeds env now paymentId paymentMethodId w payment :
  find (fun p => id p =? paymentId) (failedPayments (db w)) = Some payment ->
  customers_update env (stripeCustomerId payment) paymentMethodId = Returned tt ->
  paymentIntents_confirm env (stripePaymentIntentId payment) = Returned tt ->
  updatePaymentMethod env now paymentId paymentMethodId w =
    (Returned {| statusCode := 200; payload := Json_success |},
     recovered now payment
       {| db := db w;
          calls := (calls w ++
                      [CustomersUpdate (stripeCustomerId payment) paymentMethodId;
                       PaymentIntentsConfirm (stripePaymentIntentId payment)])%list |}).
Proof.
  intros Hf Hu Hc.
  assert (Hid : id payment = paymentId).
  { apply find_some_holds in Hf. now apply Z.eqb_eq in Hf. }
  unfold updatePaymentMethod, tryCatch, bind, Drizzle.findFirst, readDb, external, ret.
  rewrite Hf, Hu. cbn [db calls]. rewrite Hc.
  unfold Drizzle.update_failedPayments, writeDb, recovered. cbn [db calls].
  rewrite <- app_assoc, Hid. reflexivity.
Qed.

(** What [parseInt] makes of some path parameters. *)
Example parseInt_samples :
  Js.parseInt "42" = Some 42 /\
  Js.parseInt " 7abc" = Some 7 /\
  Js.parseInt "-3" = Some (-3) /\
  Js.parseInt "+08" = Some 8 /\
  Js.parseInt "0x1F" = Some 31 /\
  Js.parseInt "1e3" = Some 1 /\
  Js.parseInt "4294967297" = Some 4294967297 /\
  Js.parseInt "0x" = None /\
  Js.parseInt "abc" = None /\
  Js.parseInt "" = None.
Proof. repeat split. Qed.

(** A path parameter that is no number, or one beyond the [integer]
    column (even one that is 1 modulo 2^32, payment 1 being there), gets
    no response, and nothing happens. *)
Example recovery_route_rejects_unreadable_id :
  let w := Sample.world (Sample.trackingDb "failed" None) in
  postPaymentUpdate Sample.env 1000 "abc" (Some "pm_1") w
    = (Thrown "invalid input syntax for type integer: NaN", w) /\
  postPaymentUpdate Sample.env 1000 "4294967297" (Some "pm_1") w
    = (Thrown "value out of range for type integer", w).
Proof. split; reflexivity. Qed.

(** X3. When the path parameter reads (by [parseInt]) as a 32-bit
    integer, the recovery endpoint answers, with 200, 404 or 500: 404
    exactly when no failed payment has the id, and then nothing at all
    happened; 200 exactly when the payment exists and both Stripe calls
    returned; and whenever the answer is not 200, no table was written.
    When the parameter reads as no number, or as a number beyond 32
    bits, the lookup before the [try] is refused: no response is sent,
    and nothing happened. *)
Theorem recovery_failure_writes_nothing env now idParam paymentMethodId w :
  (forall paymentId,
     Js.parseInt idParam = Some paymentId ->
     Drizzle.int4 paymentId = true ->
     exists r,
       fst (postPaymentUpdate env now idParam paymentMethodId w) = Returned r /\
       (statusCode r = 200 \/ statusCode r = 404 \/ statusCode r = 500) /\
       (statusCode r = 404 <->
          find (fun p => id p =? paymentId) (failedPayments (db w)) = None) /\
       (statusCode r = 404 ->
          snd (postPaymentUpdate env now idParam paymentMethodId w) = w) /\
       (statusCode r = 200 <->
          exists payment,
            find (fun p => id p =? paymentId) (failedPayments (db w)) = Some payment /\
            customers_update env (stripeCustomerId payment) paymentMethodId = Returned tt /\
            paymentIntents_confirm env (stripePaymentIntentId payment) = Returned tt) /\
       (statusCode r <> 200 ->
          db (snd (postPaymentUpdate env now idParam paymentMethodId w)) = db w)) /\
  ((Js.parseInt idParam = None \/
    exists paymentId,
      Js.parseInt idParam = Some paymentId /\ Drizzle.int4 paymentId = false) ->
   exists message,
     postPaymentUpdate env now idParam paymentMethodId w = (Thrown message, w)).
Proof.
  split.
  2:{ unfold postPaymentUpdate, throw.
      intros [-> | [paymentId [-> ->]]]; eexists; reflexivity. }
  intros paymentId Hparse Hfits.
  unfold postPaymentUpdate. rewrite Hparse, Hfits.
  unfold updatePaymentMethod, tryCatch, bind, Drizzle.findFirst, readDb, external, ret.
  destruct (find _ (failedPayments (db w))) as [payment|] eqn:Hf.
  2:{ eexists. split; [reflexivity|]. cbn [statusCode snd].
      repeat split; try tauto; try discriminate.
      intros [payment [H _]]. discriminate. }
  destruct (customers_update env (stripeCustomerId payment) paymentMethodId)
    as [[]|e1] eqn:Hu.
  2:{ eexists. split; [reflexivity|]. cbn [statusCode snd db].
      repeat split; try tauto; try discriminate.
      intros [p [[= <-] [H _]]]. congruence. }
  destruct (paymentIntents_confirm env (stripePaymentIntentId payment))
    as [[]|e2] eqn:Hc.
  2:{ eexists. split; [reflexivity|]. cbn [statusCode snd db].
      repeat split; try tauto; try discriminate.
      intros [p [[= <-] [_ H]]]. congruence. }
  eexists. split; [reflexivity|]. cbn [statusCode snd db].
  repeat split; try tauto; try discriminate.
  intros _. exists payment. auto.
Qed.

Lemma recovery_failure_writes_nothing_witness :
  let w := Sample.world (Sample.trackingDb "failed" None) in
  exists r,
    fst (postPaymentUpdate Fixture.failingEnv 1000 "1" (Some "pm_bad") w) = Returned r /\
    (statusCode r = 200 \/ statusCode r = 404 \/ statusCode r = 500) /\
    (statusCode r = 404 <->
       find (fun p => id p =? 1) (failedPayments (db w)) = None) /\
    (statusCode r = 404 ->
       snd (postPaymentUpdate Fixture.failingEnv 1000 "1" (Some "pm_bad") w) = w) /\
    (statusCode r = 200 <->
       exists payment,
         find (fun p => id p =? 1) (failedPayments (db w)) = Some payment /\
         customers_update Fixture.failingEnv (stripeCustomerId payment) (Some "pm_bad")
           = Returned tt /\
         paymentIntents_confirm Fixture.failingEnv (stripePaymentIntentId payment)
           = Returned tt) /\
    (statusCode r <> 200 ->
       db (snd (postPaymentUpdate Fixture.failingEnv 1000 "1" (Some "pm_bad") w)) = db w).
Proof.
  exact (proj1 (recovery_failure_writes_nothing Fixture.failingEnv 1000 "1"
                  (Some "pm_bad") (Sample.world (Sample.trackingDb "failed" None)))
           1 eq_refl eq_refl).
Defined.

(** X4. The endpoint stops at the first Stripe error: if updating the
    customer throws, the payment intent is never confirmed; if the
    confirmation throws, the customer's default payment method has
    already been changed.  Either way the answer is 500 with Stripe's
    message and the failed payment keeps its status. *)
Theorem recovery_stops_at_first_stripe_error env now paymentId paymentMethodId w payment :
  find (fun p => id p =? paymentId) (failedPayments (db w)) = Some payment ->
  (forall message,
     customers_update env (stripeCustomerId payment) paymentMethodId = Thrown message ->
     updatePaymentMethod env now paymentId paymentMethodId w =
       (Returned {| statusCode := 500; payload := Json_error message |},
        {| db := db w;
           calls := (calls w ++
                       [CustomersUpdate (stripeCustomerId payment) paymentMethodId])%list |})) /\
  (forall message,
     customers_update env (stripeCustomerId payment) paymentMethodId = Returned tt ->
     paymentIntents_confirm env (stripePaymentIntentId payment) = Thrown message ->
     updatePaymentMethod env now paymentId paymentMethodId w =
       (Returned {| statusCode := 500; payload := Json_error message |},
        {| db := db w;
           calls := (calls w ++
                       [CustomersUpdate (stripeCustomerId payment) paymentMethodId;
                        PaymentIntentsConfirm (stripePaymentIntentId payment)])%list |})).
Proof.
  intros Hf. split.
  - intros message Hu.
    exact (updatePaymentMethod_update_throws env now paymentId paymentMethodId w
             payment message Hf Hu).
  - intros message Hu Hc.
    exact (updatePaymentMethod_confirm_throws env now paymentId paymentMethodId w
             payment message Hf Hu Hc).
Qed.

Lemma recovery_stops_at_first_stripe_error_witness :
  updatePaymentMethod Fixture.failingEnv 1000 1 (Some "pm_bad")
    (Sample.world (Sample.trackingDb "failed" None)) =
  (Returned {| statusCode := 500; payload := Json_error "No such payment method" |},
   {| db := Sample.trackingDb "failed" None;
      calls := [CustomersUpdate "cus_1" (Some "pm_bad")] |}).
Proof.
  exact (proj1 (recovery_stops_at_first_stripe_error Fixture.failingEnv 1000 1
                  (Some "pm_bad") (Sample.world (Sample.trackingDb "failed" None))
                  (Sample.tracked "failed" None) eq_refl)
           "No such payment method" eq_refl).
Defined.

(** X5. A successful recovery call marks the payment with the given id
    recovered at the time of the call and changes nothing else: every
    row with another id stays as it is, no row is added or removed, no
    dunning log is written, no email is sent, and the only calls are the
    customer update followed by the confirmation of the payment intent. *)
Theorem recovery_marks_only_target env now paymentId paymentMethodId w payment :
  find (fun p => id p =? paymentId) (failedPayments (db w)) = Some payment ->
  customers_update env (stripeCustomerId payment) paymentMethodId = Returned tt ->
  paymentIntents_confirm env (stripePaymentIntentId payment) = Returned tt ->
  let w' := snd (updatePaymentMethod env now paymentId paymentMethodId w) in
  fst (updatePaymentMethod env now paymentId paymentMethodId w)
    = Returned {| statusCode := 200; payload := Json_success |} /\
  db w' = db (recovered now payment w) /\
  find (fun p => id p =? paymentId) (failedPayments (db w'))
    = Some (Drizzle.set_status_recoveredAt "recovered" now payment) /\
  (forall p, In p (failedPayments (db w)) -> id p <> paymentId ->
             In p (failedPayments (db w'))) /\
  List.length (failedPayments (db w')) = List.length (failedPayments (db w)) /\
  dunningLogs (db w') = dunningLogs (db w) /\
  calls w' = (calls w ++
                [CustomersUpdate (stripeCustomerId payment) paymentMethodId;
                 PaymentIntentsConfirm (stripePaymentIntentId payment)])%list.
Proof.
  intros Hf Hu Hc w'.
  assert (Hid : id payment = paymentId).
  { apply find_some_holds in Hf. now apply Z.eqb_eq in Hf. }
  pose proof (updatePaymentMethod_succeeds env now paymentId paymentMethodId w
                payment Hf Hu Hc) as E.
  subst w'. rewrite E. cbn [fst snd]. unfold recovered. cbn [db calls failedPayments dunningLogs].
  split; [reflexivity|]. split; [reflexivity|]. split.
  { rewrite (find_map_same (fun p => id p =? paymentId)
               (fun p => if id p =? id payment
                         then Drizzle.set_status_recoveredAt "recovered" now p
                         else p)).
    - rewrite Hf. cbn [option_map]. now rewrite Z.eqb_refl.
    - intros p. destruct (id p =? id payment); reflexivity. }
  split.
  { intros p Hin Hne. apply in_map_iff. exists p. split; [|exact Hin].
    rewrite Hid. apply Z.eqb_neq in Hne. now rewrite Hne. }
  split; [apply length_map|]. split; reflexivity.
Qed.

Lemma recovery_marks_only_target_witness :
  let w := Sample.world (Sample.trackingDb "failed" None) in
  let w' := snd (updatePaymentMethod Sample.env 1000 1 (Some "pm_1") w) in
  fst (updatePaymentMethod Sample.env 1000 1 (Some "pm_1") w)
    = Returned {| statusCode := 200; payload := Json_success |} /\
  db w' = db (recovered 1000 (Sample.tracked "failed" None) w) /\
  find (fun p => id p =? 1) (failedPayments (db w'))
    = Some (Sample.tracked "recovered" (Some 1000)) /\
  (forall p, In p (failedPayments (db w)) -> id p <> 1 ->
             In p (failedPayments (db w'))) /\
  List.length (failedPayments (db w')) = 1%nat /\
  dunningLogs (db w') = [] /\
  calls w' = [CustomersUpdate "cus_1" (Some "pm_1"); PaymentIntentsConfirm "pi_1"].
Proof.
  exact (recovery_marks_only_target Sample.env 1000 1 (Some "pm_1")
           (Sample.world (Sample.trackingDb "failed" None))
           (Sample.tracked "failed" None) eq_refl eq_refl eq_refl).
Defined.

(** X6. The two recovery paths compose: once the endpoint has marked a
    payment recovered, a [payment_intent.succeeded] webhook for its
    payment intent changes nothing, so the recovery time the endpoint
    wrote stays. *)
Theorem succeeded_after_recovery_call_is_noop
    env now now' paymentId paymentMethodId w payment paymentIntent :
  find (fun p => id p =? paymentId) (failedPayments (db w)) = Some payment ->
  find (tracks (stripePaymentIntentId payment)) (failedPayments (db w)) = Some payment ->
  customers_update env (stripeCustomerId payment) paymentMethodId = Returned tt ->
  paymentIntents_confirm env (stripePaymentIntentId payment) = Returned tt ->
  pi_id paymentIntent = stripePaymentIntentId payment ->
  let w' := snd (updatePaymentMethod env now paymentId paymentMethodId w) in
  handlePaymentSucceeded now' paymentIntent w' = (Returned tt, w') /\
  find (tracks (pi_id paymentIntent)) (failedPayments (db w'))
    = Some (Drizzle.set_status_recoveredAt "recovered" now payment).
Proof.
  intros Hf Ht Hu Hc Hpi w'.
  assert (Hdb : db w' = db (recovered now payment w)).
  { subst w'.
    now rewrite (updatePaymentMethod_succeeds env now paymentId paymentMethodId w
                   payment Hf Hu Hc). }
  assert (H : find (tracks (pi_id paymentIntent)) (failedPayments (db w'))
              = Some (Drizzle.set_status_recoveredAt "recovered" now payment)).
  { rewrite Hdb, Hpi. unfold recovered. cbn [db failedPayments].
    rewrite find_tracks_recovered, Ht. cbn [option_map]. now rewrite Z.eqb_refl. }
  split; [|exact H].
  rewrite handlePaymentSucceeded_run, H. reflexivity.
Qed.

Lemma succeeded_after_recovery_call_is_noop_witness :
  let w' := snd (updatePaymentMethod Sample.env 1000 1 (Some "pm_1")
                   (Sample.world (Sample.trackingDb "failed" None))) in
  handlePaymentSucceeded 5000 Sample.intent w' = (Returned tt, w') /\
  find (tracks "pi_1") (failedPayments (db w'))
    = Some (Sample.tracked "recovered" (Some 1000)).
Proof.
  exact (succeeded_after_recovery_call_is_noop Sample.env 1000 5000 1 (Some "pm_1")
           (Sample.world (Sample.trackingDb "failed" None))
           (Sample.tracked "failed" None) Sample.intent
           eq_refl eq_refl eq_refl eq_refl eq_refl).
Defined.

(** ** The webhook route *)

Lemma dispatch_failed env now event w :
  event_type event = "payment_intent.payment_failed" ->
  dispatch env now event w = handlePaymentFailed env now (data_object event) w.
Proof. intros Ht. unfold dispatch. now rewrite Ht. Qed.

Lemma dispatch_succeeded env now event w :
  event_type event = "payment_intent.succeeded" ->
  dispatch env now event w = handlePaymentSucceeded now (data_object event) w.
Proof. intros Ht. unfold dispatch. now rewrite Ht. Qed.

(** X7. A verified event that is neither a failed nor a succeeded payment
    intent is acknowledged with 200 and changes nothing: no table is
    written and no call is made. *)
Theorem webhook_ignores_other_events env now req w event :
  verifiedEvent env req = Some event ->
  event_type event <> "payment_intent.payment_failed" ->
  event_type event <> "payment_intent.succeeded" ->
  stripeWebhook env now req w =
    (Returned {| statusCode := 200; payload := Json_received |}, w).
Proof.
  intros Hv H1 H2. rewrite (stripeWebhook_verified env now req w event Hv).
  unfold dispatch. apply String.eqb_neq in H1, H2. now rewrite H1, H2.
Qed.

Lemma webhook_ignores_other_events_witness :
  stripeWebhook Sample.env 1000 (Sample.request "good" "customer.created")
    (Sample.world Sample.shopDb) =
  (Returned {| statusCode := 200; payload := Json_received |},
   Sample.world Sample.shopDb).
Proof.
  apply (webhook_ignores_other_events Sample.env 1000
           (Sample.request "good" "customer.created") (Sample.world Sample.shopDb)
           (Sample.eventOf "customer.created") eq_refl); discriminate.
Defined.

(** X8. A succeeded event changes the world only if the row that tracks
    its payment intent has status exactly ['failed']: for an untracked
    intent, or a row whose status is anything else (recovered, null, any
    other text), the handler returns the world as it is. *)
Theorem succeeded_acts_only_on_failed now paymentIntent w :
  (forall row,
     find (tracks (pi_id paymentIntent)) (failedPayments (db w)) = Some row ->
     status row <> Some "failed") ->
  handlePaymentSucceeded now paymentIntent w = (Returned tt, w).
Proof.
  intros H. rewrite handlePaymentSucceeded_run.
  destruct (find _ _) as [row|]; [|reflexivity].
  specialize (H row eq_refl).
  destruct (status row) as [s|]; [|reflexivity].
  cbn [eqText]. destruct (String.eqb_spec s "failed"); [congruence | reflexivity].
Qed.

Lemma succeeded_acts_only_on_failed_witness :
  handlePaymentSucceeded 3000 Sample.intent
    (Sample.world (Sample.trackingDb "disputed" None))
  = (Returned tt, Sample.world (Sample.trackingDb "disputed" None)).
Proof.
  apply (succeeded_acts_only_on_failed 3000 Sample.intent
           (Sample.world (Sample.trackingDb "disputed" None))).
  intros row [= <-]. discriminate.
Defined.

(** X9. A failed-payment event that names no connected account, or an
    account no user has connected, is acknowledged with 200 and skipped:
    no table is written and no call is made, not even the customer
    lookup. *)
Theorem failed_event_without_known_account_is_skipped env now req w event :
  verifiedEvent env req = Some event ->
  event_type event = "payment_intent.payment_failed" ->
  (forall connectedAccountId,
     on_behalf_of (data_object event) = Some connectedAccountId ->
     connectedAccountId <> "" ->
     find (fun u => eqText (stripeAccountId u) connectedAccountId) (users (db w)) = None) ->
  stripeWebhook env now req w =
    (Returned {| statusCode := 200; payload := Json_received |}, w).
Proof.
  intros Hv Ht H. rewrite (stripeWebhook_verified env now req w event Hv).
  rewrite (dispatch_failed env now event w Ht).
  assert (E : handlePaymentFailed env now (data_object event) w = (Returned tt, w)).
  { unfold handlePaymentFailed.
    destruct (on_behalf_of (data_object event)) as [acct|]; [|reflexivity].
    destruct (String.eqb_spec acct ""); [reflexivity|].
    unfold bind at 1. unfold Drizzle.findFirst at 1, readDb at 1.
    now rewrite (H acct eq_refl n). }
  now rewrite E.
Qed.

Lemma failed_event_without_known_account_is_skipped_witness :
  stripeWebhook Sample.env 1000 (Sample.request "good" "failed-direct")
    (Sample.world Sample.shopDb) =
  (Returned {| statusCode := 200; payload := Json_received |},
   Sample.world Sample.shopDb).
Proof.
  apply (failed_event_without_known_account_is_skipped Sample.env 1000
           (Sample.request "good" "failed-direct") (Sample.world Sample.shopDb)
           (Sample.eventOf "failed-direct") eq_refl eq_refl).
  intros acct H. discriminate H.
Defined.

(** ** The calls a failed-payment event makes *)

Lemma customerEmailOf_lookups env paymentIntent w :
  exists lookups,
    snd (customerEmailOf env paymentIntent w)
      = {| db := db w; calls := (calls w ++ lookups)%list |} /\
    forallb isCustomersRetrieve lookups = true /\
    (List.length lookups <= 1)%nat /\
    (Js.truthy (receipt_email paymentIntent) = true -> lookups = []).
Proof.
  assert (Hnil : w = {| db := db w; calls := (calls w ++ [])%list |})
    by (destruct w; cbn; now rewrite app_nil_r).
  unfold customerEmailOf, bind, external, ret.
  destruct (customer paymentIntent) as [customerId|]; cbn [snd].
  2:{ exists []. repeat split; auto. }
  destruct (Js.truthy (receipt_email paymentIntent)); cbn [negb andb snd].
  { exists []. repeat split; auto. }
  destruct (negb (String.eqb customerId "")); cbn [snd].
  2:{ exists []. repeat split; auto. }
  exists [CustomersRetrieve customerId].
  destruct (customers_retrieve env customerId) as [c|e]; cbn [snd];
    [destruct (negb (deleted c)); cbn [snd]|]; repeat split; auto; discriminate.
Qed.

Lemma handlePaymentFailed_cases env now paymentIntent w :
  (exists user customerEmail_, Resolves env paymentIntent w user customerEmail_) \/
  handlePaymentFailed env now paymentIntent w = (Returned tt, w) \/
  handlePaymentFailed env now paymentIntent w =
    (match fst (customerEmailOf env paymentIntent w) with
     | Thrown message => Thrown message
     | Returned _ => Returned tt
     end,
     snd (customerEmailOf env paymentIntent w)).
Proof.
  remember (handlePaymentFailed env now paymentIntent w) as r eqn:Hr.
  unfold handlePaymentFailed in Hr.
  destruct (on_behalf_of paymentIntent) as [acct|] eqn:Ha; [|right; left; exact Hr].
  destruct (String.eqb acct "") eqn:Hacct; [right; left; exact Hr|].
  unfold bind at 1 in Hr. unfold Drizzle.findFirst at 1, readDb at 1 in Hr.
  destruct (find _ (users (db w))) as [user|] eqn:Hu; [|right; left; exact Hr].
  unfold bind at 1 in Hr.
  destruct (customerEmailOf env paymentIntent w) as [[[em|]|e] w1] eqn:He;
    cbn [fst snd]; [|right; right; exact Hr..].
  destruct (String.eqb em "") eqn:Hem; [right; right; exact Hr|].
  left. exists user, em. split.
  - exists acct. apply String.eqb_neq in Hacct. auto.
  - rewrite He. reflexivity.
  - now apply String.eqb_neq.
Qed.

Lemma inserted_db_snd env paymentIntent w row :
  db (inserted row (snd (customerEmailOf env paymentIntent w))) = db (inserted row w).
Proof.
  pose proof (customerEmailOf_world env paymentIntent w) as [Hdb _].
  unfold inserted; cbn [db]. now rewrite Hdb.
Qed.

Lemma template_is_first_failure userId_ d template :
  firstFailureTemplate userId_ d = Some template -> type template = "first_failure".
Proof.
  unfold firstFailureTemplate. intros Ht. apply find_some_holds in Ht.
  apply andb_true_iff in Ht. destruct Ht as [Ht _].
  apply andb_true_iff in Ht. destruct Ht as [_ Ht].
  now apply String.eqb_eq in Ht.
Qed.

(** Every run of [handlePaymentFailed] is one step. *)
Lemma handlePaymentFailed_step env now paymentIntent w :
  Step w (snd (handlePaymentFailed env now paymentIntent w)).
Proof.
  destruct (customerEmailOf_lookups env paymentIntent w)
    as [lookups [Hw1 [Hlook _]]].
  assert (Hnil : calls w = (calls w ++ [])%list) by now rewrite app_nil_r.
  destruct (handlePaymentFailed_cases env now paymentIntent w)
    as [[user [em Hr]] | [E | E]].
  2:{ rewrite E. now apply (step_none w w []). }
  2:{ rewrite E. cbn [snd]. rewrite Hw1. now apply (step_none _ _ lookups). }
  destruct (handlePaymentFailed_outcomes env now paymentIntent w user em Hr)
    as [[existing [Hf E]] | [[message E] | [[message E]
        | [customerId [payment [Hf [Hc [_ [Hid E]]]]]]]]]; rewrite E; cbn [snd].
  - apply (step_bump _ _ (pi_id paymentIntent) existing lookups); auto.
    + apply bumped_db_snd.
    + unfold bumped. cbn [calls]. now rewrite Hw1.
  - rewrite Hw1. now apply (step_none _ _ lookups).
  - apply (step_refused _ _ lookups); auto.
    + apply idDrawn_db_snd.
    + unfold idDrawn. cbn [calls]. now rewrite Hw1.
  - set (row := newRow now paymentIntent user em customerId (failedPayments_id_seq (db w))).
    pose proof (inserted_db_snd env paymentIntent w row) as Hins.
    destruct (firstFailureTemplate (user_id user) (db w)) as [template|] eqn:Ht.
    + apply (step_notify _ _ env now row payment template lookups); auto.
      * now apply (template_is_first_failure (user_id user) (db w)).
      * unfold notified. cbn [db]. fold row. now rewrite Hins.
      * unfold notified, inserted. cbn [calls]. rewrite Hw1. cbn [calls].
        now rewrite <- app_assoc.
    + apply (step_insert _ _ row lookups); auto.
      unfold inserted. cbn [calls]. now rewrite Hw1.
Qed.

Lemma handlePaymentSucceeded_step now paymentIntent w :
  Step w (snd (handlePaymentSucceeded now paymentIntent w)).
Proof.
  assert (Hnil : calls w = (calls w ++ [])%list) by now rewrite app_nil_r.
  rewrite handlePaymentSucceeded_run.
  destruct (find _ _) as [fp|] eqn:Hf; [|now apply (step_none w w [])].
  destruct (status fp) as [s|] eqn:Hs; cbn [eqText]; [|now apply (step_none w w [])].
  destruct (String.eqb_spec s "failed") as [->|]; [|now apply (step_none w w [])].
  now apply (step_recover w _ (pi_id paymentIntent) now fp).
Qed.

(** Every webhook delivery is one step. *)
Lemma deliver_step w d : Step w (deliver w d).
Proof.
  assert (Hnil : calls w = (calls w ++ [])%list) by now rewrite app_nil_r.
  unfold deliver.
  destruct (verifiedEvent (delivery_env d) (delivery_request d)) as [event|] eqn:Hv.
  2:{ destruct (stripeWebhook_unverified (delivery_env d) (delivery_now d)
                  (delivery_request d) w Hv) as [r [E _]].
      rewrite E. now apply (step_none w w []). }
  rewrite (stripeWebhook_verified _ (delivery_now d) _ w event Hv).
  assert (H : Step w (snd (dispatch (delivery_env d) (delivery_now d) event w))).
  { unfold dispatch.
    destruct (String.eqb (event_type event) "payment_intent.payment_failed");
      [apply handlePaymentFailed_step|].
    destruct (String.eqb (event_type event) "payment_intent.succeeded");
      [apply handlePaymentSucceeded_step | now apply (step_none w w [])]. }
  destruct (dispatch (delivery_env d) (delivery_now d) event w) as [[u|message] w'];
    exact H.
Qed.

(** ** What a step keeps *)

Section RowFacts.

Lemma NoDup_id_same (l : list FailedPayment) p q :
  NoDup (map id l) -> In p l -> In q l -> id p = id q -> p = q.
Proof.
  induction l as [|a l IH]; cbn [map]; intros Hnd Hp Hq Hid; [destruct Hp|].
  inversion Hnd as [|x xs Hnot Hnd']; subst.
  destruct Hp as [-> | Hp], Hq as [-> | Hq]; auto.
  - exfalso. apply Hnot. rewrite Hid. now apply in_map.
  - exfalso. apply Hnot. rewrite <- Hid. now apply in_map.
Qed.

Lemma find_none_filter_nil {A} (f : A -> bool) (l : list A) :
  find f l = None -> filter f l = [].
Proof.
  induction l as [|a l IH]; cbn; intros H; [reflexivity|].
  destruct (f a); [discriminate | auto].
Qed.

Lemma Forall2_map_in {A} (R : A -> A -> Prop) (g : A -> A) (l : list A) :
  (forall x, In x l -> R x (g x)) -> Forall2 R l (map g l).
Proof.
  induction l as [|a l IH]; intros H; cbn [map]; constructor.
  - apply H. now left.
  - apply IH. intros x Hx. apply H. now right.
Qed.

Lemma Forall2_same {A} (R : A -> A -> Prop) (l : list A) :
  (forall x, R x x) -> Forall2 R l l.
Proof. intros H. induction l; constructor; auto. Qed.

Lemma Forall2_chain {A} (R : A -> A -> Prop) :
  (forall x y z, R x y -> R y z -> R x z) ->
  forall l1 l2 l3, Forall2 R l1 l2 -> Forall2 R l2 l3 -> Forall2 R l1 l3.
Proof.
  intros Htrans l1 l2 l3 H12. revert l3.
  induction H12 as [|x y l1 l2 Hxy H12 IH]; intros l3 H23.
  - inversion H23. constructor.
  - inversion H23 as [|y' z l2' l3' Hyz H23']; subst.
    constructor; eauto.
Qed.

Lemma Evolves_refl p : Evolves p p.
Proof. split; auto. lia. Qed.

Lemma Evolves_trans p q r : Evolves p q -> Evolves q r -> Evolves p r.
Proof.
  intros [a1 a2 a3 a4 a5 a6 a7 a8 a9 a10 a11 a12] [b1 b2 b3 b4 b5 b6 b7 b8 b9 b10 b11 b12].
  split; try congruence; try lia.
  intros Hs. destruct (a12 Hs) as [Hq Hat]. destruct (b12 Hq) as [Hr Hbt].
  split; congruence.
Qed.

Lemma Evolves_bump p :
  Evolves p (Drizzle.set_attemptCount (nextAttempt (attemptCount p)) p).
Proof.
  split; auto. unfold attempts, nextAttempt. cbn.
  destruct (attemptCount p); lia.
Qed.

Lemma Evolves_recover now p :
  status p = Some "failed" ->
  Evolves p (Drizzle.set_status_recoveredAt "recovered" now p).
Proof.
  intros Hs. split; auto.
  - unfold attempts. cbn. destruct (attemptCount p); lia.
  - rewrite Hs. discriminate.
Qed.


End RowFacts.

Lemma Step_wellKeyed w w' :
  Step w w' -> wellKeyed (db w) -> wellKeyed (db w').
Proof.
  intros Hstep [Hnd Hlt].
  assert (Hmap : forall (g : FailedPayment -> FailedPayment),
            (forall p, id (g p) = id p) ->
            NoDup (map id (map g (failedPayments (db w)))) /\
            Forall (fun p => id p < failedPayments_id_seq (db w))
                   (map g (failedPayments (db w)))).
  { intros g Hg. split.
    - rewrite map_map. now rewrite (map_ext _ id Hg).
    - apply Forall_map. revert Hlt. apply Forall_impl. intros p. now rewrite Hg. }
  assert (Hins : forall row,
            id row = failedPayments_id_seq (db w) ->
            NoDup (map id (failedPayments (db w) ++ [row])) /\
            Forall (fun p => id p < failedPayments_id_seq (db w) + 1)
                   (failedPayments (db w) ++ [row])).
  { intros row Hid. split.
    - rewrite map_app. cbn [map]. apply NoDup_app; [exact Hnd | repeat constructor; auto |].
      intros x Hx [<- | []]. apply in_map_iff in Hx. destruct Hx as [p [Hp Hin]].
      rewrite Forall_forall in Hlt. specialize (Hlt p Hin). lia.
    - apply Forall_app. split.
      + revert Hlt. apply Forall_impl. intros; lia.
      + repeat constructor. lia. }
  destruct Hstep as [lookups Hdb _ _ | lookups Hdb _ _
                    | pid existing lookups _ Hdb _ _
                    | row lookups _ Hid Hdb _ _
                    | env now row payment template lookups _ Hid _ Hdb _ _
                    | pid now fp _ _ ->]; unfold wellKeyed.
  - rewrite Hdb. now split.
  - rewrite Hdb. unfold idDrawn. cbn [db failedPayments failedPayments_id_seq].
    split; [exact Hnd|]. revert Hlt. apply Forall_impl. intros; lia.
  - rewrite Hdb. unfold bumped. cbn [db failedPayments failedPayments_id_seq].
    apply Hmap. intros p. destruct (id p =? id existing); reflexivity.
  - rewrite Hdb. unfold inserted. cbn [db failedPayments failedPayments_id_seq].
    now apply Hins.
  - rewrite Hdb. unfold notified, inserted. cbn [db failedPayments failedPayments_id_seq].
    now apply Hins.
  - unfold recovered. cbn [db failedPayments failedPayments_id_seq].
    apply Hmap. intros p. destruct (id p =? id fp); reflexivity.
Qed.

Lemma Step_trackedOnce w w' :
  Step w w' -> trackedOnce (db w) -> trackedOnce (db w').
Proof.
  intros Hstep Hone.
  assert (Hmap : forall (g : FailedPayment -> FailedPayment) pid,
            (forall p, tracks pid (g p) = tracks pid p) ->
            (List.length (filter (tracks pid) (map g (failedPayments (db w)))) <= 1)%nat).
  { intros g pid Hg. rewrite (filter_map_same (tracks pid) g Hg), length_map. apply Hone. }
  assert (Hins : forall row pid,
            find (tracks (stripePaymentIntentId row)) (failedPayments (db w)) = None ->
            (List.length (filter (tracks pid) (failedPayments (db w) ++ [row])) <= 1)%nat).
  { intros row pid Hf. rewrite filter_app, length_app. cbn [filter].
    destruct (tracks pid row) eqn:Ht.
    - apply String.eqb_eq in Ht. subst pid.
      rewrite (find_none_filter_nil _ _ Hf). cbn. lia.
    - cbn [List.length]. specialize (Hone pid). unfold rowsFor in Hone. lia. }
  destruct Hstep as [lookups Hdb _ _ | lookups Hdb _ _
                    | pid existing lookups _ Hdb _ _
                    | row lookups Hf _ Hdb _ _
                    | env now row payment template lookups Hf _ _ Hdb _ _
                    | pid now fp _ _ ->]; intros q; unfold rowsFor.
  - rewrite Hdb. apply Hone.
  - rewrite Hdb. apply Hone.
  - rewrite Hdb. unfold bumped. cbn [db failedPayments].
    apply Hmap. intros p. destruct (id p =? id existing); reflexivity.
  - rewrite Hdb. unfold inserted. cbn [db failedPayments]. now apply Hins.
  - rewrite Hdb. unfold notified, inserted. cbn [db failedPayments]. now apply Hins.
  - unfold recovered. cbn [db failedPayments].
    apply Hmap. intros p. destruct (id p =? id fp); reflexivity.
Qed.

Lemma Step_evolves w w' :
  Step w w' -> wellKeyed (db w) ->
  exists kept added,
    failedPayments (db w') = (kept ++ added)%list /\
    Forall2 Evolves (failedPayments (db w)) kept.
Proof.
  intros Hstep [Hnd _].
  assert (Hsame : Forall2 Evolves (failedPayments (db w)) (failedPayments (db w)))
    by (apply Forall2_same, Evolves_refl).
  destruct Hstep as [lookups Hdb _ _ | lookups Hdb _ _
                    | pid existing lookups Hf Hdb _ _
                    | row lookups _ _ Hdb _ _
                    | env now row payment template lookups _ _ _ Hdb _ _
                    | pid now fp Hf Hs ->].
  - exists (failedPayments (db w)), []. rewrite Hdb, app_nil_r. auto.
  - exists (failedPayments (db w)), []. rewrite Hdb, app_nil_r. auto.
  - eexists. exists []. rewrite Hdb, app_nil_r. split; [reflexivity|].
    unfold bumped. cbn [db failedPayments].
    apply Forall2_map_in. intros p Hp.
    destruct (Z.eqb_spec (id p) (id existing)) as [Hid|]; [|apply Evolves_refl].
    apply find_some in Hf. destruct Hf as [Hin _].
    rewrite <- (NoDup_id_same _ p existing Hnd Hp Hin Hid). apply Evolves_bump.
  - exists (failedPayments (db w)), [row]. rewrite Hdb. auto.
  - exists (failedPayments (db w)), [row]. rewrite Hdb. auto.
  - eexists. exists []. rewrite app_nil_r. split; [reflexivity|].
    unfold recovered. cbn [db failedPayments].
    apply Forall2_map_in. intros p Hp.
    destruct (Z.eqb_spec (id p) (id fp)) as [Hid|]; [|apply Evolves_refl].
    apply find_some in Hf. destruct Hf as [Hin _].
    rewrite (NoDup_id_same _ p fp Hnd Hp Hin Hid). now apply Evolves_recover.
Qed.

(** ** Runs of requests *)

Lemma recovery_call_db env now paymentId paymentMethodId w :
  db (snd (updatePaymentMethod env now paymentId paymentMethodId w)) = db w \/
  exists payment,
    db (snd (updatePaymentMethod env now paymentId paymentMethodId w))
      = db (recovered now payment w).
Proof.
  destruct (find (fun p => id p =? paymentId) (failedPayments (db w)))
    as [payment|] eqn:Hf.
  2:{ left. unfold updatePaymentMethod, bind, Drizzle.findFirst, readDb, ret.
      now rewrite Hf. }
  destruct (customers_update env (stripeCustomerId payment) paymentMethodId)
    as [[]|e1] eqn:Hu.
  2:{ left.
      now rewrite (updatePaymentMethod_update_throws env now paymentId
                     paymentMethodId w payment e1 Hf Hu). }
  destruct (paymentIntents_confirm env (stripePaymentIntentId payment))
    as [[]|e2] eqn:Hc.
  2:{ left.
      now rewrite (updatePaymentMethod_confirm_throws env now paymentId
                     paymentMethodId w payment e2 Hf Hu Hc). }
  right. exists payment.
  now rewrite (updatePaymentMethod_succeeds env now paymentId paymentMethodId w
                 payment Hf Hu Hc).
Qed.

Lemma recovered_wellKeyed now payment w :
  wellKeyed (db w) -> wellKeyed (db (recovered now payment w)).
Proof.
  intros [Hnd Hlt]. unfold wellKeyed, recovered.
  cbn [db failedPayments failedPayments_id_seq].
  assert (Hg : forall p,
            id (if id p =? id payment
                then Drizzle.set_status_recoveredAt "recovered" now p else p) = id p)
    by (intros p; destruct (id p =? id payment); reflexivity).
  split.
  - rewrite map_map. now rewrite (map_ext _ id Hg).
  - apply Forall_map. revert Hlt. apply Forall_impl. intros p. now rewrite Hg.
Qed.

Lemma recovered_trackedOnce now payment w :
  trackedOnce (db w) -> trackedOnce (db (recovered now payment w)).
Proof.
  intros Hone pid. unfold rowsFor, recovered. cbn [db failedPayments].
  rewrite (filter_map_same (tracks pid)
             (fun p => if id p =? id payment
                       then Drizzle.set_status_recoveredAt "recovered" now p else p)).
  - rewrite length_map. apply Hone.
  - intros p. destruct (id p =? id payment); reflexivity.
Qed.

Lemma serve_wellKeyed w r : wellKeyed (db w) -> wellKeyed (db (serve w r)).
Proof.
  intros H. destruct r as [d | env now paymentId paymentMethodId]; cbn [serve].
  - exact (Step_wellKeyed w _ (deliver_step w d) H).
  - destruct (recovery_call_db env now paymentId paymentMethodId w)
      as [E | [payment E]]; rewrite E; [exact H | now apply recovered_wellKeyed].
Qed.

Lemma serve_trackedOnce w r : trackedOnce (db w) -> trackedOnce (db (serve w r)).
Proof.
  intros H. destruct r as [d | env now paymentId paymentMethodId]; cbn [serve].
  - exact (Step_trackedOnce w _ (deliver_step w d) H).
  - destruct (recovery_call_db env now paymentId paymentMethodId w)
      as [E | [payment E]]; rewrite E; [exact H | now apply recovered_trackedOnce].
Qed.

(** X10. The primary key survives every run of webhook deliveries and
    recovery calls: if the ids of the failed payments are distinct and
    below the sequence, they still are afterwards (each insert takes the
    next value of the sequence and nothing else writes an id). *)
Theorem requests_keep_primary_key rs :
  forall w, wellKeyed (db w) -> wellKeyed (db (serveAll rs w)).
Proof.
  induction rs as [|r rs IH]; intros w H; [exact H|].
  apply IH. now apply serve_wellKeyed.
Qed.

Lemma shopDb_wellKeyed : wellKeyed Sample.shopDb.
Proof. split; constructor. Qed.

Lemma requests_keep_primary_key_witness :
  wellKeyed
    (db (serveAll
           [WebhookDelivery (Sample.delivery 1000 "failed");
            RecoveryCall Sample.env 2000 1 (Some "pm_1");
            WebhookDelivery (Sample.delivery 3000 "failed")]
           (Sample.world Sample.shopDb))).
Proof.
  exact (requests_keep_primary_key
           [WebhookDelivery (Sample.delivery 1000 "failed");
            RecoveryCall Sample.env 2000 1 (Some "pm_1");
            WebhookDelivery (Sample.delivery 3000 "failed")]
           (Sample.world Sample.shopDb) shopDb_wellKeyed).
Defined.

(** X11. As long as requests are handled one after another, the
    payment-intent id works as a unique key although the schema declares
    none: from a store in which no payment intent is tracked by two rows,
    every run of webhook deliveries and recovery calls, none starting
    before the one before it has ended, leads to such a store.  (Two
    deliveries that overlap can store two rows for one payment intent,
    as X22 shows.) *)
Theorem requests_track_each_intent_once rs :
  forall w, trackedOnce (db w) -> trackedOnce (db (serveAll rs w)).
Proof.
  induction rs as [|r rs IH]; intros w H; [exact H|].
  apply IH. now apply serve_trackedOnce.
Qed.

Lemma shopDb_trackedOnce : trackedOnce Sample.shopDb.
Proof. intros pid. cbn. lia. Qed.

Lemma requests_track_each_intent_once_witness :
  trackedOnce
    (db (serveAll
           [WebhookDelivery (Sample.delivery 1000 "failed");
            RecoveryCall Sample.env 2000 1 (Some "pm_1");
            WebhookDelivery (Sample.delivery 3000 "failed")]
           (Sample.world Sample.shopDb))).
Proof.
  exact (requests_track_each_intent_once
           [WebhookDelivery (Sample.delivery 1000 "failed");
            RecoveryCall Sample.env 2000 1 (Some "pm_1");
            WebhookDelivery (Sample.delivery 3000 "failed")]
           (Sample.world Sample.shopDb) shopDb_trackedOnce).
Defined.

(** ** Deliveries that overlap *)

(** X22. Deliveries must not overlap.  The handler waits for the database
    between its lookup (line 127) and its write (line 138), without a
    transaction and without a unique key on the payment intent.  When a
    second delivery of a new failure makes its lookup before the first
    has inserted, both find no row and both insert: two unrecovered rows
    track [pi_1], and two emails are sent. *)
Example overlapping_deliveries_store_two_rows :
  let w := Sample.world Sample.shopDb in
  let seen := find (tracks "pi_1") (failedPayments (db w)) in
  let w1 := snd (recordFailure Sample.env 1000 Sample.intent Sample.merchant
                   "jo@mail.test" seen w) in
  let w2 := snd (recordFailure Sample.env 1001 Sample.intent Sample.merchant
                   "jo@mail.test" seen w1) in
  seen = None /\
  map id (openRowsFor "pi_1" (db w2)) = [1; 2] /\
  map stripePaymentIntentId (failedPayments (db w2)) = ["pi_1"; "pi_1"] /\
  List.length (emailsSent w2) = 2%nat.
Proof. repeat split. Qed.

(** X23. Likewise, two overlapping deliveries for a tracked payment
    intent both read the count 1 (line 127) and both write 2 (line 133):
    one of the two deliveries is not counted. *)
Example overlapping_deliveries_lose_a_count :
  let w := Sample.world (Sample.trackingDb "failed" None) in
  let seen := find (tracks "pi_1") (failedPayments (db w)) in
  let w1 := snd (recordFailure Sample.env 1000 Sample.intent Sample.merchant
                   "jo@mail.test" seen w) in
  let w2 := snd (recordFailure Sample.env 1001 Sample.intent Sample.merchant
                   "jo@mail.test" seen w1) in
  map attemptCount (failedPayments (db w)) = [Some 1] /\
  map attemptCount (failedPayments (db w1)) = [Some 2] /\
  map attemptCount (failedPayments (db w2)) = [Some 2].
Proof. repeat split. Qed.

Lemma deliverAll_wellKeyed ds :
  forall w, wellKeyed (db w) -> wellKeyed (db (deliverAll ds w)).
Proof.
  induction ds as [|d ds IH]; intros w H; [exact H|].
  apply IH. exact (Step_wellKeyed w _ (deliver_step w d) H).
Qed.

(** X12. Webhook deliveries never delete a failed payment and never
    rewrite its history: after any run, the rows that were there come
    first, in order, each with the same id, user, payment intent,
    customer, email, amount, currency, failure reason, retry time and
    creation time, an attempt count that is not lower, and, if it was
    recovered, still recovered at the same time; new rows come after
    them. *)
Theorem webhook_rows_only_evolve ds :
  forall w,
    wellKeyed (db w) ->
    exists kept added,
      failedPayments (db (deliverAll ds w)) = (kept ++ added)%list /\
      Forall2 Evolves (failedPayments (db w)) kept.
Proof.
  induction ds as [|d ds IH]; intros w Hkey.
  - exists (failedPayments (db w)), []. rewrite app_nil_r.
    split; [reflexivity | apply Forall2_same, Evolves_refl].
  - destruct (Step_evolves w _ (deliver_step w d) Hkey) as [k1 [a1 [E1 H1]]].
    destruct (IH (deliver w d) (Step_wellKeyed w _ (deliver_step w d) Hkey))
      as [k2 [a2 [E2 H2]]].
    rewrite E1 in H2. apply Forall2_app_inv_l in H2.
    destruct H2 as [k2a [k2b [Ha [Hb ->]]]].
    exists k2a, (k2b ++ a2)%list. split.
    + cbn [deliverAll fold_left]. fold (deliverAll ds (deliver w d)).
      now rewrite E2, app_assoc.
    + exact (Forall2_chain Evolves Evolves_trans _ _ _ H1 Ha).
Qed.

Lemma webhook_rows_only_evolve_witness :
  exists kept added,
    failedPayments
      (db (deliverAll
             [Sample.delivery 4000 "succeeded"; Sample.delivery 5000 "failed"]
             (Sample.world (Sample.trackingDb "recovered" (Some 3000)))))
      = (kept ++ added)%list /\
    Forall2 Evolves [Sample.tracked "recovered" (Some 3000)] kept.
Proof.
  apply (webhook_rows_only_evolve
           [Sample.delivery 4000 "succeeded"; Sample.delivery 5000 "failed"]
           (Sample.world (Sample.trackingDb "recovered" (Some 3000)))).
  split; [repeat constructor; intros [] | repeat constructor].
Defined.






(** ** A new failure in a store with a primary key *)

Lemma find_id_fresh (rows : list FailedPayment) (row : FailedPayment) n :
  Forall (fun p => id p < n) rows -> id row = n ->
  find (fun p => id p =? n) (rows ++ [row])%list = Some row.
Proof.
  intros Hlt Hid. apply find_app_only_last; [|now apply Z.eqb_eq].
  induction Hlt as [|a l Ha _ IH]; cbn; [reflexivity|].
  destruct (Z.eqb_spec (id a) n); [lia | exact IH].
Qed.

(** X14. Insert and lookup round trip: in a store whose ids are distinct
    and below the sequence, a new failure that can be stored (a customer
    id, numbers the columns hold, sequences of ids not exhausted), for a
    user with an enabled template, is stored under the next id, is the row found under that id, and is
    the one notified: the email goes to the customer email resolved for
    the event, with the template's subject and the body rendered with
    the link [BASE_URL/payment/<new id>], and the dunning log names the
    new id. *)
Theorem new_failure_is_the_one_notified
    env now paymentIntent w user customerEmail_ customerId template :
  wellKeyed (db w) ->
  Resolves env paymentIntent w user customerEmail_ ->
  find (tracks (pi_id paymentIntent)) (failedPayments (db w)) = None ->
  customer paymentIntent = Some customerId ->
  Fits paymentIntent user w ->
  firstFailureTemplate (user_id user) (db w) = Some template ->
  Drizzle.int4 (dunningLogs_id_seq (db w)) = true ->
  let n := failedPayments_id_seq (db w) in
  let row := newRow now paymentIntent user customerEmail_ customerId n in
  let w' := snd (handlePaymentFailed env now paymentIntent w) in
  fst (handlePaymentFailed env now paymentIntent w) = Returned tt /\
  find (fun p => id p =? n) (failedPayments (db w')) = Some row /\
  emailsSent w' =
    (emailsSent w ++
       [EmailsSend customerEmail_ (subject template)
          (renderBody env
             (Js.interpolate (BASE_URL env) ++ "/payment/" ++ Js.integerToString n)
             row (body template))])%list /\
  dunningLogs (db w') =
    (dunningLogs (db w) ++
       [ {| log_id := dunningLogs_id_seq (db w); failedPaymentId := n;
            sentAt := Some now; emailTemplate := "first_failure";
            log_status := Some "sent" |} ])%list.
Proof.
  intros [_ Hlt] Hr Hf Hc Hfits Ht _ n row w'.
  pose proof (customerEmailOf_world env paymentIntent w) as [Hdb Hmail].
  subst w'.
  rewrite (handlePaymentFailed_new env now paymentIntent w user customerEmail_
             customerId Hr Hf Hc Hfits).
  fold n. fold row. rewrite sendDunningEmail_run.
  set (stored := inserted row (snd (customerEmailOf env paymentIntent w))).
  assert (Hfind : find (fun p => id p =? n) (failedPayments (db stored)) = Some row).
  { unfold stored, inserted. cbn [db failedPayments]. rewrite Hdb.
    now apply find_id_fresh. }
  assert (Htpl : firstFailureTemplate (user_id user) (db stored) = Some template).
  { unfold firstFailureTemplate, stored, inserted in *. cbn [db emailTemplates].
    now rewrite Hdb. }
  rewrite Hfind, Htpl. cbn [fst snd].
  unfold notified. cbn [db failedPayments dunningLogs calls].
  split; [reflexivity|]. split; [exact Hfind|]. split.
  - unfold emailsSent at 1. cbn [calls]. unfold stored, inserted. cbn [calls].
    rewrite (emailsSent_snoc (snd (customerEmailOf env paymentIntent w))); [|reflexivity].
    now rewrite Hmail.
  - unfold stored, inserted. cbn [db dunningLogs dunningLogs_id_seq]. rewrite Hdb.
    now rewrite (template_is_first_failure _ _ _ Ht).
Qed.

Lemma new_failure_is_the_one_notified_witness :
  let w := Sample.world Sample.shopDb in
  let row :=
    {| id := 1; userId := 7; stripePaymentIntentId := "pi_1";
       stripeCustomerId := "cus_1"; customerEmail := "jo@mail.test";
       amount := 4999; currency := "usd"; status := Some "failed";
       failureReason := Some "Your card was declined.";
       attemptCount := Some 1; nextRetryAt := Some 86401000;
       createdAt := Some 1000; recoveredAt := None |} in
  let w' := snd (handlePaymentFailed Sample.env 1000 Sample.intent w) in
  fst (handlePaymentFailed Sample.env 1000 Sample.intent w) = Returned tt /\
  find (fun p => id p =? 1) (failedPayments (db w')) = Some row /\
  emailsSent w' =
    [EmailsSend "jo@mail.test" "Payment failed"
       "Hi jo@mail.test, pay $49.99 at https://retainr.test/payment/1"] /\
  dunningLogs (db w') =
    [ {| log_id := 1; failedPaymentId := 1; sentAt := Some 1000;
         emailTemplate := "first_failure"; log_status := Some "sent" |} ].
Proof.
  exact (new_failure_is_the_one_notified Sample.env 1000 Sample.intent
           (Sample.world Sample.shopDb) Sample.merchant "jo@mail.test" "cus_1"
           Sample.template shopDb_wellKeyed
           (sample_intent_resolves (Sample.world Sample.shopDb) eq_refl)
           eq_refl eq_refl (sample_intent_fits (Sample.world Sample.shopDb) eq_refl)
           eq_refl eq_refl).
Defined.

(** ** Repeated deliveries of one failure *)

Lemma int4_between a b c :
  Drizzle.int4 a = true -> Drizzle.int4 c = true -> a <= b <= c -> Drizzle.int4 b = true.
Proof.
  unfold Drizzle.int4. intros Ha Hc Hb.
  apply andb_true_iff in Ha. destruct Ha as [Ha _].
  apply andb_true_iff in Hc. destruct Hc as [_ Hc].
  apply Z.leb_le in Ha, Hc.
  apply andb_true_iff. split; apply Z.leb_le; lia.
Qed.

(** Further deliveries, one after another, of a failure whose row is the
    only one tracking it. *)
Lemma redeliver_counts env paymentIntent user customerEmail_ nows :
  forall v row n,
    Resolves env paymentIntent v user customerEmail_ ->
    rowsFor (pi_id paymentIntent) (db v) = [row] ->
    attemptCount row = Some n ->
    Drizzle.int4 n = true ->
    Drizzle.int4 (n + Z.of_nat (List.length nows)) = true ->
    let v' := redeliver env paymentIntent nows v in
    rowsFor (pi_id paymentIntent) (db v') =
      [ {| id := id row; userId := userId row;
           stripePaymentIntentId := stripePaymentIntentId row;
           stripeCustomerId := stripeCustomerId row;
           customerEmail := customerEmail row;
           amount := amount row; currency := currency row;
           status := status row; failureReason := failureReason row;
           attemptCount := Some (n + Z.of_nat (List.length nows));
           nextRetryAt := nextRetryAt row; createdAt := createdAt row;
           recoveredAt := recoveredAt row |} ] /\
    List.length (failedPayments (db v')) = List.length (failedPayments (db v)) /\
    dunningLogs (db v') = dunningLogs (db v) /\
    emailsSent v' = emailsSent v.
Proof.
  induction nows as [|now nows IH]; intros v row n Hr Hrows Hn Hlo Hhi.
  - cbn [redeliver fold_left List.length Z.of_nat]. rewrite Z.add_0_r, Hrows.
    split; [|auto]. destruct row; cbn in Hn |- *. now rewrite Hn.
  - assert (Hattempts : attempts row = n) by (unfold attempts; now rewrite Hn).
    assert (Hnext : Drizzle.int4 (attempts row + 1) = true).
    { rewrite Hattempts. apply (int4_between n _ _ Hlo Hhi).
      cbn [List.length]. lia. }
    destruct (handlePaymentFailed_counts env now paymentIntent v row user customerEmail_
                Hrows Hr Hnext) as [E H1].
    pose proof (customerEmailOf_world env paymentIntent v) as [Hdb Hmail].
    set (v1 := snd (handlePaymentFailed env now paymentIntent v)) in *.
    assert (Hv1 : v1 = bumped row (snd (customerEmailOf env paymentIntent v)))
      by (unfold v1; now rewrite E).
    assert (Hr1 : Resolves env paymentIntent v1 user customerEmail_).
    { apply (Resolves_same_users env paymentIntent v); [|exact Hr].
      rewrite Hv1. cbn [bumped db users]. now rewrite Hdb. }
    rewrite Hattempts in H1.
    assert (Hhi' : Drizzle.int4 (n + 1 + Z.of_nat (List.length nows)) = true).
    { rewrite <- Hhi. f_equal. cbn [List.length]. lia. }
    rewrite Hattempts in Hnext.
    destruct (IH v1 _ (n + 1) Hr1 H1 eq_refl Hnext Hhi') as [Ha [Hb [Hc Hd]]].
    cbn [redeliver fold_left]. fold v1. fold (redeliver env paymentIntent nows v1).
    split.
    { rewrite Ha. cbn [id userId stripePaymentIntentId stripeCustomerId customerEmail
                       amount currency status failureReason nextRetryAt createdAt
                       recoveredAt List.length].
      do 3 f_equal. lia. }
    split.
    { rewrite Hb, Hv1. unfold bumped. cbn [db failedPayments].
      rewrite length_map. now rewrite Hdb. }
    split.
    { rewrite Hc, Hv1. cbn [bumped db dunningLogs]. now rewrite Hdb. }
    rewrite Hd, Hv1. exact Hmail.
Qed.

(** X15. The attempt count counts deliveries handled one after another:
    once a first delivery of a failure has created its row, delivering
    the same event [k] more times (the collaborators answering as
    before, and [1 + k] being a count the 32-bit column holds) leaves
    that one row with [attemptCount = 1 + k], nothing else in it
    changing, and adds no row, no dunning log and no email. *)
Theorem attempt_count_counts_deliveries env now nows paymentIntent w :
  rowsFor (pi_id paymentIntent) (db w) = [] ->
  let w1 := snd (handlePaymentFailed env now paymentIntent w) in
  rowsFor (pi_id paymentIntent) (db w1) <> [] ->
  1 + Z.of_nat (List.length nows) <= 2147483647 ->
  let wk := redeliver env paymentIntent nows w1 in
  exists row,
    rowsFor (pi_id paymentIntent) (db w1) = [row] /\
    attemptCount row = Some 1 /\
    rowsFor (pi_id paymentIntent) (db wk) =
      [ {| id := id row; userId := userId row;
           stripePaymentIntentId := stripePaymentIntentId row;
           stripeCustomerId := stripeCustomerId row;
           customerEmail := customerEmail row;
           amount := amount row; currency := currency row;
           status := status row; failureReason := failureReason row;
           attemptCount := Some (1 + Z.of_nat (List.length nows));
           nextRetryAt := nextRetryAt row; createdAt := createdAt row;
           recoveredAt := recoveredAt row |} ] /\
    List.length (failedPayments (db wk)) = List.length (failedPayments (db w1)) /\
    dunningLogs (db wk) = dunningLogs (db w1) /\
    emailsSent wk = emailsSent w1.
Proof.
  intros Hnone w1 Hsome Hk wk.
  destruct (first_delivery_stores env now paymentIntent w Hnone Hsome)
    as [user [em [customerId [Hr Hrows]]]].
  eexists. split; [exact Hrows|]. split; [reflexivity|].
  apply (redeliver_counts env paymentIntent user em nows w1 _ 1 Hr Hrows eq_refl eq_refl).
  unfold Drizzle.int4. apply andb_true_iff. split; apply Z.leb_le; lia.
Qed.

Lemma attempt_count_counts_deliveries_witness :
  let w1 := snd (handlePaymentFailed Sample.env 1000 Sample.intent
                   (Sample.world Sample.shopDb)) in
  let wk := redeliver Sample.env Sample.intent [2000; 3000; 4000] w1 in
  map attemptCount (rowsFor "pi_1" (db w1)) = [Some 1] /\
  rowsFor "pi_1" (db wk) =
    [ {| id := 1; userId := 7; stripePaymentIntentId := "pi_1";
         stripeCustomerId := "cus_1"; customerEmail := "jo@mail.test";
         amount := 4999; currency := "usd"; status := Some "failed";
         failureReason := Some "Your card was declined.";
         attemptCount := Some 4; nextRetryAt := Some 86401000;
         createdAt := Some 1000; recoveredAt := None |} ] /\
  List.length (failedPayments (db wk)) = List.length (failedPayments (db w1)) /\
  dunningLogs (db wk) = dunningLogs (db w1) /\
  emailsSent wk = emailsSent w1.
Proof.
  cbv zeta.
  assert (Hsome : rowsFor (pi_id Sample.intent)
                    (db (snd (handlePaymentFailed Sample.env 1000 Sample.intent
                                (Sample.world Sample.shopDb)))) <> [])
    by (vm_compute; discriminate).
  assert (Hk : 1 + Z.of_nat (List.length [2000; 3000; 4000]) <= 2147483647)
    by (vm_compute; discriminate).
  destruct (attempt_count_counts_deliveries Sample.env 1000 [2000; 3000; 4000]
              Sample.intent (Sample.world Sample.shopDb) eq_refl Hsome Hk)
    as [row [Hrow [Hone [Hcount Hrest]]]].
  injection Hrow as <-.
  split; [reflexivity|]. split; [exact Hcount | exact Hrest].
Defined.

(** ** Calls and emails of one failed-payment event *)

Lemma customerEmailOf_receipt env paymentIntent w :
  Js.truthy (receipt_email paymentIntent) = true ->
  customerEmailOf env paymentIntent w = (Returned (receipt_email paymentIntent), w).
Proof.
  intros H. unfold customerEmailOf, ret. rewrite H. cbn [negb andb].
  destruct (customer paymentIntent); reflexivity.
Qed.

(** X16. One failed-payment event makes at most one customer lookup
    followed by at most one email, and no other call.  When the event
    carries a receipt email there is no lookup at all, and the receipt
    email is the address the failure is stored and notified under (it
    takes precedence over the email Stripe has for the customer). *)
Theorem failed_event_calls env now paymentIntent w :
  (exists lookups mails,
     calls (snd (handlePaymentFailed env now paymentIntent w))
       = (calls w ++ lookups ++ mails)%list /\
     forallb isCustomersRetrieve lookups = true /\
     forallb isEmailsSend mails = true /\
     (List.length lookups <= 1)%nat /\
     (List.length mails <= 1)%nat /\
     (Js.truthy (receipt_email paymentIntent) = true -> lookups = [])) /\
  (forall user customerEmail_,
     Js.truthy (receipt_email paymentIntent) = true ->
     Resolves env paymentIntent w user customerEmail_ ->
     receipt_email paymentIntent = Some customerEmail_).
Proof.
  split.
  2:{ intros user em Ht [_ He _].
      rewrite (customerEmailOf_receipt env paymentIntent w Ht) in He.
      cbn in He. congruence. }
  destruct (customerEmailOf_lookups env paymentIntent w)
    as [lookups [Hw1 [Hlook [Hlen Hrec]]]].
  assert (Hnone : exists lookups0 mails,
            calls w = (calls w ++ lookups0 ++ mails)%list /\
            forallb isCustomersRetrieve lookups0 = true /\
            forallb isEmailsSend mails = true /\
            (List.length lookups0 <= 1)%nat /\ (List.length mails <= 1)%nat /\
            (Js.truthy (receipt_email paymentIntent) = true -> lookups0 = [])).
  { exists [], []. rewrite app_nil_r. cbn. repeat split; auto. }
  assert (Hlookups : exists lookups0 mails,
            calls (snd (customerEmailOf env paymentIntent w))
              = (calls w ++ lookups0 ++ mails)%list /\
            forallb isCustomersRetrieve lookups0 = true /\
            forallb isEmailsSend mails = true /\
            (List.length lookups0 <= 1)%nat /\ (List.length mails <= 1)%nat /\
            (Js.truthy (receipt_email paymentIntent) = true -> lookups0 = [])).
  { exists lookups, []. rewrite Hw1, app_nil_r. cbn. repeat split; auto. }
  destruct (handlePaymentFailed_cases env now paymentIntent w)
    as [[user [em Hr]] | [E | E]]; [|rewrite E; exact Hnone | rewrite E; exact Hlookups].
  destruct (handlePaymentFailed_outcomes env now paymentIntent w user em Hr)
    as [[existing [Hf E]] | [[message E] | [[message E]
        | [customerId [payment [Hf [Hc [_ [_ E]]]]]]]]]; rewrite E; cbn [snd];
    [exact Hlookups | exact Hlookups | exact Hlookups |].
  destruct (firstFailureTemplate (user_id user) (db w)) as [template|];
    [|exact Hlookups].
  exists lookups. eexists. unfold notified, inserted. cbn [calls]. rewrite Hw1.
  cbn [calls]. rewrite <- app_assoc. split; [reflexivity|].
  cbn. repeat split; auto.
Qed.

(** X17. When the event gives no usable customer email (no receipt email,
    and no customer, a deleted customer or a customer without email),
    the handler returns normally and stores nothing: no table is written
    and no email is sent. *)
Theorem no_usable_email_stores_nothing env now paymentIntent w :
  NoEmail env paymentIntent ->
  fst (handlePaymentFailed env now paymentIntent w) = Returned tt /\
  db (snd (handlePaymentFailed env now paymentIntent w)) = db w /\
  emailsSent (snd (handlePaymentFailed env now paymentIntent w)) = emailsSent w.
Proof.
  intros Hno.
  assert (He : exists e, fst (customerEmailOf env paymentIntent w) = Returned e /\
                         Js.truthy e = false).
  { unfold customerEmailOf, bind, external, ret.
    destruct Hno as [Hr Hc | customerId c Hr Hc Hne Hret Hbad].
    - rewrite Hr. cbn [negb andb].
      destruct (customer paymentIntent) as [customerId|]; cbn in Hc |- *; [|eauto].
      apply negb_false_iff in Hc. rewrite Hc. cbn. eauto.
    - rewrite Hc, Hr, Hret. apply String.eqb_neq in Hne. rewrite Hne. cbn [negb andb].
      destruct Hbad as [Hd | Hm].
      + rewrite Hd. cbn. eauto.
      + destruct (deleted c); cbn; [eauto|].
        exists (Js.orNull (email c)). split; [reflexivity|].
        unfold Js.orNull. now rewrite Hm. }
  destruct He as [e [He Hfalsy]].
  pose proof (customerEmailOf_world env paymentIntent w) as [Hdb Hmail].
  destruct (handlePaymentFailed_cases env now paymentIntent w)
    as [[user [em [_ Hre Hne]]] | [E | E]].
  - exfalso. rewrite He in Hre. injection Hre as ->.
    cbn in Hfalsy. apply negb_false_iff in Hfalsy. now apply String.eqb_eq in Hfalsy.
  - rewrite E. auto.
  - rewrite E, He. cbn [fst snd]. auto.
Qed.

Lemma no_usable_email_stores_nothing_witness :
  fst (handlePaymentFailed Fixture.failingEnv 1000 Fixture.silentIntent
         (Sample.world Sample.shopDb)) = Returned tt /\
  db (snd (handlePaymentFailed Fixture.failingEnv 1000 Fixture.silentIntent
             (Sample.world Sample.shopDb))) = Sample.shopDb /\
  emailsSent (snd (handlePaymentFailed Fixture.failingEnv 1000 Fixture.silentIntent
                     (Sample.world Sample.shopDb))) = [].
Proof.
  apply (no_usable_email_stores_nothing Fixture.failingEnv 1000 Fixture.silentIntent
           (Sample.world Sample.shopDb)).
  apply (NoCustomerEmail _ _ "cus_4" {| deleted := true; email := None |});
    try reflexivity; [discriminate | now left].
Defined.

(** ** Rendering *)

Lemma prefix_other_head c token' a rest :
  Ascii.eqb a c = false -> String.prefix (String c token') (String a rest) = false.
Proof.
  intros H. cbn. destruct (ascii_dec c a) as [->|]; [|reflexivity].
  now rewrite Ascii.eqb_refl in H.
Qed.

Lemma replaceFrom_lacks c token' replacement s :
  lacks c s = true ->
  forall before, Js.replaceFrom (String c token') replacement before s O = s.
Proof.
  induction s as [|a rest IH]; intros Hl before; [reflexivity|].
  cbn [lacks] in Hl. apply andb_true_iff in Hl. destruct Hl as [Ha Hrest].
  apply negb_true_iff in Ha.
  cbn [Js.replaceFrom]. rewrite (prefix_other_head c token' a rest Ha).
  now rewrite (IH Hrest).
Qed.

(** X18. A template body without an opening brace contains no
    placeholder, and is sent exactly as it is, whatever the link, the
    amount and the customer email are. *)
Theorem body_without_braces_is_sent_as_is env updateLink payment templateBody :
  lacks "{" templateBody = true ->
  renderBody env updateLink payment templateBody = templateBody.
Proof.
  intros H. unfold renderBody, Js.replaceAll.
  now rewrite !(replaceFrom_lacks "{" _ _ templateBody H).
Qed.

Lemma body_without_braces_is_sent_as_is_witness :
  renderBody Sample.env "https://retainr.test/payment/1"
    (Sample.tracked "failed" None) "Your payment failed. Please call us."
  = "Your payment failed. Please call us.".
Proof.
  exact (body_without_braces_is_sent_as_is Sample.env "https://retainr.test/payment/1"
           (Sample.tracked "failed" None) "Your payment failed. Please call us."
           eq_refl).
Defined.

(** ** Pages *)

Lemma serveFrom_answer fs fallback paths :
  Pages.serveFrom fs paths fallback =
    match find (Pages.existsSync fs) paths with
    | Some path =>
        match Pages.readFileSync fs path with
        | Returned html => Returned {| statusCode := 200; payload := Text html |}
        | Thrown message => Thrown message
        end
    | None =>
        if negb (String.eqb fallback "")
        then Returned {| statusCode := 200; payload := Text fallback |}
        else Returned {| statusCode := 404; payload := Text "Page not found" |}
    end.
Proof.
  induction paths as [|path rest IH]; cbn [Pages.serveFrom find]; [reflexivity|].
  destruct (Pages.existsSync fs path); [reflexivity | exact IH].
Qed.

(** The sample disk holds the landing page at the deployment path only. *)
Example sample_landing_page :
  Pages.serveHTML Fixture.disk "landing.html" "<p>fallback</p>"
  = Returned {| statusCode := 200; payload := Text "<h1>Retainr</h1>" |}.
Proof. reflexivity. Qed.

(** X19. [serveHTML] sends the first of its three candidate files that
    exists (the working directory first, then the deployment path, then
    the path next to the code), and uses the fallback only when none
    exists; with a non-empty fallback it never answers 404, and 404 is
    answered exactly when no candidate exists and the fallback is
    empty. *)
Theorem serveHTML_prefers_files fs filename fallback :
  (forall path html,
     find (Pages.existsSync fs) (Pages.candidates fs filename) = Some path ->
     Pages.readFileSync fs path = Returned html ->
     Pages.serveHTML fs filename fallback
       = Returned {| statusCode := 200; payload := Text html |}) /\
  (find (Pages.existsSync fs) (Pages.candidates fs filename) = None ->
   fallback <> "" ->
   Pages.serveHTML fs filename fallback
     = Returned {| statusCode := 200; payload := Text fallback |}) /\
  (forall r,
     Pages.serveHTML fs filename fallback = Returned r ->
     (statusCode r = 404 <->
        find (Pages.existsSync fs) (Pages.candidates fs filename) = None /\
        fallback = "")).
Proof.
  unfold Pages.serveHTML. rewrite serveFrom_answer.
  destruct (find (Pages.existsSync fs) (Pages.candidates fs filename)) as [path|].
  - split; [|split].
    + intros p html [= <-] Hr. now rewrite Hr.
    + discriminate.
    + intros r Hr. split.
      * destruct (Pages.readFileSync fs path); [|discriminate].
        injection Hr as <-. discriminate.
      * intros [H _]. discriminate.
  - split; [|split].
    + discriminate.
    + intros _ Hne. apply String.eqb_neq in Hne. now rewrite Hne.
    + intros r Hr. destruct (String.eqb_spec fallback "") as [He|Hne];
        cbn [negb] in Hr; injection Hr as <-; cbn [statusCode]; split.
      * auto.
      * reflexivity.
      * discriminate.
      * intros [_ He]. contradiction.
Qed.

(** ** Events about different payment intents *)

Lemma rowsFor_untouched (g : FailedPayment -> FailedPayment) target other rows :
  NoDup (map id rows) ->
  In target rows ->
  tracks other target = false ->
  (forall p, tracks other (g p) = tracks other p) ->
  filter (tracks other) (map (fun p => if id p =? id target then g p else p) rows)
    = filter (tracks other) rows.
Proof.
  intros Hnd Hin Hother Hg.
  rewrite (filter_map_same (tracks other) (fun p => if id p =? id target then g p else p)).
  2:{ intros p. destruct (id p =? id target); [apply Hg | reflexivity]. }
  rewrite <- (map_id (filter (tracks other) rows)) at 2.
  apply map_ext_in. intros p Hp. apply filter_In in Hp. destruct Hp as [Hp Ht].
  destruct (Z.eqb_spec (id p) (id target)) as [Hid|]; [|reflexivity].
  rewrite (NoDup_id_same rows p target Hnd Hp Hin Hid) in Ht. congruence.
Qed.

(** X20. Events do not cross payment intents: in a store with a primary
    key, neither a failed nor a succeeded event for one payment intent
    changes the rows that track another payment intent. *)
Theorem events_do_not_cross env now paymentIntent w other :
  wellKeyed (db w) ->
  other <> pi_id paymentIntent ->
  rowsFor other (db (snd (handlePaymentFailed env now paymentIntent w)))
    = rowsFor other (db w) /\
  rowsFor other (db (snd (handlePaymentSucceeded now paymentIntent w)))
    = rowsFor other (db w).
Proof.
  intros [Hnd _] Hother.
  assert (Hrow : forall row,
            find (tracks (pi_id paymentIntent)) (failedPayments (db w)) = Some row ->
            In row (failedPayments (db w)) /\ tracks other row = false).
  { intros row Hf. apply find_some in Hf. destruct Hf as [Hin Ht]. split; [exact Hin|].
    apply String.eqb_eq in Ht. unfold tracks. rewrite Ht.
    apply String.eqb_neq. congruence. }
  split.
  - destruct (handlePaymentFailed_unresolved env now paymentIntent w)
      as [[Hdb _] | [user [em Hr]]]; [now rewrite Hdb|].
    pose proof (customerEmailOf_world env paymentIntent w) as [Hdb _].
    destruct (handlePaymentFailed_outcomes env now paymentIntent w user em Hr)
      as [[existing [Hf E]] | [[message E] | [[message E]
          | [customerId [payment [Hf [Hc [_ [_ E]]]]]]]]]; rewrite E; cbn [snd].
    + rewrite bumped_db_snd. unfold rowsFor, bumped. cbn [db failedPayments].
      destruct (Hrow existing Hf) as [Hin Ht].
      now apply rowsFor_untouched.
    + now rewrite Hdb.
    + unfold rowsFor, idDrawn. cbn [db failedPayments]. now rewrite Hdb.
    + unfold rowsFor.
      replace (failedPayments (db _)) with
        (failedPayments (db w) ++
           [newRow now paymentIntent user em customerId (failedPayments_id_seq (db w))])%list.
      * rewrite filter_app. cbn. unfold tracks at 2. cbn.
        replace (String.eqb (pi_id paymentIntent) other) with false.
        -- apply app_nil_r.
        -- symmetry. apply String.eqb_neq. congruence.
      * destruct (firstFailureTemplate (user_id user) (db w));
          cbn [notified inserted db failedPayments]; now rewrite Hdb.
  - rewrite handlePaymentSucceeded_run.
    destruct (find (tracks (pi_id paymentIntent)) (failedPayments (db w)))
      as [fp|] eqn:Hf; [|reflexivity].
    destruct (eqText (status fp) "failed"); [|reflexivity].
    cbn [snd]. unfold rowsFor, recovered. cbn [db failedPayments].
    destruct (Hrow fp eq_refl) as [Hin Ht].
    now apply rowsFor_untouched.
Qed.

Lemma events_do_not_cross_witness :
  let w := Sample.world (Sample.trackingDb "failed" None) in
  rowsFor "pi_1" (db (snd (handlePaymentFailed Sample.env 1000 Fixture.otherIntent w)))
    = rowsFor "pi_1" (db w) /\
  rowsFor "pi_1" (db (snd (handlePaymentSucceeded 1000 Fixture.otherIntent w)))
    = rowsFor "pi_1" (db w).
Proof.
  apply (events_do_not_cross Sample.env 1000 Fixture.otherIntent
           (Sample.world (Sample.trackingDb "failed" None)) "pi_1").
  - split; [repeat constructor; intros [] | repeat constructor].
  - discriminate.
Defined.

(** ** Amounts *)

Lemma centsExact_sound env a :
  centsExact a = true -> amountText env a = exactAmount a.
Proof.
  unfold centsExact, amountText, exactAmount, Js.toFixed2.
  change (Js.numberOfZ 100) with hundredF.
  change (Js.numberOfZ (10 ^ 21)) with limitF.
  destruct (Prim2SF (PrimFloat.div (Js.numberOfZ a) hundredF)) as [s| | |s m e];
    try discriminate.
  - intros H. apply Z.eqb_eq in H. subst a. reflexivity.
  - destruct s; [discriminate|]. intros H.
    apply andb_true_iff in H. destruct H as [Hlim Hn].
    apply negb_true_iff in Hlim. apply Z.eqb_eq in Hn.
    rewrite Hlim, Hn. reflexivity.
Qed.

Lemma exactFrom_covers n :
  forall a0 a, exactFrom n a0 = true -> a0 <= a < a0 + Z.of_nat n -> centsExact a = true.
Proof.
  induction n as [|n IH]; intros a0 a H Hr; [lia|].
  cbn [exactFrom] in H. apply andb_true_iff in H. destruct H as [H0 Hrest].
  destruct (Z.eq_dec a a0) as [->|]; [exact H0|].
  apply (IH (a0 + 1)); [exact Hrest | lia].
Qed.

(** X21. For every amount from 0 to 99999 minor units, the amount the
    Dunning Notifier renders is the exact decimal: a dollar sign, the
    units, a point and the two-digit cents.  The division by 100 on
    doubles and [toFixed(2)] lose nothing in that range. *)
Theorem amounts_below_1000_render_exactly env a :
  0 <= a < 100000 -> amountText env a = exactAmount a.
Proof.
  intros Hr. apply centsExact_sound.
  apply (exactFrom_covers (Z.to_nat 100000) 0); [|lia].
  vm_compute. reflexivity.
Qed.

Lemma amounts_below_1000_render_exactly_witness :
  amountText Sample.env 1005 = "$10.05".
Proof.
  apply (amounts_below_1000_render_exactly Sample.env 1005). lia.
Defined.

(** ** Numbers the columns cannot hold *)

(** X24. The amount of a failed payment is stored in a 32-bit [integer]
    column.  A new failure that passes every check but whose amount is
    beyond that range is not tracked: the database refuses the insert,
    the webhook answers 500, no table is written and no email is sent. *)
Theorem oversized_amount_is_refused env now req w event user customerEmail_ :
  verifiedEvent env req = Some event ->
  event_type event = "payment_intent.payment_failed" ->
  Resolves env (data_object event) w user customerEmail_ ->
  find (tracks (pi_id (data_object event))) (failedPayments (db w)) = None ->
  Drizzle.int4 (pi_amount (data_object event)) = false ->
  let w' := snd (stripeWebhook env now req w) in
  (exists message,
     fst (stripeWebhook env now req w)
       = Returned {| statusCode := 500; payload := Text ("Error: " ++ message) |}) /\
  users (db w') = users (db w) /\
  failedPayments (db w') = failedPayments (db w) /\
  emailTemplates (db w') = emailTemplates (db w) /\
  dunningLogs (db w') = dunningLogs (db w) /\
  emailsSent w' = emailsSent w.
Proof.
  intros Hv Ht Hr Hf Ha w'.
  pose proof (customerEmailOf_world env (data_object event) w) as [Hdb Hmail].
  assert (E : handlePaymentFailed env now (data_object event) w =
              (Thrown "value out of range for type integer",
               snd (customerEmailOf env (data_object event) w))).
  { rewrite (handlePaymentFailed_resolved env now (data_object event) w user
               customerEmail_ Hr), Hf.
    change (recordFailure env now (data_object event) user customerEmail_ None) with
      (await failedPayment <-
         Drizzle.insert_failedPayments now
           (newFailure now (data_object event) user customerEmail_);
       sendDunningEmail env now (id failedPayment) (user_id user)).
    unfold bind. rewrite insert_failedPayments_run.
    unfold Drizzle.integersFit, newFailure.
    cbn [Drizzle.v_userId Drizzle.v_amount Drizzle.v_attemptCount].
    rewrite Ha, andb_false_r. reflexivity. }
  subst w'.
  rewrite (stripeWebhook_verified env now req w event Hv),
    (dispatch_failed env now event w Ht), E.
  cbn [fst snd]. rewrite Hdb.
  split; [eexists; reflexivity | repeat split; assumption].
Qed.

Lemma oversized_amount_is_refused_witness :
  let w := Sample.world Sample.shopDb in
  let w' := snd (stripeWebhook Fixture.oversizedEnv 1000 (Sample.request "good" "failed") w) in
  (exists message,
     fst (stripeWebhook Fixture.oversizedEnv 1000 (Sample.request "good" "failed") w)
       = Returned {| statusCode := 500; payload := Text ("Error: " ++ message) |}) /\
  users (db w') = [Sample.merchant] /\
  failedPayments (db w') = [] /\
  emailTemplates (db w') = [Sample.template] /\
  dunningLogs (db w') = [] /\
  emailsSent w' = [].
Proof.
  apply (oversized_amount_is_refused Fixture.oversizedEnv 1000
           (Sample.request "good" "failed") (Sample.world Sample.shopDb)
           {| event_type := "payment_intent.payment_failed";
              data_object := Fixture.oversizedIntent |}
           Sample.merchant "jo@mail.test"); try reflexivity.
  split.
  - exists "acct_1". repeat split. discriminate.
  - reflexivity.
  - discriminate.
Defined.

(** X25. The attempt count is stored in a 32-bit [integer] column too: a
    failure of a payment intent whose row already counts 2147483647
    attempts is not counted; the database refuses the update, the handler
    throws, and no table is written. *)
Theorem attempt_count_stops_at_maximum env now paymentIntent w user customerEmail_ existing :
  Resolves env paymentIntent w user customerEmail_ ->
  find (tracks (pi_id paymentIntent)) (failedPayments (db w)) = Some existing ->
  attemptCount existing = Some 2147483647 ->
  (exists message, fst (handlePaymentFailed env now paymentIntent w) = Thrown message) /\
  db (snd (handlePaymentFailed env now paymentIntent w)) = db w /\
  emailsSent (snd (handlePaymentFailed env now paymentIntent w)) = emailsSent w.
Proof.
  intros Hr Hf Hn.
  pose proof (customerEmailOf_world env paymentIntent w) as [Hdb Hmail].
  rewrite (handlePaymentFailed_resolved env now paymentIntent w user customerEmail_ Hr), Hf.
  rewrite recordFailure_count_refused.
  - cbn [fst snd]. split; [eexists; reflexivity | split; assumption].
  - unfold attempts. now rewrite Hn.
Qed.

Lemma attempt_count_stops_at_maximum_witness :
  let w := Sample.world Fixture.wornDb in
  (exists message, fst (handlePaymentFailed Sample.env 1000 Sample.intent w) = Thrown message) /\
  db (snd (handlePaymentFailed Sample.env 1000 Sample.intent w)) = Fixture.wornDb /\
  emailsSent (snd (handlePaymentFailed Sample.env 1000 Sample.intent w)) = [].
Proof.
  exact (attempt_count_stops_at_maximum Sample.env 1000 Sample.intent
           (Sample.world Fixture.wornDb) Sample.merchant "jo@mail.test"
           (List.hd (Sample.tracked "failed" None) (failedPayments Fixture.wornDb))
           (sample_intent_resolves (Sample.world Fixture.wornDb) eq_refl)
           eq_refl eq_refl).
Defined.
